(** * TriWare device layer: BLE drivers, calibration ledger, health monitor

    A shallow embedding of [backend/app/devices/ble_manager.py] and
    [backend/app/devices/calibration.py].

    Conventions of the embedding.
    - A Python [int] is an integer ([Z]); a Python [float] is a binary64
      floating-point number ([PrimFloat.float]), and [+], [-], [/], [abs]
      and the comparisons on numbers are those of the interpreter: the
      result of an arithmetic operation is the nearest double, a mixed
      operation converts its [int] operand first and raises
      [OverflowError] when that is beyond the doubles, and a comparison of
      an [int] with a [float] is exact.
    - The quality scores, which the code only ever sets from the literals
      [0.0], [0.3], [0.4], [0.6], [0.8], [0.9], [1.0] and compares with the
      literals [0.8] and [0.6], are kept as the decimals they are written
      as ([Q]).
    - A naive UTC [datetime] is the number of microseconds since the epoch
      ([Z]); a [timedelta] is a number of microseconds.
    - Python dictionaries are [gmap]s; lists are lists.
    - A call that can raise returns a [result]; a [try ... except Exception]
      block is a [match] on it.
    - What the outside world decides (the BLE transport, the wall clock, what
      a driver's [read_data] delivers) is passed in explicitly. *)

From Stdlib Require Import ZArith QArith Lia Lqa.
From Stdlib Require Import Floats Uint63.
From Stdlib Require Import Strings.Byte.
From stdpp Require Import gmap strings list fin_maps.

Local Open Scope Z_scope.
Local Open Scope string_scope.

(** ** Python values, exceptions *)

Module Py.

(** [int] and [float]. *)
Inductive number : Type :=
| Int (z : Z)
| Float (f : float).

(** The scalars that occur in [DeviceReading.values] and in metadata. *)
Inductive pyval : Type :=
| PNum (n : number)
| PStr (s : string)
| PNone.

Inductive exn : Type :=
| PyException (msg : string)
| ValueError (msg : string)
| TypeError (msg : string)
| KeyError (key : string)
| IndexError (msg : string)
| StructError (msg : string)
| ZeroDivisionError (msg : string)
| OverflowError (msg : string)
| NotImplementedError
| BleakError (msg : string).

(** [str(e)] *)
Definition str (e : exn) : string :=
  match e with
  | PyException m | ValueError m | TypeError m | IndexError m
  | StructError m | ZeroDivisionError m | OverflowError m | BleakError m => m
  | KeyError k => "'" ++ k ++ "'"
  | NotImplementedError => ""
  end.

Inductive result (A : Type) : Type :=
| Ok (a : A)
| Raise (e : exn).
Arguments Ok {A} a.
Arguments Raise {A} e.

Definition bind {A B} (r : result A) (k : A -> result B) : result B :=
  match r with
  | Ok a => k a
  | Raise e => Raise e
  end.

#[global] Instance result_ret : MRet result := @Ok.
#[global] Instance result_bind : MBind result := fun A B k r => bind r k.

Definition type_name (v : pyval) : string :=
  match v with
  | PNum (Int _) => "int"
  | PNum (Float _) => "float"
  | PStr _ => "str"
  | PNone => "NoneType"
  end.

(** *** Conversion of an [int] to a [float] *)

(** The [int]s up to 2^53 in magnitude: a double holds each of them
    exactly. *)
Definition exact (z : Z) : bool := (Z.abs z <=? 9007199254740992)%Z.

(** [float(z)] for such an [int]. *)
Definition float_of_exact (z : Z) : float :=
  if (z <? 0)%Z
  then PrimFloat.opp (PrimFloat.of_uint63 (Uint63.of_Z (- z)))
  else PrimFloat.of_uint63 (Uint63.of_Z z).

(** [float(z)]: the nearest double, ties to even; an [int] beyond the
    largest double raises. *)
Definition float_of_int (z : Z) : result float :=
  if exact z then Ok (float_of_exact z)
  else
    match SpecFloat.binary_normalize prec emax z 0 false with
    | S754_infinity _ =>
        Raise (OverflowError "int too large to convert to float")
    | sf => Ok (SF2Prim sf)
    end.

Definition to_float (n : number) : result float :=
  match n with
  | Int z => float_of_int z
  | Float f => Ok f
  end.

(** *** Arithmetic *)

Definition unsupported (op : string) (a b : pyval) : exn :=
  TypeError ("unsupported operand type(s) for " ++ op ++ ": '"
               ++ type_name a ++ "' and '" ++ type_name b ++ "'").

(** [acc + v] for a numeric accumulator [acc], as [sum] performs it. *)
Definition add (acc : number) (v : pyval) : result number :=
  match v with
  | PNum b =>
      match acc, b with
      | Int x, Int y => Ok (Int (x + y))
      | _, _ =>
          x ← to_float acc;
          y ← to_float b;
          Ok (Float (PrimFloat.add x y))
      end
  | _ => Raise (unsupported "+" (PNum acc) v)
  end.

(** [a - b] *)
Definition sub (a b : number) : result number :=
  match a, b with
  | Int x, Int y => Ok (Int (x - y))
  | _, _ =>
      x ← to_float a;
      y ← to_float b;
      Ok (Float (PrimFloat.sub x y))
  end.

(** [abs(a)] *)
Definition abs (a : number) : number :=
  match a with
  | Int x => Int (Z.abs x)
  | Float x => Float (PrimFloat.abs x)
  end.

(** The double nearest to the quotient [a / b] of two [int]s, [b <> 0]:
    the quotient is cut after at least 64 significant bits, with one
    more bit that records whether anything was cut off, and rounded
    once. *)
Definition nearest_quotient (a b : Z) : spec_float :=
  if (a =? 0)%Z then S754_zero (b <? 0)%Z
  else
    let k := Z.max 0 (64 + Z.log2_up (Z.abs b) - Z.log2 (Z.abs a)) in
    let n := Z.abs a * 2 ^ k in
    let q := n `div` Z.abs b in
    let sticky := if (n `mod` Z.abs b =? 0)%Z then 0 else 1 in
    let m := 2 * q + sticky in
    SpecFloat.binary_normalize prec emax
      (if xorb (a <? 0)%Z (b <? 0)%Z then - m else m) (- k - 1) false.

(** [a / b]: true division. Two [int]s give the double nearest to their
    quotient; otherwise the [int] operand is converted and the doubles
    are divided. *)
Definition truediv (a b : number) : result number :=
  match a, b with
  | Int x, Int y =>
      if (y =? 0)%Z then Raise (ZeroDivisionError "division by zero")
      else if exact x && exact y
      then Ok (Float (PrimFloat.div (float_of_exact x) (float_of_exact y)))
      else
        match nearest_quotient x y with
        | S754_infinity _ =>
            Raise (OverflowError
                     "integer division result too large for a float")
        | sf => Ok (Float (SF2Prim sf))
        end
  | _, _ =>
      x ← to_float a;
      y ← to_float b;
      if PrimFloat.eqb y 0
      then Raise (ZeroDivisionError "float division by zero")
      else Ok (Float (PrimFloat.div x y))
  end.

(** *** Comparisons *)

(** The exact value of a double. *)
Inductive xval : Type :=
| NaN
| NegInf
| Fin (q : Q)
| PosInf.

Definition SF_value (f : spec_float) : xval :=
  match f with
  | S754_zero _ => Fin 0
  | S754_infinity s => if s then NegInf else PosInf
  | S754_nan => NaN
  | S754_finite s m e =>
      Fin (inject_Z (if s then Z.neg m else Z.pos m) * 2 ^ e)%Q
  end.

Definition xleb (a b : xval) : bool :=
  match a, b with
  | NaN, _ | _, NaN => false
  | NegInf, _ | _, PosInf => true
  | Fin p, Fin q => Qle_bool p q
  | _, _ => false
  end.

Definition xltb (a b : xval) : bool :=
  match a, b with
  | NaN, _ | _, NaN => false
  | NegInf, NegInf | PosInf, PosInf => false
  | NegInf, _ | _, PosInf => true
  | Fin p, Fin q => negb (Qle_bool q p)
  | _, _ => false
  end.

(** [a <= b]. Two [int]s and two [float]s are compared as such. An
    [int] is compared with a [float] by value: through its double when
    the conversion is exact, and against the exact value of the [float]
    otherwise. *)
Definition leb (a b : number) : bool :=
  match a, b with
  | Int x, Int y => (x <=? y)%Z
  | Float x, Float y => PrimFloat.leb x y
  | Int x, Float y =>
      if exact x then PrimFloat.leb (float_of_exact x) y
      else xleb (Fin (inject_Z x)) (SF_value (Prim2SF y))
  | Float x, Int y =>
      if exact y then PrimFloat.leb x (float_of_exact y)
      else xleb (SF_value (Prim2SF x)) (Fin (inject_Z y))
  end.

(** [a < b]; [a > b] is [b < a]. *)
Definition ltb (a b : number) : bool :=
  match a, b with
  | Int x, Int y => (x <? y)%Z
  | Float x, Float y => PrimFloat.ltb x y
  | Int x, Float y =>
      if exact x then PrimFloat.ltb (float_of_exact x) y
      else xltb (Fin (inject_Z x)) (SF_value (Prim2SF y))
  | Float x, Int y =>
      if exact y then PrimFloat.ltb x (float_of_exact y)
      else xltb (SF_value (Prim2SF x)) (Fin (inject_Z y))
  end.

Definition le (a b : number) : Prop := leb a b = true.
Definition lt (a b : number) : Prop := ltb a b = true.

(** [d[key]] on a dictionary. *)
Definition getitem {A} (d : gmap string A) (key : string) : result A :=
  match d !! key with
  | Some v => Ok v
  | None => Raise (KeyError key)
  end.

End Py.

Import Py.

(** Microseconds in [timedelta(days=d)] and [timedelta(hours=h)]. *)
Definition timedelta_days (d : Z) : Z := d * 86400000000.
Definition timedelta_hours (h : Z) : Z := h * 3600000000.
(** [td.days] of a timedelta: whole days, rounded towards minus infinity. *)
Definition days_of (td : Z) : Z := td `div` 86400000000.

(** ** ble_manager.py *)

Module DeviceType.
Inductive t : Type :=
| BLOOD_PRESSURE
| PULSE_OXIMETER
| THERMOMETER
| WEIGHT_SCALE
| HEIGHT_METER
| GLUCOSE_METER.

#[global] Instance eq_dec : EqDecision t.
Proof. solve_decision. Defined.
End DeviceType.

Module DeviceStatus.
Inductive t : Type :=
| DISCONNECTED
| CONNECTING
| CONNECTED
| READING
| ERROR
| CALIBRATING.

#[global] Instance eq_dec : EqDecision t.
Proof. solve_decision. Defined.
End DeviceStatus.

Module DeviceInfo.
Record t : Type := Build {
  device_id : string;
  name : string;
  manufacturer : string;
  model : string;
  device_type : DeviceType.t;
  mac_address : string;
  rssi : Z;
  battery_level : option Z;
  firmware_version : option string;
  last_seen : option Z;
  is_paired : bool;
  calibration_status : string
}.
End DeviceInfo.

Module DeviceReading.
Record t : Type := Build {
  device_id : string;
  device_type : DeviceType.t;
  timestamp : Z;
  values : gmap string pyval;
  unit : string;
  quality_score : Q;
  metadata : gmap string pyval
}.
End DeviceReading.

(** The part of a [BleakClient] the drivers look at. *)
Module BleakClient.
Record t : Type := Build {
  address : string;
  is_connected : bool
}.
End BleakClient.

(** What the transport does during one [connect()] and one
    [disconnect()]: each awaited client call either returns or raises. *)
Record ConnectIO : Type := {
  io_connect : result unit;
  io_start_notify : result unit
}.

Record DisconnectIO : Type := {
  io_stop_notify : result unit;
  io_disconnect : result unit
}.

(** Reading callbacks registered on a driver; the only one the repository
    registers is [DeviceManager._handle_device_reading]. *)
Inductive Callback : Type :=
| _handle_device_reading.

Module DeviceDriver.

(** Which class the object is an instance of. *)
Inductive cls : Type :=
| Base
| BloodPressure
| PulseOximeter
| Thermometer.

Record t : Type := Build {
  class : cls;
  device_info : DeviceInfo.t;
  status : DeviceStatus.t;
  client : option BleakClient.t;
  callbacks : list Callback
}.

Definition set_status (s : DeviceStatus.t) (self : t) : t :=
  Build (class self) (device_info self) s (client self) (callbacks self).

Definition set_client (c : option BleakClient.t) (self : t) : t :=
  Build (class self) (device_info self) (status self) c (callbacks self).

(** [__init__] *)
Definition init (c : cls) (device_info : DeviceInfo.t) : t :=
  Build c device_info DeviceStatus.DISCONNECTED None [].

Definition add_callback (callback : Callback) (self : t) : t :=
  Build (class self) (device_info self) (status self) (client self)
        (callbacks self ++ [callback]).

(** [connect()]: the base class raises; the three device classes share
    one body up to the characteristic they subscribe to. *)
Definition connect (BLE_AVAILABLE : bool) (io : ConnectIO) (self : t)
  : result bool * t :=
  match class self with
  | Base => (Raise NotImplementedError, self)
  | BloodPressure | PulseOximeter | Thermometer =>
      if negb BLE_AVAILABLE then (Ok false, self)
      else
        let self := set_status DeviceStatus.CONNECTING self in
        let c := BleakClient.Build (DeviceInfo.mac_address (device_info self)) false in
        let self := set_client (Some c) self in
        match io_connect io with
        | Raise _ => (Ok false, set_status DeviceStatus.ERROR self)
        | Ok _ =>
            let c := BleakClient.Build (BleakClient.address c) true in
            let self := set_client (Some c) self in
            match io_start_notify io with
            | Raise _ => (Ok false, set_status DeviceStatus.ERROR self)
            | Ok _ => (Ok true, set_status DeviceStatus.CONNECTED self)
            end
        end
  end.

(** [disconnect()]: defined by the blood-pressure and pulse-oximeter
    drivers only; the thermometer driver inherits the base method. A
    client whose [disconnect()] returned reports [is_connected = False]
    afterwards; a call that raised leaves the client as it was. *)
Definition disconnect (io : DisconnectIO) (self : t) : result unit * t :=
  match class self with
  | Base | Thermometer => (Raise NotImplementedError, self)
  | BloodPressure | PulseOximeter =>
      match client self with
      | Some c =>
          if BleakClient.is_connected c then
            match io_stop_notify io with
            | Raise _ => (Ok tt, self)
            | Ok _ =>
                match io_disconnect io with
                | Raise _ => (Ok tt, self)
                | Ok _ =>
                    let c := BleakClient.Build (BleakClient.address c) false in
                    (Ok tt, set_status DeviceStatus.DISCONNECTED
                              (set_client (Some c) self))
                end
            end
          else (Ok tt, self)
      | None => (Ok tt, self)
      end
  end.

(** [read_data()]: only the blood-pressure driver overrides it, and it
    returns [None] on every path (the measurement arrives by
    notification). *)
Definition read_data (self : t) : result (option DeviceReading.t) * t :=
  match class self with
  | BloodPressure =>
      if bool_decide (status self = DeviceStatus.CONNECTED) then
        let self := set_status DeviceStatus.READING self in
        let self := set_status DeviceStatus.CONNECTED self in
        (Ok None, self)
      else (Ok None, self)
  | Base | PulseOximeter | Thermometer => (Raise NotImplementedError, self)
  end.

End DeviceDriver.

(** *** Byte buffers *)

Definition u8 (b : byte) : Z := Z.of_N (Byte.to_N b).

(** [data[0]] *)
Definition first_byte (data : list byte) : result Z :=
  match data with
  | b :: _ => Ok (u8 b)
  | [] => Raise (IndexError "bytearray index out of range")
  end.

(** [data[i:j]] for [0 <= i <= j]: never raises, may come out short. *)
Definition slice (data : list byte) (i j : nat) : list byte :=
  take (j - i) (drop i data).

(** [struct.unpack('<H', buf)[0]] *)
Definition unpack_H (buf : list byte) : result Z :=
  match buf with
  | [lo; hi] => Ok (u8 lo + 256 * u8 hi)
  | _ => Raise (StructError "unpack requires a buffer of 2 bytes")
  end.

Definition hex_digit (n : N) : Ascii.ascii :=
  Ascii.ascii_of_N (if (n <? 10)%N then 48 + n else 87 + n).

(** [data.hex()] *)
Fixpoint hex (data : list byte) : string :=
  match data with
  | [] => ""
  | b :: rest =>
      let n := Byte.to_N b in
      String (hex_digit (n / 16)) (String (hex_digit (n mod 16)) (hex rest))
  end.

Module BloodPressureDriver.

Definition _calculate_quality_score (systolic diastolic : number)
  : result Q :=
  if negb (leb (Int 50) systolic && leb systolic (Int 250))
     || negb (leb (Int 30) diastolic && leb diastolic (Int 150))
  then Ok 0.3%Q
  else if leb systolic diastolic then Ok 0.4%Q
  else
    pulse_pressure ← sub systolic diastolic;
    if ltb pulse_pressure (Int 20) || ltb (Int 100) pulse_pressure
    then Ok 0.6%Q
    else Ok 0.9%Q.

(** The IEEE-11073 conversion applied when the unit flag says kPa:
    [raw / 1000.0]. *)
Definition scale (unit_kpa : Z) (raw : Z) : result number :=
  if (unit_kpa =? 0)%Z then Ok (Int raw)
  else truediv (Int raw) (Float 1000).

(** Body of the [try] block of [_handle_bp_measurement], up to the
    construction of the reading; [now] is the clock value that
    [datetime.utcnow()] returns. *)
Definition parse_bp_measurement (self : DeviceDriver.t) (now : Z)
    (data : list byte) : result DeviceReading.t :=
  flags ← first_byte data;
  let unit_kpa := Z.land flags 1 in
  let unit := if (unit_kpa =? 0)%Z then "mmHg" else "kPa" in
  systolic ← unpack_H (slice data 1 3);
  diastolic ← unpack_H (slice data 3 5);
  mean_pressure ← unpack_H (slice data 5 7);
  systolic ← scale unit_kpa systolic;
  diastolic ← scale unit_kpa diastolic;
  mean_pressure ← scale unit_kpa mean_pressure;
  let timestamp_present := Z.land flags 2 in
  let pulse_rate_present := Z.land flags 4 in
  let offset := 7%nat in
  let offset := if (timestamp_present =? 0)%Z then offset else (offset + 7)%nat in
  pulse_rate ←
    (if negb (pulse_rate_present =? 0)%Z && (offset <? length data)%nat
     then raw ← unpack_H (slice data offset (offset + 2)); Ok (PNum (Int raw))
     else Ok PNone);
  quality_score ← _calculate_quality_score systolic diastolic;
  Ok (DeviceReading.Build
        (DeviceInfo.device_id (DeviceDriver.device_info self))
        DeviceType.BLOOD_PRESSURE
        now
        (<["systolic" := PNum systolic]>
           (<["diastolic" := PNum diastolic]>
              (<["mean_pressure" := PNum mean_pressure]>
                 (<["pulse_rate" := pulse_rate]> ∅))))
        unit
        quality_score
        (<["flags" := PNum (Int flags)]> (<["raw_data" := PStr (hex data)]> ∅))).

(** [_handle_bp_measurement]: the reading handed to the callbacks, or
    [None] when parsing raised and the error was only logged. *)
Definition _handle_bp_measurement (self : DeviceDriver.t) (now : Z)
    (data : list byte) : option DeviceReading.t :=
  match parse_bp_measurement self now data with
  | Ok reading => Some reading
  | Raise _ => None
  end.

End BloodPressureDriver.

Module DeviceManager.

(** The device table is the part of the manager the device layer shares;
    scanner, storage service and name patterns play no role below. *)
Record t : Type := Build {
  devices : gmap string DeviceDriver.t
}.

Definition init : t := Build ∅.

Definition _create_driver (device_info : DeviceInfo.t) : DeviceDriver.t :=
  match DeviceInfo.device_type device_info with
  | DeviceType.BLOOD_PRESSURE =>
      DeviceDriver.init DeviceDriver.BloodPressure device_info
  | DeviceType.PULSE_OXIMETER =>
      DeviceDriver.init DeviceDriver.PulseOximeter device_info
  | DeviceType.THERMOMETER =>
      DeviceDriver.init DeviceDriver.Thermometer device_info
  | _ => DeviceDriver.init DeviceDriver.Base device_info
  end.

(** [connect_device]: the driver stored in the table is the object that
    afterwards receives the callback, so the stored value carries it. *)
Definition connect_device (BLE_AVAILABLE : bool) (io : ConnectIO)
    (self : t) (device_info : DeviceInfo.t) : bool * t :=
  let driver := _create_driver device_info in
  match DeviceDriver.connect BLE_AVAILABLE io driver with
  | (Ok true, driver) =>
      let driver := DeviceDriver.add_callback _handle_device_reading driver in
      (true, Build (<[DeviceInfo.device_id device_info := driver]> (devices self)))
  | (Ok false, _) => (false, self)
  | (Raise _, _) => (false, self)
  end.

Definition disconnect_device (io : DisconnectIO) (self : t)
    (device_id : string) : bool * t :=
  match devices self !! device_id with
  | Some driver =>
      match DeviceDriver.disconnect io driver with
      | (Ok _, _) => (true, Build (delete device_id (devices self)))
      | (Raise _, driver) => (false, Build (<[device_id := driver]> (devices self)))
      end
  | None => (false, self)
  end.

Definition get_device_status (self : t) (device_id : string)
  : option DeviceStatus.t :=
  DeviceDriver.status <$> devices self !! device_id.

End DeviceManager.

(** ** calibration.py *)

Module CalibrationStatus.
Inductive t : Type :=
| UNKNOWN
| CALIBRATED
| NEEDS_CALIBRATION
| CALIBRATING
| CALIBRATION_FAILED
| OUT_OF_SPEC.

#[global] Instance eq_dec : EqDecision t.
Proof. solve_decision. Defined.
End CalibrationStatus.

Module HealthStatus.
Inductive t : Type :=
| HEALTHY
| WARNING
| CRITICAL
| OFFLINE
| MAINTENANCE_REQUIRED.
End HealthStatus.

Module CalibrationRecord.
Record t : Type := Build {
  device_id : string;
  calibration_date : Z;
  calibration_type : string;
  reference_values : gmap string number;
  measured_values : gmap string number;
  deviation_values : gmap string number;
  status : CalibrationStatus.t;
  technician_id : option string;
  notes : option string;
  next_calibration_due : option Z;
  certificate_number : option string
}.
End CalibrationRecord.

Module HealthMetrics.
Record t : Type := Build {
  device_id : string;
  timestamp : Z;
  battery_level : option Z;
  signal_strength : option Z;
  measurement_count : Z;
  error_count : Z;
  last_error : option string;
  temperature : option Q;
  humidity : option Q;
  uptime : option Z;
  firmware_version : option string;
  quality_score : Q
}.

(** [HealthMetrics(device_id=..., timestamp=...)] with the dataclass
    defaults. *)
Definition make (device_id : string) (timestamp : Z) : t :=
  Build device_id timestamp None None 0 0 None None None None None 1.0%Q.

Definition set_quality_score (q : Q) (m : t) : t :=
  Build (device_id m) (timestamp m) (battery_level m) (signal_strength m)
        (measurement_count m) (error_count m) (last_error m) (temperature m)
        (humidity m) (uptime m) (firmware_version m) q.
End HealthMetrics.

Module DeviceCalibrator.

(** The calibrator holds a reference to the shared device manager; the
    functions below take the manager's current value as [dm]. *)
Record t : Type := Build {
  calibration_records : gmap string (list CalibrationRecord.t)
}.

Definition init : t := Build ∅.

(** Calibration intervals (in days); height meters have no entry. *)
Definition calibration_intervals (ty : DeviceType.t) : option Z :=
  match ty with
  | DeviceType.BLOOD_PRESSURE => Some 365
  | DeviceType.PULSE_OXIMETER => Some 180
  | DeviceType.THERMOMETER => Some 90
  | DeviceType.WEIGHT_SCALE => Some 180
  | DeviceType.GLUCOSE_METER => Some 90
  | DeviceType.HEIGHT_METER => None
  end.

(** Acceptable deviation thresholds; [0x1.999999999999ap-4] is the double
    that the literal [0.1] denotes. *)
Definition deviation_thresholds (ty : DeviceType.t)
  : option (gmap string number) :=
  match ty with
  | DeviceType.BLOOD_PRESSURE =>
      Some (<["systolic" := Int 3]> (<["diastolic" := Int 3]> ∅))
  | DeviceType.PULSE_OXIMETER =>
      Some (<["spo2" := Int 2]> (<["pulse_rate" := Int 3]> ∅))
  | DeviceType.THERMOMETER =>
      Some (<["temperature" := Float 0x1.999999999999ap-4]> ∅)
  | DeviceType.WEIGHT_SCALE =>
      Some (<["weight" := Float 0x1.999999999999ap-4]> ∅)
  | _ => None
  end.

(** [max(records, key=lambda r: r.calibration_date)] on a non-empty
    list: the first record among those with the greatest date. *)
Fixpoint max_by_date (best : CalibrationRecord.t)
    (rest : list CalibrationRecord.t) : CalibrationRecord.t :=
  match rest with
  | [] => best
  | r :: rest' =>
      max_by_date
        (if (CalibrationRecord.calibration_date best
             <? CalibrationRecord.calibration_date r)%Z then r else best)
        rest'
  end.

(** [check_calibration_status]; [now] is what [datetime.utcnow()]
    returns. *)
Definition check_calibration_status (dm : DeviceManager.t) (self : t)
    (now : Z) (device_id : string) : CalibrationStatus.t :=
  match calibration_records self !! device_id with
  | None => CalibrationStatus.UNKNOWN
  | Some [] => CalibrationStatus.NEEDS_CALIBRATION
  | Some (r :: rest) =>
      let latest_record := max_by_date r rest in
      match DeviceManager.devices dm !! device_id with
      | None => CalibrationStatus.UNKNOWN
      | Some device =>
          let device_type :=
            DeviceInfo.device_type (DeviceDriver.device_info device) in
          let interval_days := default 180 (calibration_intervals device_type) in
          let days_since_calibration :=
            days_of (now - CalibrationRecord.calibration_date latest_record) in
          if (interval_days <? days_since_calibration)%Z
          then CalibrationStatus.NEEDS_CALIBRATION
          else CalibrationRecord.status latest_record
      end
  end.

Definition get_calibration_history (self : t) (device_id : string)
  : list CalibrationRecord.t :=
  default [] (calibration_records self !! device_id).

(** [if device_id not in records: records[device_id] = []] followed by
    [records[device_id].append(record)]. *)
Definition store (self : t) (device_id : string)
    (record : CalibrationRecord.t) : t :=
  Build (<[device_id := (get_calibration_history self device_id ++ [record])%list]>
           (calibration_records self)).

(** What distinguishes the two calibration methods: their bodies are
    the same text up to these values. *)
Record procedure : Type := {
  expected_type : DeviceType.t;
  invalid_device : string;
  samples : nat;
  min_samples : nat;
  field1 : string;
  field2 : string
}.

Definition bp_procedure : procedure :=
  {| expected_type := DeviceType.BLOOD_PRESSURE;
     invalid_device := "Invalid blood pressure device";
     samples := 5; min_samples := 3;
     field1 := "systolic"; field2 := "diastolic" |}.

Definition plx_procedure : procedure :=
  {| expected_type := DeviceType.PULSE_OXIMETER;
     invalid_device := "Invalid pulse oximeter device";
     samples := 10; min_samples := 5;
     field1 := "spo2"; field2 := "pulse_rate" |}.

(** [reading and f1 in reading.values and f2 in reading.values] *)
Definition usable (f1 f2 : string) (reading : option DeviceReading.t) : bool :=
  match reading with
  | Some r =>
      match DeviceReading.values r !! f1, DeviceReading.values r !! f2 with
      | Some _, Some _ => true
      | _, _ => false
      end
  | None => false
  end.

(** [sum(r.values[f] for r in readings)], continued from [acc]: the
    items are added to the accumulator one after the other, from the
    left, each addition rounded (the summation of CPython up to version
    3.11; from 3.12 on [sum] compensates the rounding errors of [float]
    items). *)
Fixpoint sum_field (f : string) (acc : number)
    (readings : list DeviceReading.t) : result number :=
  match readings with
  | [] => Ok acc
  | r :: rest =>
      v ← getitem (DeviceReading.values r) f;
      acc' ← Py.add acc v;
      sum_field f acc' rest
  end.

Definition insufficient : string := "Insufficient readings for calibration".

Section Run.

(** [read_data i]: what the [i]-th [await device.read_data()] of the
    run delivers. The device is whatever driver object sits in the
    device table, so this is left to the caller; [driver_reads] below
    is the behaviour of the drivers this repository defines. *)
Variable read_data : nat -> result (option DeviceReading.t).

(** [utcnow k]: the [k]-th value read from the clock during the call. *)
Variable utcnow : nat -> Z.

(** The [for i in range(n)] loop, from iteration [i] on. *)
Fixpoint take_readings (f1 f2 : string) (i n : nat)
    (readings : list DeviceReading.t) : result (list DeviceReading.t) :=
  match n with
  | O => Ok readings
  | S n' =>
      reading ← read_data i;
      take_readings f1 f2 (S i) n'
        (match reading with
         | Some r => if usable f1 f2 reading then readings ++ [r] else readings
         | None => readings
         end)%list
  end.

(** The [try] block up to and including the construction of the
    record. *)
Definition measure (p : procedure) (device_id : string)
    (reference1 reference2 : number) : result CalibrationRecord.t :=
  readings ← take_readings (field1 p) (field2 p) 0 (samples p) [];
  if (length readings <? min_samples p)%nat
  then Raise (PyException insufficient)
  else
    let n := Int (Z.of_nat (length readings)) in
    sum1 ← sum_field (field1 p) (Int 0) readings;
    avg1 ← truediv sum1 n;
    sum2 ← sum_field (field2 p) (Int 0) readings;
    avg2 ← truediv sum2 n;
    difference1 ← sub avg1 reference1;
    let deviation1 := Py.abs difference1 in
    difference2 ← sub avg2 reference2;
    let deviation2 := Py.abs difference2 in
    thresholds ←
      match deviation_thresholds (expected_type p) with
      | Some th => Ok th
      | None => Raise (KeyError "DeviceType")
      end;
    threshold1 ← getitem thresholds (field1 p);
    exceeded ←
      (if ltb threshold1 deviation1 then Ok true
       else threshold2 ← getitem thresholds (field2 p);
            Ok (ltb threshold2 deviation2));
    let status :=
      if exceeded : bool then CalibrationStatus.OUT_OF_SPEC
      else CalibrationStatus.CALIBRATED in
    let calibration_date := utcnow 0%nat in
    let due_from := utcnow 1%nat in
    interval ←
      match calibration_intervals (expected_type p) with
      | Some d => Ok d
      | None => Raise (KeyError "DeviceType")
      end;
    Ok (CalibrationRecord.Build
          device_id calibration_date "user"
          (<[field1 p := reference1]> (<[field2 p := reference2]> ∅))
          (<[field1 p := avg1]> (<[field2 p := avg2]> ∅))
          (<[field1 p := deviation1]> (<[field2 p := deviation2]> ∅))
          status None None
          (Some (due_from + timedelta_days interval)%Z) None).

(** The record built by the [except Exception as e] handler. *)
Definition error_record (p : procedure) (device_id : string)
    (reference1 reference2 : number) (e : exn) : CalibrationRecord.t :=
  CalibrationRecord.Build
    device_id (utcnow 0%nat) "user"
    (<[field1 p := reference1]> (<[field2 p := reference2]> ∅))
    ∅ ∅ CalibrationStatus.CALIBRATION_FAILED None (Some (Py.str e)) None None.

Definition calibrate (p : procedure) (dm : DeviceManager.t) (self : t)
    (device_id : string) (reference1 reference2 : number)
  : result CalibrationRecord.t * t :=
  match DeviceManager.devices dm !! device_id with
  | Some device =>
      if bool_decide
           (DeviceInfo.device_type (DeviceDriver.device_info device)
            = expected_type p)
      then
        match measure p device_id reference1 reference2 with
        | Ok record => (Ok record, store self device_id record)
        | Raise e =>
            let record := error_record p device_id reference1 reference2 e in
            (Ok record, store self device_id record)
        end
      else (Raise (ValueError (invalid_device p)), self)
  | None => (Raise (ValueError (invalid_device p)), self)
  end.

Definition calibrate_blood_pressure_monitor (dm : DeviceManager.t)
    (self : t) (device_id : string)
    (reference_systolic reference_diastolic : number)
  : result CalibrationRecord.t * t :=
  calibrate bp_procedure dm self device_id
    reference_systolic reference_diastolic.

Definition calibrate_pulse_oximeter (dm : DeviceManager.t)
    (self : t) (device_id : string)
    (reference_spo2 : number) (reference_pulse : Z)
  : result CalibrationRecord.t * t :=
  calibrate plx_procedure dm self device_id
    reference_spo2 (Int reference_pulse).

End Run.

(** What [read_data()] delivers when the device is one of the drivers
    of [ble_manager.py]. *)
Definition driver_reads (device : DeviceDriver.t) (i : nat)
  : result (option DeviceReading.t) :=
  fst (DeviceDriver.read_data device).

End DeviceCalibrator.

Module DeviceHealthMonitor.

Record t : Type := Build {
  health_metrics : gmap string (list HealthMetrics.t);
  monitoring_active : bool
}.

Definition init : t := Build ∅ false.

(** [_check_device_health]; the two arguments [t_sample] and [t_evict]
    are the two clock values the method reads. No driver class defines
    [get_battery_level], so the battery branch is never taken. *)
Definition _check_device_health (self : t) (device_id : string)
    (device : DeviceDriver.t) (t_sample t_evict : Z) : t :=
  let metrics := HealthMetrics.make device_id t_sample in
  let metrics :=
    match DeviceDriver.status device with
    | DeviceStatus.ERROR => HealthMetrics.set_quality_score 0.0%Q metrics
    | DeviceStatus.DISCONNECTED => HealthMetrics.set_quality_score 0.0%Q metrics
    | DeviceStatus.CONNECTED => HealthMetrics.set_quality_score 0.8%Q metrics
    | _ => HealthMetrics.set_quality_score 0.6%Q metrics
    end in
  let window := (default [] (health_metrics self !! device_id) ++ [metrics])%list in
  let cutoff_time := t_evict - timedelta_hours 24 in
  Build (<[device_id :=
             List.filter (fun m => (cutoff_time <? HealthMetrics.timestamp m)%Z)
                         window]>
           (health_metrics self))
        (monitoring_active self).

Definition get_device_health (self : t) (device_id : string) : HealthStatus.t :=
  match health_metrics self !! device_id with
  | None => HealthStatus.OFFLINE
  | Some recent_metrics =>
      match last recent_metrics with
      | None => HealthStatus.OFFLINE
      | Some latest_metric =>
          if Qle_bool 0.8 (HealthMetrics.quality_score latest_metric)
          then HealthStatus.HEALTHY
          else if Qle_bool 0.6 (HealthMetrics.quality_score latest_metric)
          then HealthStatus.WARNING
          else HealthStatus.CRITICAL
      end
  end.

(** One pass of the [for] loop over the device table; the [k]-th device
    visited reads the clock values [utcnow (2k)] and [utcnow (2k+1)]. *)
Fixpoint check_all (utcnow : nat -> Z) (k : nat)
    (items : list (string * DeviceDriver.t)) (self : t) : t :=
  match items with
  | [] => self
  | (device_id, device) :: rest =>
      check_all utcnow (S k) rest
        (_check_device_health self device_id device
           (utcnow (2 * k)%nat) (utcnow (2 * k + 1)%nat))
  end.

Definition tick (utcnow : nat -> Z) (dm : DeviceManager.t) (self : t) : t :=
  check_all utcnow 0 (map_to_list (DeviceManager.devices dm)) self.

(** *** The monitoring loop as tasks of the event loop

    [asyncio.create_task(self._monitoring_loop())] adds a task to the
    running event loop. The loop body suspends only in
    [asyncio.sleep(60)], so a task is either suspended in front of its
    next [while self.monitoring_active] test (just created, or asleep)
    or it has returned. *)
Inductive task : Type :=
| Suspended
| Returned.

#[global] Instance task_eq_dec : EqDecision task.
Proof. solve_decision. Defined.

Record system : Type := System {
  monitor : t;
  loop_tasks : list task
}.

Definition boot : system := System init [].

Definition start_monitoring (sys : system) : system :=
  System (Build (health_metrics (monitor sys)) true)
         (loop_tasks sys ++ [Suspended])%list.

Definition stop_monitoring (sys : system) : system :=
  System (Build (health_metrics (monitor sys)) false) (loop_tasks sys).

(** The event loop resumes task [i] of [_monitoring_loop]: it tests the
    flag, and either returns or runs one whole pass and sleeps again. *)
Definition resume (utcnow : nat -> Z) (dm : DeviceManager.t) (i : nat)
    (sys : system) : system :=
  match loop_tasks sys !! i with
  | Some Suspended =>
      if monitoring_active (monitor sys)
      then System (tick utcnow dm (monitor sys)) (loop_tasks sys)
      else System (monitor sys) (<[i := Returned]> (loop_tasks sys))
  | _ => sys
  end.

(** Number of polling loops that have not returned. *)
Definition live_loops (sys : system) : nat :=
  length (List.filter (fun x => bool_decide (x = Suspended)) (loop_tasks sys)).

End DeviceHealthMonitor.

(** ** Vocabulary of the statements *)

(** Where the pulse-rate field starts: after the pressures, or after the
    seven timestamp bytes when the flags announce a timestamp. *)
Definition bp_offset (flags : Z) : nat :=
  if (Z.land flags 2 =? 0)%Z then 7%nat else 14%nat.

(** A payload long enough for what its flags announce: seven bytes of
    flags and pressures, and no pulse-rate field cut after one byte. *)
Definition bp_well_formed (data : list byte) : Prop :=
  (7 <= length data)%nat /\
  (Z.land (u8 (List.hd x00 data)) 4 <> 0 ->
   length data <> S (bp_offset (u8 (List.hd x00 data)))).

(** The little-endian 16-bit field that starts at byte [i]. *)
Definition u16_at (data : list byte) (i : nat) : Z :=
  u8 (List.nth i data x00) + 256 * u8 (List.nth (S i) data x00).

(** A 16-bit field read as kPa: the double nearest to [raw / 1000]. *)
Definition kpa (raw : Z) : number :=
  Float (PrimFloat.div (float_of_exact raw) 1000).

(** A 16-bit pressure field under the unit flag of the payload. *)
Definition pressure (unit_kpa raw : Z) : number :=
  if (unit_kpa =? 0)%Z then Int raw else kpa raw.

(** A 16-bit field read as a percentage: the double nearest to
    [raw / 100]. *)
Definition percent (raw : Z) : number :=
  Float (PrimFloat.div (float_of_exact raw) 100).

(** [p] holds of the [n] integers from [z] on. *)
Fixpoint holds_from (p : Z -> bool) (n : nat) (z : Z) : bool :=
  match n with
  | O => true
  | S n' => if p z then holds_from p n' (z + 1) else false
  end.

(** Both pressures lie in the ranges the driver takes as plausible. *)
Definition plausible (systolic diastolic : number) : Prop :=
  Py.le (Int 50) systolic /\ Py.le systolic (Int 250) /\
  Py.le (Int 30) diastolic /\ Py.le diastolic (Int 150).

(** The systolic and the diastolic pressure of a payload. *)
Definition bp_systolic (data : list byte) : number :=
  pressure (Z.land (u8 (List.hd x00 data)) 1) (u16_at data 1).
Definition bp_diastolic (data : list byte) : number :=
  pressure (Z.land (u8 (List.hd x00 data)) 1) (u16_at data 3).

(** The reading a well-formed payload decodes to, up to its pulse rate
    and its quality score. *)
Definition decoded (self : DeviceDriver.t) (now : Z) (data : list byte)
    (pulse_rate : pyval) (quality_score : Q) : DeviceReading.t :=
  let flags := u8 (List.hd x00 data) in
  DeviceReading.Build
    (DeviceInfo.device_id (DeviceDriver.device_info self))
    DeviceType.BLOOD_PRESSURE now
    (<["systolic" := PNum (bp_systolic data)]>
       (<["diastolic" := PNum (bp_diastolic data)]>
          (<["mean_pressure" := PNum (pressure (Z.land flags 1) (u16_at data 5))]>
             (<["pulse_rate" := pulse_rate]> ∅))))
    (if (Z.land flags 1 =? 0)%Z then "mmHg" else "kPa")
    quality_score
    (<["flags" := PNum (Int flags)]> (<["raw_data" := PStr (hex data)]> ∅)).

(** The driver classes that define [disconnect()]. *)
Definition closes (self : DeviceDriver.t) : Prop :=
  DeviceDriver.class self = DeviceDriver.BloodPressure
  \/ DeviceDriver.class self = DeviceDriver.PulseOximeter.

(** The [i]-th read returns a reading that has both required fields. *)
Definition good_read (read_data : nat -> result (option DeviceReading.t))
    (f1 f2 : string) (i : nat) : bool :=
  match read_data i with
  | Ok reading => DeviceCalibrator.usable f1 f2 reading
  | Raise _ => false
  end.

(** How many of the reads [i0 .. i0+n-1] are good. *)
Definition good_reads_from (read_data : nat -> result (option DeviceReading.t))
    (f1 f2 : string) (i0 n : nat) : nat :=
  length (List.filter (good_read read_data f1 f2) (seq i0 n)).

(** The ledger entry of a device never holds an empty list. *)
Definition ledger_ok (self : DeviceCalibrator.t) : Prop :=
  forall device_id records,
    DeviceCalibrator.calibration_records self !! device_id = Some records ->
    records <> [].

(** The device is in the table and of the type the procedure expects. *)
Definition valid_device (p : DeviceCalibrator.procedure) (dm : DeviceManager.t)
    (device_id : string) : Prop :=
  exists device,
    DeviceManager.devices dm !! device_id = Some device /\
    DeviceInfo.device_type (DeviceDriver.device_info device)
    = DeviceCalibrator.expected_type p.

(** What one calibration run does to the ledger of [self]: [out] is the
    pair (returned value, calibrator afterwards), [utcnow] the clock of
    the run, and [interval_days] the interval of the device type. *)
Definition appended (utcnow : nat -> Z) (interval_days : Z)
    (self : DeviceCalibrator.t) (device_id : string)
    (out : result CalibrationRecord.t * DeviceCalibrator.t) : Prop :=
  exists record,
    fst out = Ok record /\
    DeviceCalibrator.get_calibration_history (snd out) device_id
    = (DeviceCalibrator.get_calibration_history self device_id ++ [record])%list /\
    (forall other, other <> device_id ->
       DeviceCalibrator.get_calibration_history (snd out) other
       = DeviceCalibrator.get_calibration_history self other) /\
    CalibrationRecord.device_id record = device_id /\
    CalibrationRecord.calibration_date record = utcnow 0%nat /\
    (CalibrationRecord.status record = CalibrationStatus.CALIBRATION_FAILED ->
     CalibrationRecord.next_calibration_due record = None) /\
    (CalibrationRecord.status record <> CalibrationStatus.CALIBRATION_FAILED ->
     CalibrationRecord.next_calibration_due record
     = Some (utcnow 1%nat + timedelta_days interval_days) /\
     (utcnow 1%nat = utcnow 0%nat ->
      CalibrationRecord.next_calibration_due record
      = Some (CalibrationRecord.calibration_date record
              + timedelta_days interval_days))).

(** ** Sample objects used to exercise the definitions *)

Definition bp_payload_mmHg : list byte :=
  [x00; x78; x00; x50; x00; x5d; x00].
Definition bp_payload_kPa : list byte :=
  [x01; x80; x3e; x10; x27; x00; x30].
(** kPa, with the raw fields 50001, 30001 and 40000. *)
Definition bp_payload_kPa_edge : list byte :=
  [x01; x51; xc3; x31; x75; x40; x9c].
Definition bp_info : DeviceInfo.t :=
  DeviceInfo.Build "dev-1" "Omron M7" "Omron" "Omron M7"
    DeviceType.BLOOD_PRESSURE "AA:BB:CC:00:11:22" (-40) None None None false "unknown".
Definition bp_driver : DeviceDriver.t :=
  DeviceDriver.init DeviceDriver.BloodPressure bp_info.

Definition link_up : ConnectIO :=
  {| io_connect := Ok tt; io_start_notify := Ok tt |}.
Definition link_refused : ConnectIO :=
  {| io_connect := Raise (BleakError "Device not found");
     io_start_notify := Ok tt |}.
Definition unlink_ok : DisconnectIO :=
  {| io_stop_notify := Ok tt; io_disconnect := Ok tt |}.

(** A blood-pressure driver after a successful and after a refused
    [connect()]. *)
Definition bp_connected : DeviceDriver.t :=
  snd (DeviceDriver.connect true link_up bp_driver).
Definition bp_refused : DeviceDriver.t :=
  snd (DeviceDriver.connect true link_refused bp_driver).

(** A manager with one connected blood-pressure monitor. *)
Definition dm_bp : DeviceManager.t :=
  snd (DeviceManager.connect_device true link_up DeviceManager.init bp_info).

(** A reading as a test double of the driver would deliver it. *)
Definition bp_reading (systolic diastolic : Z) : DeviceReading.t :=
  DeviceReading.Build "dev-1" DeviceType.BLOOD_PRESSURE 0
    (<["systolic" := PNum (Int systolic)]>
       (<["diastolic" := PNum (Int diastolic)]> ∅))
    "mmHg" 0.9%Q ∅.

(** Every read delivers the same reading. *)
Definition steady (systolic diastolic : Z) (i : nat)
  : result (option DeviceReading.t) :=
  Ok (Some (bp_reading systolic diastolic)).

(** Only the first two reads deliver a reading. *)
Definition two_of_five (i : nat) : result (option DeviceReading.t) :=
  if (i <? 2)%nat then Ok (Some (bp_reading 120 80)) else Ok None.

(** A clock that starts at [t0] and advances one microsecond per read. *)
Definition ticking (t0 : Z) (k : nat) : Z := t0 + Z.of_nat k.
(** A clock that stands still at [t0]. *)
Definition frozen (t0 : Z) (k : nat) : Z := t0.

(** Five readings of 123/80 against the reference 120/80, on a clock
    that advances between reads. *)
Definition run_at_threshold : result CalibrationRecord.t * DeviceCalibrator.t :=
  DeviceCalibrator.calibrate_blood_pressure_monitor (steady 123 80)
    (ticking 1000) dm_bp DeviceCalibrator.init "dev-1" (Float 120) (Float 80).

Definition record_at_threshold : CalibrationRecord.t :=
  match fst run_at_threshold with
  | Ok record => record
  | Raise e =>
      DeviceCalibrator.error_record (ticking 1000) DeviceCalibrator.bp_procedure
        "dev-1" (Float 120) (Float 80) e
  end.

(** Three usable readings, 120/80, 120/80 and 121/80, against the
    reference 117.33333333333333/80. *)
Definition thirds (i : nat) : result (option DeviceReading.t) :=
  match i with
  | 0%nat | 1%nat => Ok (Some (bp_reading 120 80))
  | 2%nat => Ok (Some (bp_reading 121 80))
  | _ => Ok None
  end.

Definition record_thirds : CalibrationRecord.t :=
  match fst (DeviceCalibrator.calibrate_blood_pressure_monitor thirds
               (ticking 1000) dm_bp DeviceCalibrator.init "dev-1"
               (Float 0x1.d555555555555p+6) (Float 80)) with
  | Ok record => record
  | Raise e =>
      DeviceCalibrator.error_record (ticking 1000) DeviceCalibrator.bp_procedure
        "dev-1" (Float 0x1.d555555555555p+6) (Float 80) e
  end.

(** Five readings whose systolic is the integer 10^400. *)
Definition record_huge : CalibrationRecord.t :=
  match fst (DeviceCalibrator.calibrate_blood_pressure_monitor
               (steady (10 ^ 400) 80)
               (ticking 1000) dm_bp DeviceCalibrator.init "dev-1"
               (Float 120) (Float 80)) with
  | Ok record => record
  | Raise e =>
      DeviceCalibrator.error_record (ticking 1000) DeviceCalibrator.bp_procedure
        "dev-1" (Float 120) (Float 80) e
  end.

(** The same call with the blood-pressure driver of the device table
    doing the reads. *)
Definition run_own_driver : result CalibrationRecord.t * DeviceCalibrator.t :=
  DeviceCalibrator.calibrate_blood_pressure_monitor
    (DeviceCalibrator.driver_reads bp_connected)
    (ticking 1000) dm_bp DeviceCalibrator.init "dev-1" (Float 120) (Float 80).

Definition record_own : CalibrationRecord.t :=
  match fst run_own_driver with
  | Ok record => record
  | Raise e =>
      DeviceCalibrator.error_record (ticking 1000) DeviceCalibrator.bp_procedure
        "dev-1" (Float 120) (Float 80) e
  end.

(** The calibrator after each of these runs, and the manager after the
    device has been disconnected again. *)
Definition calibrator_after : DeviceCalibrator.t := snd run_at_threshold.
Definition calibrator_own : DeviceCalibrator.t := snd run_own_driver.
Definition dm_gone : DeviceManager.t :=
  snd (DeviceManager.disconnect_device unlink_ok dm_bp "dev-1").

(** ** The rest of ble_manager.py *)

Module PulseOximeterDriver.

Definition _calculate_plx_quality (spo2 pulse_rate : number) : Q :=
  if negb (leb (Int 70) spo2 && leb spo2 (Int 100))
     || negb (leb (Int 30) pulse_rate && leb pulse_rate (Int 200))
  then 0.3%Q
  else if ltb spo2 (Int 85) then 0.8%Q
  else 0.9%Q.

Definition _get_signal_quality (data : list byte) : string := "good".

(** Body of the [try] block of [_handle_plx_measurement]. *)
Definition parse_plx_measurement (self : DeviceDriver.t) (now : Z)
    (data : list byte) : result DeviceReading.t :=
  flags ← first_byte data;
  raw_spo2 ← unpack_H (slice data 1 3);
  spo2 ← truediv (Int raw_spo2) (Float 100);
  raw_pulse ← unpack_H (slice data 3 5);
  let pulse_rate := Int raw_pulse in
  Ok (DeviceReading.Build
        (DeviceInfo.device_id (DeviceDriver.device_info self))
        DeviceType.PULSE_OXIMETER
        now
        (<["spo2" := PNum spo2]> (<["pulse_rate" := PNum pulse_rate]> ∅))
        "percent/%"
        (_calculate_plx_quality spo2 pulse_rate)
        (<["flags" := PNum (Int flags)]>
           (<["signal_quality" := PStr (_get_signal_quality data)]> ∅))).

(** [_handle_plx_measurement]: the reading handed to the callbacks, or
    [None] when parsing raised and the error was only logged. *)
Definition _handle_plx_measurement (self : DeviceDriver.t) (now : Z)
    (data : list byte) : option DeviceReading.t :=
  match parse_plx_measurement self now data with
  | Ok reading => Some reading
  | Raise _ => None
  end.

End PulseOximeterDriver.

Module Driver.

(** [calibrate()]: only the blood-pressure driver overrides the base
    method, and its body returns [True]. *)
Definition calibrate (self : DeviceDriver.t) : result bool :=
  match DeviceDriver.class self with
  | DeviceDriver.BloodPressure => Ok true
  | _ => Raise NotImplementedError
  end.

End Driver.

(** What a BLE scan reports about one device: [name], [address], [rssi]
    and [metadata.get("uuids")]. *)
Record BLEDevice : Type := {
  ble_name : option string;
  ble_address : string;
  ble_rssi : option Z;
  ble_uuids : option (list string)
}.

(** [p in s] on strings. *)
Fixpoint contains (p s : string) : bool :=
  if String.prefix p s then true
  else match s with
       | EmptyString => false
       | String _ s' => contains p s'
       end.

Definition is_lower (c : Ascii.ascii) : bool :=
  let n := Ascii.N_of_ascii c in ((97 <=? n) && (n <=? 122))%N.
Definition is_upper (c : Ascii.ascii) : bool :=
  let n := Ascii.N_of_ascii c in ((65 <=? n) && (n <=? 90))%N.

(** [s.title()] on ASCII text: a letter that follows a letter is lowered,
    any other letter is raised. *)
Fixpoint title_from (after_letter : bool) (s : string) : string :=
  match s with
  | EmptyString => EmptyString
  | String c s' =>
      let n := Ascii.N_of_ascii c in
      let c' :=
        if is_lower c then
          if after_letter then c else Ascii.ascii_of_N (n - 32)
        else if is_upper c then
          if after_letter then Ascii.ascii_of_N (n + 32) else c
        else c in
      String c' (title_from (is_lower c || is_upper c) s')
  end.

Definition title (s : string) : string := title_from false s.

Definition BP_SERVICE_UUID : string := "00001810-0000-1000-8000-00805f9b34fb".
Definition PLX_SERVICE_UUID : string := "00001822-0000-1000-8000-00805f9b34fb".
Definition HTS_SERVICE_UUID : string := "00001809-0000-1000-8000-00805f9b34fb".

(** [x in uuids] on a list of strings. *)
Definition mem (x : string) (l : list string) : bool :=
  bool_decide (x ∈ l).

Module Manager.

(** [self.device_patterns], in insertion order. *)
Definition device_patterns : list (string * DeviceType.t) :=
  [("omron", DeviceType.BLOOD_PRESSURE);
   ("nonin", DeviceType.PULSE_OXIMETER);
   ("braun", DeviceType.THERMOMETER);
   ("withings", DeviceType.WEIGHT_SCALE)].

(** The [for pattern, dev_type in ...] loop with its [break]: the first
    pattern found in the lowered name. *)
Fixpoint match_pattern (patterns : list (string * DeviceType.t))
    (device_name_lower : string) : option (string * DeviceType.t) :=
  match patterns with
  | [] => None
  | (pattern, dev_type) :: rest =>
      if contains pattern device_name_lower then Some (pattern, dev_type)
      else match_pattern rest device_name_lower
  end.

Section Identify.

(** [str.lower()]; the statements below hold whatever it computes. *)
Variable lower : string -> string.

(** [_identify_medical_device]; [new_uuid] is what [str(uuid.uuid4())]
    yields and [now] what [datetime.utcnow()] returns. *)
Definition _identify_medical_device (new_uuid : string) (now : Z)
    (ble_device : BLEDevice) : option DeviceInfo.t :=
  let device_name := default "" (ble_name ble_device) in
  let device_name_lower := lower device_name in
  let '(device_type, manufacturer) :=
    match match_pattern device_patterns device_name_lower with
    | Some (pattern, dev_type) => (Some dev_type, title pattern)
    | None => (None, "Unknown")
    end in
  let device_type :=
    match device_type, ble_uuids ble_device with
    | None, Some (u :: us) =>
        let uuids := u :: us in
        if mem BP_SERVICE_UUID uuids then Some DeviceType.BLOOD_PRESSURE
        else if mem PLX_SERVICE_UUID uuids then Some DeviceType.PULSE_OXIMETER
        else if mem HTS_SERVICE_UUID uuids then Some DeviceType.THERMOMETER
        else None
    | _, _ => device_type
    end in
  match device_type with
  | Some device_type =>
      Some (DeviceInfo.Build new_uuid device_name manufacturer device_name
              device_type (ble_address ble_device)
              (match ble_rssi ble_device with
               | Some r => if (r =? 0)%Z then 0 else r
               | None => 0
               end)
              None None (Some now) false "unknown")
  | None => None
  end.

(** The [for device in devices] loop of [start_discovery]; the [k]-th
    device identified takes the [k]-th fresh identifier and clock value. *)
Fixpoint identify_all (new_uuid : nat -> string) (utcnow : nat -> Z) (k : nat)
    (devices : list BLEDevice) : list DeviceInfo.t :=
  match devices with
  | [] => []
  | device :: rest =>
      match _identify_medical_device (new_uuid k) (utcnow k) device with
      | Some device_info =>
          device_info :: identify_all new_uuid utcnow (S k) rest
      | None => identify_all new_uuid utcnow k rest
      end
  end.

(** [start_discovery]; [scan] is what [BleakScanner.discover] does. *)
Definition start_discovery (BLE_AVAILABLE : bool)
    (scan : result (list BLEDevice)) (new_uuid : nat -> string)
    (utcnow : nat -> Z) : list DeviceInfo.t :=
  if negb BLE_AVAILABLE then []
  else match scan with
       | Ok devices => identify_all new_uuid utcnow 0 devices
       | Raise _ => []
       end.

End Identify.

Definition calibrate_device (self : DeviceManager.t) (device_id : string) : bool :=
  match DeviceManager.devices self !! device_id with
  | Some device =>
      match Driver.calibrate device with
      | Ok b => b
      | Raise _ => false
      end
  | None => false
  end.

End Manager.

(** ** The rest of calibration.py *)

Module HealthMonitor.

(** [get_health_metrics]; [now] is what [datetime.utcnow()] returns. *)
Definition get_health_metrics (self : DeviceHealthMonitor.t)
    (device_id : string) (hours : Z) (now : Z) : list HealthMetrics.t :=
  match DeviceHealthMonitor.health_metrics self !! device_id with
  | None => []
  | Some metrics =>
      let cutoff_time := now - timedelta_hours hours in
      List.filter (fun m => (cutoff_time <? HealthMetrics.timestamp m)%Z) metrics
  end.

Record DeviceReport : Type := {
  device_info : DeviceInfo.t;
  health_status : HealthStatus.t;
  current_status : DeviceStatus.t;
  recent_metrics : list HealthMetrics.t
}.

Record Summary : Type := {
  total_devices : nat;
  healthy : nat;
  warning : nat;
  critical : nat;
  offline : nat
}.

Record Report : Type := {
  timestamp : Z;
  devices : gmap string DeviceReport;
  summary : Summary
}.

(** [l[-n:]] for a positive [n]. *)
Definition last_n {A} (n : nat) (l : list A) : list A :=
  drop (length l - n) l.

(** The ["# Update summary"] cascade. *)
Definition count (health_status : HealthStatus.t) (s : Summary) : Summary :=
  match health_status with
  | HealthStatus.HEALTHY =>
      Build_Summary (total_devices s) (S (healthy s)) (warning s) (critical s) (offline s)
  | HealthStatus.WARNING =>
      Build_Summary (total_devices s) (healthy s) (S (warning s)) (critical s) (offline s)
  | HealthStatus.CRITICAL =>
      Build_Summary (total_devices s) (healthy s) (warning s) (S (critical s)) (offline s)
  | _ =>
      Build_Summary (total_devices s) (healthy s) (warning s) (critical s) (S (offline s))
  end.

(** The [for device_id, device in ...items()] loop of
    [generate_health_report]; the [k]-th device visited reads the clock
    value [utcnow k]. *)
Fixpoint report_all (utcnow : nat -> Z) (self : DeviceHealthMonitor.t) (k : nat)
    (items : list (string * DeviceDriver.t)) (report : Report) : Report :=
  match items with
  | [] => report
  | (device_id, device) :: rest =>
      let health_status := DeviceHealthMonitor.get_device_health self device_id in
      let recent_metrics := get_health_metrics self device_id 1 (utcnow k) in
      let device_report :=
        {| device_info := DeviceDriver.device_info device;
           health_status := health_status;
           current_status := DeviceDriver.status device;
           recent_metrics := last_n 10 recent_metrics |} in
      report_all utcnow self (S k) rest
        {| timestamp := timestamp report;
           devices := <[device_id := device_report]> (devices report);
           summary := count health_status (summary report) |}
  end.

Definition generate_health_report (utcnow : nat -> Z) (dm : DeviceManager.t)
    (self : DeviceHealthMonitor.t) : Report :=
  let items := map_to_list (DeviceManager.devices dm) in
  report_all utcnow self 1 items
    {| timestamp := utcnow 0%nat;
       devices := ∅;
       summary := Build_Summary (length items) 0 0 0 0 |}.

End HealthMonitor.

(** ** More vocabulary *)

(** The pulse-rate entry of the reading a well-formed payload decodes
    to. *)
Definition bp_pulse (data : list byte) : pyval :=
  let flags := u8 (List.hd x00 data) in
  if negb (Z.land flags 4 =? 0)%Z && (bp_offset flags <? length data)%nat
  then PNum (Int (u16_at data (bp_offset flags)))
  else PNone.

(** A dictionary entry that is missing or is not a number. *)
Definition non_numeric (entry : option pyval) : Prop :=
  match entry with
  | Some (PNum _) => False
  | _ => True
  end.

(** Each record of the list is dated later than the ones before it. *)
Definition dates_increase (records : list CalibrationRecord.t) : Prop :=
  forall i j a b,
    (i < j)%nat -> records !! i = Some a -> records !! j = Some b ->
    CalibrationRecord.calibration_date a < CalibrationRecord.calibration_date b.

(** Whether a scanned device is recognised as a medical device; this
    does not depend on the identifier and the clock value it would get. *)
Definition identifies (lower : string -> string) (device : BLEDevice) : bool :=
  match Manager._identify_medical_device lower "" 0 device with
  | Some _ => true
  | None => false
  end.

(** ** More sample objects *)

(** Flags 0x06: mmHg, timestamp and pulse rate present; 118/79, pulse 72. *)
Definition bp_payload_full : list byte :=
  [x06; x76; x00; x4f; x00; x5c; x00;
   xe8; x07; x0b; x03; x0a; x1e; x00;
   x48; x00].

Definition plx_payload : list byte := [x00; x48; x26; x48; x00].
Definition plx_info : DeviceInfo.t :=
  DeviceInfo.Build "dev-2" "Nonin 3230" "Nonin" "Nonin 3230"
    DeviceType.PULSE_OXIMETER "AA:BB:CC:00:11:33" (-55) None None None false "unknown".
Definition plx_driver : DeviceDriver.t :=
  DeviceDriver.init DeviceDriver.PulseOximeter plx_info.
Definition thermo_info : DeviceInfo.t :=
  DeviceInfo.Build "dev-3" "Braun IRT" "Braun" "Braun IRT"
    DeviceType.THERMOMETER "AA:BB:CC:00:11:44" (-60) None None None false "unknown".

(** A manager with a connected pulse oximeter, and one with a connected
    thermometer. *)
Definition dm_plx : DeviceManager.t :=
  snd (DeviceManager.connect_device true link_up DeviceManager.init plx_info).
Definition dm_thermo : DeviceManager.t :=
  snd (DeviceManager.connect_device true link_up DeviceManager.init thermo_info).

Definition unlink_fails : DisconnectIO :=
  {| io_stop_notify := Raise (BleakError "Not connected");
     io_disconnect := Ok tt |}.

(** Readings whose systolic value is text. *)
Definition garbled (i : nat) : result (option DeviceReading.t) :=
  Ok (Some (DeviceReading.Build "dev-1" DeviceType.BLOOD_PRESSURE 0
              (<["systolic" := PStr "120"]>
                 (<["diastolic" := PNum (Int 80)]> ∅))
              "mmHg" 0.9%Q ∅)).

(** A second run on the same device, later, with readings of 123/80. *)
Definition run_second : result CalibrationRecord.t * DeviceCalibrator.t :=
  DeviceCalibrator.calibrate_blood_pressure_monitor (steady 123 80)
    (ticking 5000) dm_bp calibrator_own "dev-1" (Float 120) (Float 80).
Definition record_second : CalibrationRecord.t :=
  match fst run_second with
  | Ok record => record
  | Raise e =>
      DeviceCalibrator.error_record (ticking 5000) DeviceCalibrator.bp_procedure
        "dev-1" (Float 120) (Float 80) e
  end.
Definition calibrator_two : DeviceCalibrator.t := snd run_second.

(** Scan results: a cuff known by its name, a nameless oximeter known by
    its service, and a headset. *)
Definition scanned_cuff : BLEDevice :=
  {| ble_name := Some "OMRON M7"; ble_address := "AA:BB:CC:00:11:22";
     ble_rssi := Some (-40); ble_uuids := Some [PLX_SERVICE_UUID] |}.
Definition scanned_oximeter : BLEDevice :=
  {| ble_name := None; ble_address := "AA:BB:CC:00:11:33";
     ble_rssi := None; ble_uuids := Some [HTS_SERVICE_UUID; PLX_SERVICE_UUID] |}.
Definition scanned_headset : BLEDevice :=
  {| ble_name := Some "Headset"; ble_address := "AA:BB:CC:00:11:55";
     ble_rssi := Some (-70); ble_uuids := None |}.

(** Lower-casing of the names above. *)
Definition lower_sample (s : string) : string :=
  if String.eqb s "OMRON M7" then "omron m7"
  else if String.eqb s "Headset" then "headset" else s.

(** Pulse-oximeter readings as a test double would deliver them, and a
    run on them: SpO2 98.0 and pulse 75 against the reference 98 / 72. *)
Definition steady_plx (i : nat) : result (option DeviceReading.t) :=
  Ok (Some (DeviceReading.Build "dev-2" DeviceType.PULSE_OXIMETER 0
              (<["spo2" := PNum (Float 98)]>
                 (<["pulse_rate" := PNum (Int 75)]> ∅))
              "percent/%" 0.9%Q ∅)).
Definition run_plx : result CalibrationRecord.t * DeviceCalibrator.t :=
  DeviceCalibrator.calibrate_pulse_oximeter steady_plx (ticking 1000)
    dm_plx DeviceCalibrator.init "dev-2" (Float 98) 72.
Definition record_plx : CalibrationRecord.t :=
  match fst run_plx with
  | Ok record => record
  | Raise e =>
      DeviceCalibrator.error_record (ticking 1000) DeviceCalibrator.plx_procedure
        "dev-2" (Float 98) (Int 72) e
  end.

(** Ten readings of the SpO2 value [spo2] with pulse 72, against the
    reference [reference] / 72. *)
Definition plx_reads (spo2 : float) (i : nat)
  : result (option DeviceReading.t) :=
  Ok (Some (DeviceReading.Build "dev-2" DeviceType.PULSE_OXIMETER 0
              (<["spo2" := PNum (Float spo2)]>
                 (<["pulse_rate" := PNum (Int 72)]> ∅))
              "percent/%" 0.9%Q ∅)).
Definition record_plx_at (spo2 reference : float) : CalibrationRecord.t :=
  match fst (DeviceCalibrator.calibrate_pulse_oximeter (plx_reads spo2)
               (ticking 1000) dm_plx DeviceCalibrator.init "dev-2"
               (Float reference) 72) with
  | Ok record => record
  | Raise e =>
      DeviceCalibrator.error_record (ticking 1000) DeviceCalibrator.plx_procedure
        "dev-2" (Float reference) (Int 72) e
  end.

(** * Properties *)

Local Open Scope list_scope.


Section QleBool.
Lemma Qle_bool_true (x y : Q) : Qle_bool x y = true -> (x <= y)%Q.
Proof. apply Qle_bool_iff. Qed.

Lemma Qle_bool_false (x y : Q) : Qle_bool x y = false -> (y < x)%Q.
Proof.
  intros H. apply Qnot_le_lt. intros Hle.
  apply Qle_bool_iff in Hle. congruence.
Qed.
End QleBool.

Ltac qle_cases :=
  repeat match goal with
    | |- context [Qle_bool ?x ?y] =>
        let E := fresh "E" in
        destruct (Qle_bool x y) eqn:E;
        [apply Qle_bool_true in E | apply Qle_bool_false in E]
    end.

(** *** Order of the numbers *)

Lemma SFcompare_antisym (x y : spec_float) :
  SFcompare y x = option_map CompOpp (SFcompare x y).
Proof.
  destruct x as [sx|sx| |sx mx ex], y as [sy|sy| |sy my ey];
    try destruct sx; try destruct sy; try reflexivity; cbn.
  - rewrite (Z.compare_antisym ex ey).
    destruct (ex ?= ey)%Z; cbn; try reflexivity.
    fold (Pos.compare my mx). fold (Pos.compare mx my).
    now rewrite (Pos.compare_antisym mx my).
  - rewrite (Z.compare_antisym ex ey).
    destruct (ex ?= ey)%Z; cbn; try reflexivity.
    fold (Pos.compare my mx). fold (Pos.compare mx my).
    now rewrite (Pos.compare_antisym mx my).
Qed.

Lemma SFltb_SFleb (x y : spec_float) :
  SFltb x y = true -> SFleb y x = false.
Proof.
  unfold SFltb, SFleb. rewrite (SFcompare_antisym x y).
  destruct (SFcompare x y) as [[]|]; cbn; congruence.
Qed.

Lemma xltb_xleb (a b : xval) : xltb a b = true -> xleb b a = false.
Proof.
  destruct a, b; cbn; try congruence.
  intros H. apply negb_true_iff in H. exact H.
Qed.

Lemma ltb_leb (a b : number) : ltb a b = true -> leb b a = false.
Proof.
  destruct a as [x|x], b as [y|y]; cbn [ltb leb].
  - intros H. apply Z.ltb_lt in H. apply Z.leb_gt. exact H.
  - destruct (exact x); [|apply xltb_xleb].
    rewrite FloatAxioms.ltb_spec, FloatAxioms.leb_spec. apply SFltb_SFleb.
  - destruct (exact y); [|apply xltb_xleb].
    rewrite FloatAxioms.ltb_spec, FloatAxioms.leb_spec. apply SFltb_SFleb.
  - rewrite FloatAxioms.ltb_spec, FloatAxioms.leb_spec. apply SFltb_SFleb.
Qed.

(** [a < b] excludes [b <= a]. *)
Lemma lt_not_le (a b : number) : Py.lt a b -> ~ Py.le b a.
Proof. unfold Py.lt, Py.le. intros H. rewrite (ltb_leb _ _ H). discriminate. Qed.

Lemma le_not_lt (a b : number) : Py.le a b -> ~ Py.lt b a.
Proof. intros H H'. exact (lt_not_le _ _ H' H). Qed.

(** On [int]s the comparisons are those of the integers. *)
Lemma le_Int (a b : Z) : Py.le (Int a) (Int b) <-> a <= b.
Proof. apply Z.leb_le. Qed.

Lemma lt_Int (a b : Z) : Py.lt (Int a) (Int b) <-> a < b.
Proof. apply Z.ltb_lt. Qed.

(** Two positive doubles of the same binade are ordered by their
    mantissas, and so are the numbers below and above them. *)
Lemma SF_lt_le_const (x : spec_float) (m1 m2 : positive) (e : Z) :
  (m1 <= m2)%positive ->
  SFltb x (S754_finite false m1 e) = true ->
  SFleb x (S754_finite false m2 e) = true.
Proof.
  intros Hm. unfold SFltb, SFleb.
  destruct x as [s|s| |s m ex]; cbn; try destruct s; cbn; try congruence.
  destruct (ex ?= e)%Z; try congruence.
  change (Pos.compare_cont Eq m m1) with (Pos.compare m m1).
  change (Pos.compare_cont Eq m m2) with (Pos.compare m m2).
  destruct (Pos.compare_spec m m1); try congruence. intros _.
  destruct (Pos.compare_spec m m2); try reflexivity. lia.
Qed.

Lemma SF_le_le_const (x : spec_float) (m1 m2 : positive) (e : Z) :
  (m1 <= m2)%positive ->
  SFleb (S754_finite false m2 e) x = true ->
  SFleb (S754_finite false m1 e) x = true.
Proof.
  intros Hm. unfold SFleb.
  destruct x as [s|s| |s m ex]; cbn; try destruct s; cbn; try congruence.
  destruct (e ?= ex)%Z; try congruence.
  change (Pos.compare_cont Eq m2 m) with (Pos.compare m2 m).
  change (Pos.compare_cont Eq m1 m) with (Pos.compare m1 m).
  destruct (Pos.compare_spec m2 m); try congruence; intros _;
    destruct (Pos.compare_spec m1 m); try reflexivity; lia.
Qed.

Lemma lt_85_le_100 (s : number) : Py.lt s (Int 85) -> Py.le s (Int 100).
Proof.
  unfold Py.lt, Py.le. destruct s as [z|f]; cbn [ltb leb].
  - intros H. apply Z.ltb_lt in H. apply Z.leb_le. lia.
  - change (exact 85) with true. change (exact 100) with true. cbv iota.
    rewrite FloatAxioms.ltb_spec, FloatAxioms.leb_spec.
    apply (SF_lt_le_const _ 5981343255101440 7036874417766400 (-46)).
    lia.
Qed.

Lemma le_85_le_70 (s : number) : Py.le (Int 85) s -> Py.le (Int 70) s.
Proof.
  unfold Py.le. destruct s as [z|f]; cbn [leb].
  - intros H. apply Z.leb_le in H. apply Z.leb_le. lia.
  - change (exact 85) with true. change (exact 70) with true. cbv iota.
    rewrite !FloatAxioms.leb_spec.
    apply (SF_le_le_const _ 4925812092436480 5981343255101440 (-46)).
    lia.
Qed.

(** *** The arithmetic, evaluated *)

(** Conversion rounds to the nearest double, ties to even, and raises
    beyond the largest double. *)
Example float_of_int_rounds :
  float_of_int 9007199254740993 = Ok 9007199254740992%float /\
  float_of_int 9007199254740995 = Ok 9007199254740996%float /\
  float_of_int (- 5) = Ok (PrimFloat.opp 5) /\
  float_of_int (2 ^ 1024)
  = Raise (OverflowError "int too large to convert to float").
Proof. vm_compute. repeat split. Qed.

(** True division of two [int]s is rounded once; the quotient of two
    [int]s beyond the doubles can be a double, and the quotient of a
    [float] is that of the doubles. *)
Example truediv_rounds :
  truediv (Int 361) (Int 3) = Ok (Float 0x1.e155555555555p+6) /\
  truediv (Int 1) (Int 3) = Ok (Float 0x1.5555555555555p-2) /\
  truediv (Int (2 ^ 54 + 2)) (Int 4) = Ok (Float 4503599627370496) /\
  truediv (Int (2 ^ 54 + 6)) (Int 4) = Ok (Float 4503599627370498) /\
  truediv (Int (10 ^ 400)) (Int (3 * 10 ^ 399))
  = Ok (Float 0x1.aaaaaaaaaaaabp+1) /\
  truediv (Int (10 ^ 400)) (Int 3)
  = Raise (OverflowError "integer division result too large for a float") /\
  truediv (Int 1) (Int 0) = Raise (ZeroDivisionError "division by zero") /\
  truediv (Float 1) (Int 0)
  = Raise (ZeroDivisionError "float division by zero") /\
  truediv (Int 50001) (Float 1000) = Ok (Float 0x1.90020c49ba5e3p+5).
Proof. vm_compute. repeat split. Qed.

(** An [int] and a [float] are compared by value, also where the
    conversion of the [int] would round; nothing is below or above
    [nan]. *)
Example comparisons_by_value :
  ltb (Float 9007199254740992) (Int 9007199254740993) = true /\
  leb (Int 9007199254740993) (Float 9007199254740992) = false /\
  leb (Float 3) (Int 3) = true /\
  ltb (Int 3) (Float 3) = false /\
  ltb (Int 3) (Float 0x1.8000000000001p+1) = true /\
  ltb (Int 3) (Float PrimFloat.nan) = false /\
  leb (Float PrimFloat.nan) (Int 3) = false /\
  ltb (Int (10 ^ 400)) (Float PrimFloat.infinity) = true.
Proof. vm_compute. repeat split. Qed.

(** *** The 16-bit fields and their conversion *)

Lemma u8_range (b : byte) : 0 <= u8 b < 256.
Proof. unfold u8. pose proof (Byte.to_N_bounded b). lia. Qed.

Lemma u16_at_range (data : list byte) (i : nat) : 0 <= u16_at data i < 65536.
Proof.
  unfold u16_at.
  pose proof (u8_range (List.nth i data x00)).
  pose proof (u8_range (List.nth (S i) data x00)). lia.
Qed.

Lemma exact_u16 (raw : Z) : 0 <= raw < 65536 -> exact raw = true.
Proof. intros H. unfold exact. apply Z.leb_le. lia. Qed.

(** A 16-bit field divided by a non-zero [float]: the field converts
    exactly, and the result is the quotient of the two doubles. *)
Lemma truediv_u16 (raw : Z) (y : float) :
  0 <= raw < 65536 -> PrimFloat.eqb y 0 = false ->
  truediv (Int raw) (Float y)
  = Ok (Float (PrimFloat.div (float_of_exact raw) y)).
Proof.
  intros Hraw Hy. unfold truediv, to_float, float_of_int.
  rewrite (exact_u16 raw Hraw). cbn [mbind result_bind Py.bind].
  now rewrite Hy.
Qed.

Lemma scale_u16 (unit_kpa raw : Z) :
  0 <= raw < 65536 ->
  BloodPressureDriver.scale unit_kpa raw = Ok (pressure unit_kpa raw).
Proof.
  intros Hraw. unfold BloodPressureDriver.scale, pressure, kpa.
  destruct (unit_kpa =? 0)%Z; [reflexivity|].
  now apply truediv_u16.
Qed.

Lemma holds_from_spec (p : Z -> bool) (n : nat) :
  forall z, holds_from p n z = true ->
  forall k, z <= k < z + Z.of_nat n -> p k = true.
Proof.
  induction n as [|n IH]; intros z H k Hk; [lia|].
  cbn [holds_from] in H. destruct (p z) eqn:E; [|discriminate].
  destruct (Z.eq_dec k z) as [->|Hne]; [exact E|].
  apply (IH _ H). lia.
Qed.

(** *** The quality score of a blood-pressure reading *)

(** Two pressures of one payload are two [int]s or two [float]s: their
    difference is defined. *)
Lemma sub_pressure (unit_kpa a b : Z) :
  exists pulse_pressure,
    sub (pressure unit_kpa a) (pressure unit_kpa b) = Ok pulse_pressure.
Proof.
  unfold pressure, kpa. destruct (unit_kpa =? 0)%Z; eexists; reflexivity.
Qed.

(** The cascade of [_calculate_quality_score], test by test. *)
Lemma quality_score_cases (systolic diastolic pulse_pressure : number) :
  sub systolic diastolic = Ok pulse_pressure ->
  exists q,
    BloodPressureDriver._calculate_quality_score systolic diastolic = Ok q /\
    (~ plausible systolic diastolic -> q = 0.3%Q) /\
    (plausible systolic diastolic -> Py.le systolic diastolic -> q = 0.4%Q) /\
    (plausible systolic diastolic -> ~ Py.le systolic diastolic ->
     Py.lt pulse_pressure (Int 20) \/ Py.lt (Int 100) pulse_pressure ->
     q = 0.6%Q) /\
    (plausible systolic diastolic -> ~ Py.le systolic diastolic ->
     ~ Py.lt pulse_pressure (Int 20) -> ~ Py.lt (Int 100) pulse_pressure ->
     q = 0.9%Q).
Proof.
  intros Hsub. unfold BloodPressureDriver._calculate_quality_score, plausible,
    Py.le, Py.lt.
  rewrite Hsub. cbn [mbind result_bind Py.bind].
  destruct (leb (Int 50) systolic), (leb systolic (Int 250)),
    (leb (Int 30) diastolic), (leb diastolic (Int 150)),
    (leb systolic diastolic), (ltb pulse_pressure (Int 20)),
    (ltb (Int 100) pulse_pressure);
    cbn; eexists; (split; [reflexivity|]);
    repeat split; intros; try reflexivity; exfalso;
    intuition congruence.
Qed.

(** *** Decoding a blood-pressure notification *)

Lemma slice_two (data : list byte) (off : nat) :
  (off < length data)%nat -> length data <> S off ->
  exists lo hi, slice data off (off + 2) = [lo; hi].
Proof.
  intros Hlt Hne. unfold slice.
  replace (off + 2 - off)%nat with 2%nat by lia.
  pose proof (length_drop data off) as Hlen.
  destruct (drop off data) as [|lo [|hi tl]]; simpl in Hlen; try lia.
  exists lo, hi. reflexivity.
Qed.

Lemma slice_pair (off : nat) :
  forall data : list byte,
    (S off < length data)%nat ->
    slice data off (off + 2) = [List.nth off data x00; List.nth (S off) data x00].
Proof.
  unfold slice. replace (off + 2 - off)%nat with 2%nat by lia.
  induction off as [|off IH]; intros data Hlen.
  - destruct data as [|a [|b tl]]; simpl in Hlen; try lia. reflexivity.
  - destruct data as [|a tl]; simpl in Hlen; try lia.
    cbn [drop]. rewrite IH by lia. reflexivity.
Qed.

Lemma unpack_slice (data : list byte) (off : nat) :
  (S off < length data)%nat ->
  unpack_H (slice data off (off + 2)) = Ok (u16_at data off).
Proof. intros Hlen. now rewrite slice_pair. Qed.

(** The body of the handler up to the quality score. *)
Lemma parse_bp_steps (self : DeviceDriver.t) (now : Z) (data : list byte) :
  (7 <= length data)%nat ->
  BloodPressureDriver.parse_bp_measurement self now data
  = (let flags := u8 (List.hd x00 data) in
     pulse_rate ←
       (if negb (Z.land flags 4 =? 0)%Z && (bp_offset flags <? length data)%nat
        then raw ← unpack_H (slice data (bp_offset flags) (bp_offset flags + 2));
             Ok (PNum (Int raw))
        else Ok PNone);
     quality_score ←
       BloodPressureDriver._calculate_quality_score
         (bp_systolic data) (bp_diastolic data);
     Ok (decoded self now data pulse_rate quality_score)).
Proof.
  intros Hlen.
  destruct data as [|b0 [|b1 [|b2 [|b3 [|b4 [|b5 [|b6 rest]]]]]]];
    simpl in Hlen; try lia.
  set (data := b0 :: b1 :: b2 :: b3 :: b4 :: b5 :: b6 :: rest) in *.
  unfold BloodPressureDriver.parse_bp_measurement, decoded, bp_systolic,
    bp_diastolic.
  change (first_byte data) with (Ok (u8 b0)).
  change (List.hd x00 data) with b0 in *.
  change (unpack_H (slice data 1 3)) with (Ok (u16_at data 1)).
  change (unpack_H (slice data 3 5)) with (Ok (u16_at data 3)).
  change (unpack_H (slice data 5 7)) with (Ok (u16_at data 5)).
  cbn [mbind result_bind Py.bind].
  rewrite !scale_u16 by apply u16_at_range.
  cbn [mbind result_bind Py.bind].
  change (if (Z.land (u8 b0) 2 =? 0)%Z then 7%nat else (7 + 7)%nat)
    with (bp_offset (u8 b0)).
  reflexivity.
Qed.

Lemma parse_bp_pulse (self : DeviceDriver.t) (now : Z) (data : list byte) :
  bp_well_formed data ->
  exists q,
    BloodPressureDriver._calculate_quality_score
      (bp_systolic data) (bp_diastolic data) = Ok q /\
    BloodPressureDriver._handle_bp_measurement self now data
    = Some (decoded self now data (bp_pulse data) q).
Proof.
  intros [Hlen Hpulse].
  destruct (sub_pressure (Z.land (u8 (List.hd x00 data)) 1)
              (u16_at data 1) (u16_at data 3)) as [pp Hpp].
  destruct (quality_score_cases _ _ _ Hpp) as (q & Hq & _).
  exists q. split; [exact Hq|].
  unfold BloodPressureDriver._handle_bp_measurement.
  rewrite parse_bp_steps by exact Hlen. cbv zeta.
  fold (bp_systolic data) in Hq. fold (bp_diastolic data) in Hq.
  unfold bp_pulse.
  destruct (negb (Z.land (u8 (List.hd x00 data)) 4 =? 0)%Z
            && (bp_offset (u8 (List.hd x00 data)) <? length data)%nat) eqn:Hc.
  - apply andb_prop in Hc as [Hflag Hoff].
    apply negb_true_iff, Z.eqb_neq in Hflag. apply Nat.ltb_lt in Hoff.
    specialize (Hpulse Hflag).
    rewrite unpack_slice by lia.
    cbn [mbind result_bind Py.bind]. rewrite Hq. reflexivity.
  - cbn [mbind result_bind Py.bind]. rewrite Hq. reflexivity.
Qed.

Lemma handle_bp_well_formed (self : DeviceDriver.t) (now : Z) (data : list byte) :
  bp_well_formed data ->
  exists pulse_rate q,
    BloodPressureDriver._handle_bp_measurement self now data
    = Some (decoded self now data pulse_rate q).
Proof.
  intros Hwf. destruct (parse_bp_pulse self now data Hwf) as (q & _ & Hq).
  eauto.
Qed.

(** A payload of fewer than seven bytes is dropped. *)
Lemma handle_bp_short (self : DeviceDriver.t) (now : Z) (data : list byte) :
  (length data < 7)%nat ->
  BloodPressureDriver._handle_bp_measurement self now data = None.
Proof.
  intros Hlen.
  destruct data as [|b0 [|b1 [|b2 [|b3 [|b4 [|b5 [|b6 rest]]]]]]];
    simpl in Hlen; try lia; reflexivity.
Qed.

(** *** Which payloads are decoded *)

Lemma slice_one (data : list byte) (off : nat) :
  length data = S off ->
  exists x, slice data off (off + 2) = [x].
Proof.
  intros Hlen. unfold slice.
  replace (off + 2 - off)%nat with 2%nat by lia.
  pose proof (length_drop data off) as Hd.
  destruct (drop off data) as [|x [|y tl]]; simpl in Hd; try lia.
  exists x. reflexivity.
Qed.

(** The handler emits a reading for the well-formed payloads and for no
    others. *)
Lemma handle_bp_some_iff (self : DeviceDriver.t) (now : Z) (data : list byte) :
  is_Some (BloodPressureDriver._handle_bp_measurement self now data)
  <-> bp_well_formed data.
Proof.
  split.
  - intros [r Hr].
    destruct (Nat.lt_ge_cases (length data) 7) as [Hshort|Hlong].
    { rewrite handle_bp_short in Hr by exact Hshort. discriminate. }
    split; [exact Hlong|]. intros Hflag Hcut.
    unfold BloodPressureDriver._handle_bp_measurement in Hr.
    rewrite parse_bp_steps in Hr by exact Hlong. cbv zeta in Hr.
    apply Z.eqb_neq in Hflag. rewrite Hflag in Hr.
    replace (bp_offset (u8 (List.hd x00 data)) <? length data)%nat
      with true in Hr by (symmetry; apply Nat.ltb_lt; lia).
    destruct (slice_one data _ Hcut) as [x Hx]. rewrite Hx in Hr.
    cbn in Hr. discriminate.
  - intros Hwf. destruct (handle_bp_well_formed self now data Hwf) as (p & q & ->).
    eauto.
Qed.

(** C1. A well-formed blood-pressure payload is decoded; its systolic
    and diastolic values are the 16-bit fields at bytes 1 and 3, divided
    by 1000.0 under the kPa flag, and with the pulse pressure
    [systolic - diastolic] as the interpreter computes it, the quality
    score of the reading is 0.3 when systolic is outside [50,250] or
    diastolic outside [30,150]; otherwise 0.4 when systolic <= diastolic;
    otherwise 0.6 when the pulse pressure is below 20 or above 100;
    otherwise 0.9, in particular for systolic > diastolic, both in range,
    with a pulse pressure in [20,100]. *)
Theorem C1_bp_quality_score (self : DeviceDriver.t) (now : Z) (data : list byte) :
  bp_well_formed data ->
  exists r pulse_pressure,
    BloodPressureDriver._handle_bp_measurement self now data = Some r /\
    let systolic := bp_systolic data in
    let diastolic := bp_diastolic data in
    let q := DeviceReading.quality_score r in
    DeviceReading.values r !! "systolic" = Some (PNum systolic) /\
    DeviceReading.values r !! "diastolic" = Some (PNum diastolic) /\
    sub systolic diastolic = Ok pulse_pressure /\
    (~ plausible systolic diastolic -> q = 0.3%Q) /\
    (Py.lt systolic (Int 50) \/ Py.lt (Int 250) systolic \/
     Py.lt diastolic (Int 30) \/ Py.lt (Int 150) diastolic -> q = 0.3%Q) /\
    (plausible systolic diastolic -> Py.le systolic diastolic -> q = 0.4%Q) /\
    (plausible systolic diastolic -> ~ Py.le systolic diastolic ->
     Py.lt pulse_pressure (Int 20) \/ Py.lt (Int 100) pulse_pressure ->
     q = 0.6%Q) /\
    (plausible systolic diastolic -> ~ Py.le systolic diastolic ->
     ~ Py.lt pulse_pressure (Int 20) -> ~ Py.lt (Int 100) pulse_pressure ->
     q = 0.9%Q) /\
    (plausible systolic diastolic -> Py.lt diastolic systolic ->
     Py.le (Int 20) pulse_pressure -> Py.le pulse_pressure (Int 100) ->
     q = 0.9%Q).
Proof.
  intros Hwf.
  destruct (parse_bp_pulse self now data Hwf) as (q & Hq & Hr).
  destruct (sub_pressure (Z.land (u8 (List.hd x00 data)) 1)
              (u16_at data 1) (u16_at data 3)) as [pp Hpp].
  fold (bp_systolic data) in Hpp. fold (bp_diastolic data) in Hpp.
  destruct (quality_score_cases _ _ _ Hpp) as (q' & Hq' & H03 & H04 & H06 & H09).
  assert (q' = q) as -> by congruence.
  exists (decoded self now data (bp_pulse data) q), pp.
  split; [exact Hr|]. cbv zeta. cbn [decoded DeviceReading.quality_score
    DeviceReading.values].
  split; [apply lookup_insert_eq|].
  split; [rewrite lookup_insert_ne by discriminate; apply lookup_insert_eq|].
  split; [exact Hpp|].
  split; [exact H03|].
  split.
  { intros Hout. apply H03. unfold plausible. intros (H1 & H2 & H3 & H4).
    destruct Hout as [H|[H|[H|H]]].
    - exact (lt_not_le _ _ H H1).
    - exact (lt_not_le _ _ H H2).
    - exact (lt_not_le _ _ H H3).
    - exact (lt_not_le _ _ H H4). }
  split; [exact H04|].
  split; [exact H06|].
  split; [exact H09|].
  intros Hin Hgt Hlo Hhi. apply H09.
  - exact Hin.
  - intros Hle. exact (lt_not_le _ _ Hgt Hle).
  - exact (le_not_lt _ _ Hlo).
  - exact (le_not_lt _ _ Hhi).
Qed.

Lemma bp_payload_mmHg_well_formed : bp_well_formed bp_payload_mmHg.
Proof. split; [simpl; lia | vm_compute; congruence]. Defined.

Lemma bp_payload_kPa_well_formed : bp_well_formed bp_payload_kPa.
Proof. split; [simpl; lia | vm_compute; congruence]. Defined.

Lemma C1_bp_quality_score_witness :
  exists r,
    BloodPressureDriver._handle_bp_measurement bp_driver 0 bp_payload_mmHg = Some r /\
    DeviceReading.values r !! "systolic" = Some (PNum (Int 120)) /\
    DeviceReading.values r !! "diastolic" = Some (PNum (Int 80)) /\
    DeviceReading.quality_score r = 0.9%Q.
Proof.
  destruct (C1_bp_quality_score bp_driver 0 bp_payload_mmHg
              bp_payload_mmHg_well_formed)
    as (r & pp & Hr & Hs & Hd & Hpp & _ & _ & _ & _ & _ & H09).
  exists r. split; [exact Hr|]. split; [exact Hs|]. split; [exact Hd|].
  vm_compute in Hpp. injection Hpp as <-.
  apply H09; try (vm_compute; reflexivity).
  repeat split; vm_compute; reflexivity.
Defined.

(** In millimetres of mercury the decoded values are the integers of the
    payload, and the cascade is one of integer comparisons. *)
Theorem bp_quality_mmHg (self : DeviceDriver.t) (now : Z) (data : list byte) :
  bp_well_formed data ->
  Z.land (u8 (List.hd x00 data)) 1 = 0 ->
  exists r,
    BloodPressureDriver._handle_bp_measurement self now data = Some r /\
    let s := u16_at data 1 in
    let d := u16_at data 3 in
    let q := DeviceReading.quality_score r in
    (s < 50 \/ 250 < s \/ d < 30 \/ 150 < d -> q = 0.3%Q) /\
    (50 <= s <= 250 -> 30 <= d <= 150 -> s <= d -> q = 0.4%Q) /\
    (50 <= s <= 250 -> 30 <= d <= 150 -> d < s ->
     s - d < 20 \/ 100 < s - d -> q = 0.6%Q) /\
    (50 <= s <= 250 -> 30 <= d <= 150 -> d < s ->
     20 <= s - d <= 100 -> q = 0.9%Q).
Proof.
  intros Hwf Hunit.
  destruct (parse_bp_pulse self now data Hwf) as (q & Hq & Hr).
  eexists. split; [exact Hr|]. cbv zeta. cbn [decoded DeviceReading.quality_score].
  unfold bp_systolic, bp_diastolic, pressure in Hq. rewrite Hunit in Hq.
  cbn [Z.eqb] in Hq.
  destruct (quality_score_cases (Int (u16_at data 1)) (Int (u16_at data 3))
              (Int (u16_at data 1 - u16_at data 3)) eq_refl)
    as (q' & Hq' & H03 & H04 & H06 & H09).
  assert (q' = q) as -> by congruence.
  unfold plausible in *. rewrite !le_Int, !lt_Int in *.
  repeat split; intros.
  - apply H03. lia.
  - apply H04; lia.
  - apply H06; lia.
  - apply H09; lia.
Qed.

Lemma bp_quality_mmHg_witness :
  exists r,
    BloodPressureDriver._handle_bp_measurement bp_driver 0 bp_payload_mmHg = Some r /\
    DeviceReading.quality_score r = 0.9%Q.
Proof.
  destruct (bp_quality_mmHg bp_driver 0 bp_payload_mmHg
              bp_payload_mmHg_well_formed eq_refl)
    as (r & Hr & _ & _ & _ & H09).
  exists r. split; [exact Hr|].
  apply H09; vm_compute; split; congruence.
Defined.

(** 120/80 mmHg scores 0.9; 120/120 scores 0.4; 40/80 scores 0.3;
    120/110 scores 0.6. *)
Example quality_120_80 :
  DeviceReading.quality_score
    <$> BloodPressureDriver._handle_bp_measurement bp_driver 0 bp_payload_mmHg
  = Some 0.9%Q.
Proof. vm_compute. reflexivity. Qed.

Example quality_table :
  BloodPressureDriver._calculate_quality_score (Int 120) (Int 120) = Ok 0.4%Q /\
  BloodPressureDriver._calculate_quality_score (Int 40) (Int 80) = Ok 0.3%Q /\
  BloodPressureDriver._calculate_quality_score (Int 120) (Int 110) = Ok 0.6%Q /\
  BloodPressureDriver._calculate_quality_score (Int 200) (Int 90) = Ok 0.6%Q /\
  BloodPressureDriver._calculate_quality_score (Int 140) (Int 120) = Ok 0.9%Q /\
  BloodPressureDriver._calculate_quality_score (Int 250) (Int 150) = Ok 0.9%Q.
Proof. vm_compute. repeat split. Qed.

(** The pulse pressure is the difference of two doubles, rounded: the
    kPa payload with the raw fields 50001 and 30001 decodes to
    50.001 and 30.001, whose difference is the double just below 20, and
    scores 0.6. *)
Example quality_kPa_rounded :
  u16_at bp_payload_kPa_edge 1 = 50001 /\
  u16_at bp_payload_kPa_edge 3 = 30001 /\
  sub (bp_systolic bp_payload_kPa_edge) (bp_diastolic bp_payload_kPa_edge)
  = Ok (Float 0x1.3ffffffffffffp+4) /\
  Py.lt (Float 0x1.3ffffffffffffp+4) (Int 20) /\
  DeviceReading.quality_score
    <$> BloodPressureDriver._handle_bp_measurement bp_driver 0 bp_payload_kPa_edge
  = Some 0.6%Q.
Proof. vm_compute. repeat split. Qed.

(** C5. In a well-formed payload whose flags have bit 0 set (kPa), the
    three little-endian 16-bit pressures are divided by 1000.0; with bit 0
    clear (mmHg) they are used as they are. A kPa payload whose raw
    systolic is 16000 decodes to 16.0. *)
Theorem C5_kpa_scaling (self : DeviceDriver.t) (now : Z) (data : list byte) :
  bp_well_formed data ->
  exists r,
    BloodPressureDriver._handle_bp_measurement self now data = Some r /\
    let flags := u8 (List.hd x00 data) in
    let field k := DeviceReading.values r !! k in
    let over_1000 raw := Float (PrimFloat.div (float_of_exact raw) 1000) in
    (Z.land flags 1 <> 0 ->
     DeviceReading.unit r = "kPa" /\
     field "systolic" = Some (PNum (over_1000 (u16_at data 1))) /\
     field "diastolic" = Some (PNum (over_1000 (u16_at data 3))) /\
     field "mean_pressure" = Some (PNum (over_1000 (u16_at data 5)))) /\
    (Z.land flags 1 = 0 ->
     DeviceReading.unit r = "mmHg" /\
     field "systolic" = Some (PNum (Int (u16_at data 1))) /\
     field "diastolic" = Some (PNum (Int (u16_at data 3))) /\
     field "mean_pressure" = Some (PNum (Int (u16_at data 5)))) /\
    (Z.land flags 1 <> 0 -> u16_at data 1 = 16000 ->
     field "systolic" = Some (PNum (Float 16))).
Proof.
  intros Hwf.
  destruct (handle_bp_well_formed self now data Hwf) as (p & q & Hp).
  eexists. split; [exact Hp|].
  cbv zeta. unfold decoded, bp_systolic, bp_diastolic, pressure, kpa.
  cbn [DeviceReading.values DeviceReading.unit].
  rewrite lookup_insert_eq.
  rewrite !(lookup_insert_ne _ "systolic") by discriminate.
  rewrite lookup_insert_eq.
  rewrite !(lookup_insert_ne _ "diastolic") by discriminate.
  rewrite lookup_insert_eq.
  destruct (Z.eqb_spec (Z.land (u8 (List.hd x00 data)) 1) 0) as [E|E].
  - split; [congruence|]. split; [now repeat split|]. congruence.
  - split; [now repeat split|]. split; [congruence|].
    intros _ H16. rewrite H16. reflexivity.
Qed.

Lemma C5_kpa_scaling_witness :
  exists r,
    BloodPressureDriver._handle_bp_measurement bp_driver 0 bp_payload_kPa = Some r /\
    DeviceReading.unit r = "kPa" /\
    DeviceReading.values r !! "systolic" = Some (PNum (Float 16)) /\
    DeviceReading.values r !! "diastolic" = Some (PNum (Float 10)).
Proof.
  destruct (C5_kpa_scaling bp_driver 0 bp_payload_kPa bp_payload_kPa_well_formed)
    as (r & Hr & Hkpa & _ & H16).
  assert (Hflag : Z.land (u8 (List.hd x00 bp_payload_kPa)) 1 <> 0)
    by (vm_compute; discriminate).
  destruct (Hkpa Hflag) as (Hunit & _ & Hd & _).
  exists r. split; [exact Hr|]. split; [exact Hunit|].
  split; [exact (H16 Hflag eq_refl)|]. exact Hd.
Defined.

(** *** Driver life cycle and the device table *)

Lemma connect_true_iff (ble : bool) (io : ConnectIO) (self : DeviceDriver.t) :
  fst (DeviceDriver.connect ble io self) = Ok true <->
  DeviceDriver.class self <> DeviceDriver.Base /\ ble = true /\
  io_connect io = Ok tt /\ io_start_notify io = Ok tt.
Proof.
  unfold DeviceDriver.connect.
  destruct (DeviceDriver.class self), ble, (io_connect io) as [[]|],
    (io_start_notify io) as [[]|]; simpl; split;
    try discriminate; try reflexivity; try tauto; try (intros _; repeat split; discriminate);
    intros (? & ? & ? & ?); congruence.
Qed.

Lemma connect_true_state (ble : bool) (io : ConnectIO) (self : DeviceDriver.t) :
  fst (DeviceDriver.connect ble io self) = Ok true ->
  let self' := snd (DeviceDriver.connect ble io self) in
  DeviceDriver.status self' = DeviceStatus.CONNECTED /\
  DeviceDriver.device_info self' = DeviceDriver.device_info self /\
  DeviceDriver.class self' = DeviceDriver.class self /\
  DeviceDriver.client self'
  = Some (BleakClient.Build
            (DeviceInfo.mac_address (DeviceDriver.device_info self)) true).
Proof.
  unfold DeviceDriver.connect.
  destruct (DeviceDriver.class self) eqn:Ecls, ble, (io_connect io) as [[]|],
    (io_start_notify io) as [[]|]; cbn; try discriminate; intros _; auto.
Qed.

(** C10. [connect_device] returns [True] exactly when the driver's
    [connect()] returned [True]; in that case the device table gains the
    entry device_id -> driver (connected, carrying the storage callback)
    and is otherwise unchanged; when [connect()] returns [False] or
    raises, [connect_device] returns [False] and the manager is left as it
    was. *)
Theorem C10_connect_device_table (ble : bool) (io : ConnectIO)
    (self : DeviceManager.t) (device_info : DeviceInfo.t) :
  let attempt :=
    DeviceDriver.connect ble io (DeviceManager._create_driver device_info) in
  let outcome := DeviceManager.connect_device ble io self device_info in
  (fst outcome = true <-> fst attempt = Ok true) /\
  (fst attempt = Ok true ->
   DeviceManager.devices (snd outcome)
   = <[DeviceInfo.device_id device_info :=
         DeviceDriver.add_callback _handle_device_reading (snd attempt)]>
       (DeviceManager.devices self) /\
   (exists driver,
      DeviceManager.devices (snd outcome) !! DeviceInfo.device_id device_info
      = Some driver /\
      DeviceDriver.status driver = DeviceStatus.CONNECTED /\
      DeviceDriver.device_info driver = device_info) /\
   (forall other, other <> DeviceInfo.device_id device_info ->
      DeviceManager.devices (snd outcome) !! other
      = DeviceManager.devices self !! other)) /\
  (fst attempt <> Ok true -> fst outcome = false /\ snd outcome = self).
Proof.
  cbv zeta. unfold DeviceManager.connect_device.
  pose proof (connect_true_state ble io (DeviceManager._create_driver device_info))
    as Hst.
  destruct (DeviceDriver.connect ble io (DeviceManager._create_driver device_info))
    as [[[|]|e] driver]; cbn [fst snd] in *.
  - split; [tauto|]. split; [|congruence]. intros _.
    destruct (Hst eq_refl) as (Hs & Hi & _).
    split; [reflexivity|]. split.
    + eexists. split; [apply lookup_insert_eq|]. split; [exact Hs|].
      cbn. rewrite Hi.
      unfold DeviceManager._create_driver.
      destruct (DeviceInfo.device_type device_info); reflexivity.
    + intros other Hne. cbn. now rewrite lookup_insert_ne.
  - split; [split; discriminate|]. split; [discriminate|]. now intros _.
  - split; [split; discriminate|]. split; [discriminate|]. now intros _.
Qed.

(** A weight scale gets the base driver, whose [connect()] raises: the
    call reports failure and the table stays empty. *)
Example connect_device_base_driver :
  let scale_info :=
    DeviceInfo.Build "dev-9" "Withings Body" "Withings" "Withings Body"
      DeviceType.WEIGHT_SCALE "AA:BB:CC:00:11:99" (-50) None None None false "unknown" in
  DeviceManager.connect_device true link_up DeviceManager.init scale_info
  = (false, DeviceManager.init).
Proof. reflexivity. Qed.

Example connect_device_bp :
  DeviceManager.get_device_status
    (snd (DeviceManager.connect_device true link_up DeviceManager.init bp_info))
    "dev-1"
  = Some DeviceStatus.CONNECTED.
Proof. vm_compute. reflexivity. Qed.

(** C8, as stated, fails: a blood-pressure driver whose [connect()] was
    refused is in state [error] with a client that is not connected;
    [disconnect()] finds nothing to close and leaves it in [error]. *)
Lemma C8_disconnect_counterexample :
  DeviceDriver.status bp_refused = DeviceStatus.ERROR /\
  DeviceDriver.status (snd (DeviceDriver.disconnect unlink_ok bp_refused))
  <> DeviceStatus.DISCONNECTED.
Proof. split; [reflexivity | vm_compute; discriminate]. Qed.

(** Nor does the thermometer driver define [disconnect()]: the call
    raises and the state stays [connected]. *)
Example disconnect_thermometer :
  let thermo :=
    snd (DeviceDriver.connect true link_up
           (DeviceDriver.init DeviceDriver.Thermometer bp_info)) in
  DeviceDriver.disconnect unlink_ok thermo = (Raise NotImplementedError, thermo) /\
  DeviceDriver.status thermo = DeviceStatus.CONNECTED.
Proof. split; reflexivity. Qed.

Lemma disconnect_nothing_open (io : DisconnectIO) (self : DeviceDriver.t) :
  closes self ->
  DeviceDriver.client self = None
  \/ (exists c, DeviceDriver.client self = Some c
                 /\ BleakClient.is_connected c = false) ->
  DeviceDriver.disconnect io self = (Ok tt, self).
Proof.
  intros Hcls Hguard. unfold DeviceDriver.disconnect.
  destruct Hcls as [-> | ->];
    (destruct Hguard as [-> | (c & -> & ->)]; reflexivity).
Qed.

Lemma disconnect_transport_raises (io : DisconnectIO) (self : DeviceDriver.t) :
  closes self ->
  (exists e, io_stop_notify io = Raise e)
  \/ (exists e, io_disconnect io = Raise e) ->
  DeviceDriver.disconnect io self = (Ok tt, self).
Proof.
  intros Hcls Hio. unfold DeviceDriver.disconnect.
  destruct Hcls as [-> | ->];
    (destruct (DeviceDriver.client self) as [c|]; [|reflexivity];
     destruct (BleakClient.is_connected c); [|reflexivity];
     destruct Hio as [[e ->] | [e ->]]; [reflexivity|];
     destruct (io_stop_notify io); reflexivity).
Qed.

Lemma disconnect_closes (io : DisconnectIO) (self : DeviceDriver.t) (c : BleakClient.t) :
  closes self ->
  DeviceDriver.client self = Some c -> BleakClient.is_connected c = true ->
  io_stop_notify io = Ok tt -> io_disconnect io = Ok tt ->
  DeviceDriver.disconnect io self
  = (Ok tt,
     DeviceDriver.set_status DeviceStatus.DISCONNECTED
       (DeviceDriver.set_client
          (Some (BleakClient.Build (BleakClient.address c) false)) self)).
Proof.
  intros Hcls Hc Hconn Hstop Hdisc. unfold DeviceDriver.disconnect.
  rewrite Hc, Hconn, Hstop, Hdisc. destruct Hcls as [-> | ->]; reflexivity.
Qed.

(** C8, amended. For a blood-pressure or pulse-oximeter driver:
    when a client exists, reports itself connected, and both transport
    calls succeed, [disconnect()] ends in [disconnected] and any further
    [disconnect()] changes nothing; when there is no client or the client
    is not connected, or when a transport call raises, [disconnect()]
    leaves the driver, and so its status, as it was. *)
Theorem C8_disconnect_amended (io io' : DisconnectIO) (self : DeviceDriver.t) :
  DeviceDriver.class self = DeviceDriver.BloodPressure
  \/ DeviceDriver.class self = DeviceDriver.PulseOximeter ->
  let after := snd (DeviceDriver.disconnect io self) in
  ((exists c, DeviceDriver.client self = Some c
              /\ BleakClient.is_connected c = true) ->
   io_stop_notify io = Ok tt -> io_disconnect io = Ok tt ->
   DeviceDriver.status after = DeviceStatus.DISCONNECTED /\
   snd (DeviceDriver.disconnect io' after) = after) /\
  (DeviceDriver.client self = None
   \/ (exists c, DeviceDriver.client self = Some c
                 /\ BleakClient.is_connected c = false) ->
   after = self) /\
  ((exists e, io_stop_notify io = Raise e)
   \/ (exists e, io_disconnect io = Raise e) ->
   after = self).
Proof.
  intros Hcls. cbv zeta. repeat apply conj.
  - intros (c & Hc & Hconn) Hstop Hdisc.
    rewrite (disconnect_closes io self c Hcls Hc Hconn Hstop Hdisc).
    cbn [snd]. split; [reflexivity|].
    rewrite disconnect_nothing_open; [reflexivity | exact Hcls |].
    right. eexists. split; reflexivity.
  - intros Hguard. now rewrite disconnect_nothing_open.
  - intros Hio. now rewrite disconnect_transport_raises.
Qed.

Lemma C8_disconnect_amended_witness :
  let after := snd (DeviceDriver.disconnect unlink_ok bp_connected) in
  ((exists c, DeviceDriver.client bp_connected = Some c
              /\ BleakClient.is_connected c = true) ->
   io_stop_notify unlink_ok = Ok tt -> io_disconnect unlink_ok = Ok tt ->
   DeviceDriver.status after = DeviceStatus.DISCONNECTED /\
   snd (DeviceDriver.disconnect unlink_ok after) = after) /\
  (DeviceDriver.client bp_connected = None
   \/ (exists c, DeviceDriver.client bp_connected = Some c
                 /\ BleakClient.is_connected c = false) ->
   after = bp_connected) /\
  ((exists e, io_stop_notify unlink_ok = Raise e)
   \/ (exists e, io_disconnect unlink_ok = Raise e) ->
   after = bp_connected).
Proof.
  apply (C8_disconnect_amended unlink_ok unlink_ok bp_connected).
  left. reflexivity.
Defined.

(** From [connected], with a cooperative transport, the driver does end
    in [disconnected]. *)
Example disconnect_connected :
  DeviceDriver.status bp_connected = DeviceStatus.CONNECTED /\
  DeviceDriver.status (snd (DeviceDriver.disconnect unlink_ok bp_connected))
  = DeviceStatus.DISCONNECTED.
Proof. split; reflexivity. Qed.

(** *** The calibration ledger *)

Section Ledger.
Variable read_data : nat -> result (option DeviceReading.t).
Variable utcnow : nat -> Z.

Lemma history_store_same (self : DeviceCalibrator.t) (device_id : string)
    (record : CalibrationRecord.t) :
  DeviceCalibrator.get_calibration_history
    (DeviceCalibrator.store self device_id record) device_id
  = DeviceCalibrator.get_calibration_history self device_id ++ [record].
Proof.
  unfold DeviceCalibrator.get_calibration_history, DeviceCalibrator.store.
  cbn. now rewrite lookup_insert_eq.
Qed.

Lemma history_store_other (self : DeviceCalibrator.t) (device_id other : string)
    (record : CalibrationRecord.t) :
  other <> device_id ->
  DeviceCalibrator.get_calibration_history
    (DeviceCalibrator.store self device_id record) other
  = DeviceCalibrator.get_calibration_history self other.
Proof.
  intros Hne.
  unfold DeviceCalibrator.get_calibration_history, DeviceCalibrator.store.
  cbn. now rewrite lookup_insert_ne.
Qed.

Lemma ledger_ok_init : ledger_ok DeviceCalibrator.init.
Proof. intros device_id records H. cbn in H. now rewrite lookup_empty in H. Qed.

Lemma ledger_ok_store (self : DeviceCalibrator.t) (device_id : string)
    (record : CalibrationRecord.t) :
  ledger_ok self -> ledger_ok (DeviceCalibrator.store self device_id record).
Proof.
  intros Hok other records. unfold DeviceCalibrator.store. cbn.
  destruct (decide (device_id = other)) as [->|Hne].
  - rewrite lookup_insert_eq. intros [= <-].
    now destruct (DeviceCalibrator.get_calibration_history self other).
  - rewrite lookup_insert_ne by exact Hne. apply Hok.
Qed.

(** Once the device check has passed, the run always returns a record
    and stores exactly that record. *)
Lemma calibrate_started (p : DeviceCalibrator.procedure) (dm : DeviceManager.t)
    (self : DeviceCalibrator.t) (device_id : string) (ref1 ref2 : number) :
  valid_device p dm device_id ->
  exists record,
    DeviceCalibrator.calibrate read_data utcnow p dm self device_id ref1 ref2
    = (Ok record, DeviceCalibrator.store self device_id record) /\
    match DeviceCalibrator.measure read_data utcnow p device_id ref1 ref2 with
    | Ok r => record = r
    | Raise e =>
        record = DeviceCalibrator.error_record utcnow p device_id ref1 ref2 e
    end.
Proof.
  intros (device & Hdev & Hty). unfold DeviceCalibrator.calibrate.
  rewrite Hdev, bool_decide_eq_true_2 by exact Hty.
  destruct (DeviceCalibrator.measure read_data utcnow p device_id ref1 ref2);
    eexists; split; reflexivity.
Qed.

(** Without a valid device the call raises before anything is read or
    stored. *)
Lemma calibrate_rejected (p : DeviceCalibrator.procedure) (dm : DeviceManager.t)
    (self : DeviceCalibrator.t) (device_id : string) (ref1 ref2 : number) :
  ~ valid_device p dm device_id ->
  DeviceCalibrator.calibrate read_data utcnow p dm self device_id ref1 ref2
  = (Raise (ValueError (DeviceCalibrator.invalid_device p)), self).
Proof.
  intros Hinv. unfold DeviceCalibrator.calibrate.
  destruct (DeviceManager.devices dm !! device_id) as [device|] eqn:Hdev;
    [|reflexivity].
  case_bool_decide as Hty; [|reflexivity].
  exfalso. apply Hinv. exists device. split; [exact Hdev | exact Hty].
Qed.

Lemma take_readings_length (f1 f2 : string) (n : nat) :
  forall (i : nat) (acc rs : list DeviceReading.t),
    DeviceCalibrator.take_readings read_data f1 f2 i n acc = Ok rs ->
    length rs = (length acc + good_reads_from read_data f1 f2 i n)%nat.
Proof.
  induction n as [|n IH]; intros i acc rs H; cbn in H.
  - injection H as <-. unfold good_reads_from. cbn. lia.
  - unfold good_reads_from. cbn [seq List.filter].
    fold (good_reads_from read_data f1 f2 (S i) n) in *.
    unfold good_read at 1.
    destruct (read_data i) as [reading|e]; cbn in H; [|discriminate].
    apply IH in H. rewrite H.
    destruct reading as [r|]; cbn [DeviceCalibrator.usable].
    + fold (DeviceCalibrator.usable f1 f2 (Some r)).
      destruct (DeviceCalibrator.usable f1 f2 (Some r));
        cbn [length]; rewrite ?length_app; cbn [length];
        fold (good_reads_from read_data f1 f2 (S i) n); lia.
    + cbn [length]. fold (good_reads_from read_data f1 f2 (S i) n). lia.
Qed.

Lemma take_readings_returns (f1 f2 : string) (n : nat) :
  forall (i : nat) (acc : list DeviceReading.t),
    (forall j, (i <= j < i + n)%nat -> exists r, read_data j = Ok r) ->
    exists rs, DeviceCalibrator.take_readings read_data f1 f2 i n acc = Ok rs.
Proof.
  induction n as [|n IH]; intros i acc Hret; cbn.
  - eauto.
  - destruct (Hret i ltac:(lia)) as [r ->]. cbn.
    apply IH. intros j Hj. apply Hret. lia.
Qed.

End Ledger.

Section Measure.
Variable read_data : nat -> result (option DeviceReading.t).
Variable utcnow : nat -> Z.
Variable p : DeviceCalibrator.procedure.

Let f1 := DeviceCalibrator.field1 p.
Let f2 := DeviceCalibrator.field2 p.

(** Too few good reads: the [try] block raises, with the
    "insufficient readings" message when every read returned. *)
Lemma measure_insufficient (device_id : string) (ref1 ref2 : number) :
  (good_reads_from read_data f1 f2 0 (DeviceCalibrator.samples p)
   < DeviceCalibrator.min_samples p)%nat ->
  exists e,
    DeviceCalibrator.measure read_data utcnow p device_id ref1 ref2 = Raise e /\
    ((forall j, (j < DeviceCalibrator.samples p)%nat ->
                exists r, read_data j = Ok r) ->
     e = PyException DeviceCalibrator.insufficient).
Proof.
  intros Hfew. unfold DeviceCalibrator.measure. fold f1 f2.
  destruct (DeviceCalibrator.take_readings read_data f1 f2 0
              (DeviceCalibrator.samples p) []) as [rs|e] eqn:E.
  - apply take_readings_length in E. cbn [length] in E.
    cbn [mbind result_bind Py.bind].
    replace (length rs <? DeviceCalibrator.min_samples p)%nat with true
      by (symmetry; apply Nat.ltb_lt; lia).
    eexists. split; [reflexivity|]. reflexivity.
  - exists e. split; [reflexivity|]. intros Hret.
    destruct (take_readings_returns read_data f1 f2
                (DeviceCalibrator.samples p) 0 []) as [rs Hrs].
    + intros j Hj. apply Hret. lia.
    + congruence.
Qed.

Variables (th : gmap string number) (th1 th2 : number) (interval : Z).
Hypothesis Hth :
  DeviceCalibrator.deviation_thresholds (DeviceCalibrator.expected_type p)
  = Some th.
Hypothesis Hth1 : th !! f1 = Some th1.
Hypothesis Hth2 : th !! f2 = Some th2.
Hypothesis Hint :
  DeviceCalibrator.calibration_intervals (DeviceCalibrator.expected_type p)
  = Some interval.

(** Division by an empty count raises. *)
Lemma truediv_zero (x : number) : exists e, truediv x (Int 0) = Raise e.
Proof. destruct x; eexists; reflexivity. Qed.

(** What a record that comes out of the [try] block looks like. *)
Lemma measure_Ok_inv (device_id : string) (ref1 ref2 : number)
    (record : CalibrationRecord.t) :
  DeviceCalibrator.measure read_data utcnow p device_id ref1 ref2 = Ok record ->
  exists readings sum1 sum2 avg1 avg2 difference1 difference2,
    DeviceCalibrator.take_readings read_data f1 f2 0
      (DeviceCalibrator.samples p) [] = Ok readings /\
    (DeviceCalibrator.min_samples p <= length readings)%nat /\
    length readings <> 0%nat /\
    DeviceCalibrator.sum_field f1 (Int 0) readings = Ok sum1 /\
    DeviceCalibrator.sum_field f2 (Int 0) readings = Ok sum2 /\
    truediv sum1 (Int (Z.of_nat (length readings))) = Ok avg1 /\
    truediv sum2 (Int (Z.of_nat (length readings))) = Ok avg2 /\
    sub avg1 ref1 = Ok difference1 /\
    sub avg2 ref2 = Ok difference2 /\
    record =
    CalibrationRecord.Build device_id (utcnow 0%nat) "user"
      (<[f1 := ref1]> (<[f2 := ref2]> ∅))
      (<[f1 := avg1]> (<[f2 := avg2]> ∅))
      (<[f1 := Py.abs difference1]> (<[f2 := Py.abs difference2]> ∅))
      (if ltb th1 (Py.abs difference1) || ltb th2 (Py.abs difference2)
       then CalibrationStatus.OUT_OF_SPEC else CalibrationStatus.CALIBRATED)
      None None (Some (utcnow 1%nat + timedelta_days interval)) None.
Proof.
  unfold DeviceCalibrator.measure. fold f1 f2. rewrite Hth, Hint.
  intros H.
  destruct (DeviceCalibrator.take_readings read_data f1 f2 0
              (DeviceCalibrator.samples p) []) as [rs|e] eqn:E;
    cbn [mbind result_bind Py.bind] in H; [|discriminate].
  destruct (length rs <? DeviceCalibrator.min_samples p)%nat eqn:Hlen;
    [discriminate|].
  apply Nat.ltb_ge in Hlen. cbv zeta in H.
  destruct (DeviceCalibrator.sum_field f1 (Int 0) rs) as [s1|] eqn:E1;
    cbn [mbind result_bind Py.bind] in H; [|discriminate].
  destruct (truediv s1 (Int (Z.of_nat (length rs)))) as [a1|] eqn:Ea1;
    cbn [mbind result_bind Py.bind] in H; [|discriminate].
  destruct (DeviceCalibrator.sum_field f2 (Int 0) rs) as [s2|] eqn:E2;
    cbn [mbind result_bind Py.bind] in H; [|discriminate].
  destruct (truediv s2 (Int (Z.of_nat (length rs)))) as [a2|] eqn:Ea2;
    cbn [mbind result_bind Py.bind] in H; [|discriminate].
  destruct (sub a1 ref1) as [d1|] eqn:Ed1;
    cbn [mbind result_bind Py.bind] in H; [|discriminate].
  destruct (sub a2 ref2) as [d2|] eqn:Ed2;
    cbn [mbind result_bind Py.bind] in H; [|discriminate].
  unfold getitem in H. rewrite Hth1 in H.
  cbn [mbind result_bind Py.bind] in H.
  assert (Hnz : length rs <> 0%nat).
  { intros Hz. rewrite Hz in Ea1. change (Z.of_nat 0) with 0 in Ea1.
    destruct (truediv_zero s1) as [e He]. rewrite He in Ea1. discriminate. }
  exists rs, s1, s2, a1, a2, d1, d2.
  repeat (split; [first [reflexivity | assumption]|]).
  destruct (ltb th1 (Py.abs d1)); cbn [mbind result_bind Py.bind orb] in H |- *.
  - now injection H as <-.
  - rewrite Hth2 in H. cbn [mbind result_bind Py.bind] in H.
    now injection H as <-.
Qed.

End Measure.

(** *** Blood-pressure and pulse-oximeter calibration runs *)

Lemma bp_threshold_systolic :
  forall th,
    DeviceCalibrator.deviation_thresholds DeviceType.BLOOD_PRESSURE = Some th ->
    th !! "systolic" = Some (Int 3) /\ th !! "diastolic" = Some (Int 3).
Proof.
  intros th [= <-]. split.
  - apply lookup_insert_eq.
  - rewrite lookup_insert_ne by discriminate. apply lookup_insert_eq.
Qed.

Lemma plx_threshold :
  forall th,
    DeviceCalibrator.deviation_thresholds DeviceType.PULSE_OXIMETER = Some th ->
    th !! "spo2" = Some (Int 2) /\ th !! "pulse_rate" = Some (Int 3).
Proof.
  intros th [= <-]. split.
  - apply lookup_insert_eq.
  - rewrite lookup_insert_ne by discriminate. apply lookup_insert_eq.
Qed.

(** C2. A blood-pressure calibration run (device present and of the
    right type) in which fewer than 3 of the 5 reads deliver a reading
    with both systolic and diastolic returns a record instead of raising,
    appends exactly that one record to the device's ledger, and the record
    has status calibration_failed (so neither calibrated nor out_of_spec)
    and carries a note; when all five reads returned, the note is
    "Insufficient readings for calibration". *)
Theorem C2_insufficient_samples
    (read_data : nat -> result (option DeviceReading.t)) (utcnow : nat -> Z)
    (dm : DeviceManager.t) (self : DeviceCalibrator.t) (device_id : string)
    (reference_systolic reference_diastolic : number) :
  valid_device DeviceCalibrator.bp_procedure dm device_id ->
  (good_reads_from read_data "systolic" "diastolic" 0 5 < 3)%nat ->
  exists record self',
    DeviceCalibrator.calibrate_blood_pressure_monitor read_data utcnow dm self
      device_id reference_systolic reference_diastolic = (Ok record, self') /\
    DeviceCalibrator.get_calibration_history self' device_id
    = DeviceCalibrator.get_calibration_history self device_id ++ [record] /\
    CalibrationRecord.status record = CalibrationStatus.CALIBRATION_FAILED /\
    CalibrationRecord.status record <> CalibrationStatus.CALIBRATED /\
    CalibrationRecord.status record <> CalibrationStatus.OUT_OF_SPEC /\
    (exists note, CalibrationRecord.notes record = Some note) /\
    ((forall i, (i < 5)%nat -> exists r, read_data i = Ok r) ->
     CalibrationRecord.notes record
     = Some "Insufficient readings for calibration").
Proof.
  intros Hvalid Hfew.
  unfold DeviceCalibrator.calibrate_blood_pressure_monitor.
  destruct (calibrate_started read_data utcnow DeviceCalibrator.bp_procedure dm
              self device_id reference_systolic reference_diastolic Hvalid)
    as (record & Hrun & Hrec).
  destruct (measure_insufficient read_data utcnow DeviceCalibrator.bp_procedure
              device_id reference_systolic reference_diastolic Hfew)
    as (e & He & Hmsg).
  rewrite He in Hrec. subst record.
  eexists _, _. split; [exact Hrun|].
  split; [apply history_store_same|].
  cbn [DeviceCalibrator.error_record CalibrationRecord.status CalibrationRecord.notes].
  repeat split; try discriminate; [eauto|].
  intros Hret. now rewrite (Hmsg Hret).
Qed.

Lemma dm_bp_valid : valid_device DeviceCalibrator.bp_procedure dm_bp "dev-1".
Proof. eexists. split; [vm_compute; reflexivity | reflexivity]. Defined.

Lemma C2_insufficient_samples_witness :
  exists record self',
    DeviceCalibrator.calibrate_blood_pressure_monitor two_of_five (ticking 1000)
      dm_bp DeviceCalibrator.init "dev-1" (Float 120) (Float 80) = (Ok record, self') /\
    DeviceCalibrator.get_calibration_history self' "dev-1"
    = DeviceCalibrator.get_calibration_history DeviceCalibrator.init "dev-1"
      ++ [record] /\
    CalibrationRecord.status record = CalibrationStatus.CALIBRATION_FAILED /\
    CalibrationRecord.status record <> CalibrationStatus.CALIBRATED /\
    CalibrationRecord.status record <> CalibrationStatus.OUT_OF_SPEC /\
    (exists note, CalibrationRecord.notes record = Some note) /\
    ((forall i, (i < 5)%nat -> exists r, two_of_five i = Ok r) ->
     CalibrationRecord.notes record
     = Some "Insufficient readings for calibration").
Proof.
  apply (C2_insufficient_samples two_of_five (ticking 1000) dm_bp
           DeviceCalibrator.init "dev-1" (Float 120) (Float 80)).
  - exact dm_bp_valid.
  - vm_compute. lia.
Defined.

(** With the blood-pressure driver of this repository in the table,
    [read_data()] returns [None] every time, so every run is of this
    kind. *)
Lemma driver_reads_never_good (device : DeviceDriver.t) (f1 f2 : string) (n : nat) :
  DeviceDriver.class device = DeviceDriver.BloodPressure ->
  forall i0, good_reads_from (DeviceCalibrator.driver_reads device) f1 f2 i0 n = 0%nat.
Proof.
  intros Hcls. induction n as [|n IH]; intros i0; [reflexivity|].
  unfold good_reads_from in *. cbn [seq List.filter].
  unfold good_read at 1, DeviceCalibrator.driver_reads at 1, DeviceDriver.read_data.
  rewrite Hcls. case_bool_decide; cbn; apply IH.
Qed.

(** C3. For a blood-pressure run that did not fail, the record holds the
    means of systolic and diastolic over the usable readings (at least
    three) and the deviations |measured - reference|, each computed as
    the interpreter computes it, and its status is out_of_spec exactly
    when one of the deviations is strictly greater than 3, calibrated
    otherwise; deviations of at most 3, and in particular a systolic
    deviation of exactly 3 with a diastolic deviation of at most 3, give
    calibrated. *)
Theorem C3_threshold_exclusive
    (read_data : nat -> result (option DeviceReading.t)) (utcnow : nat -> Z)
    (dm : DeviceManager.t) (self : DeviceCalibrator.t) (device_id : string)
    (reference_systolic reference_diastolic : number) (record : CalibrationRecord.t) :
  fst (DeviceCalibrator.calibrate_blood_pressure_monitor read_data utcnow dm self
         device_id reference_systolic reference_diastolic) = Ok record ->
  CalibrationRecord.status record <> CalibrationStatus.CALIBRATION_FAILED ->
  exists measured_s measured_d deviation_s deviation_d,
    CalibrationRecord.measured_values record !! "systolic" = Some measured_s /\
    CalibrationRecord.measured_values record !! "diastolic" = Some measured_d /\
    CalibrationRecord.deviation_values record !! "systolic" = Some deviation_s /\
    CalibrationRecord.deviation_values record !! "diastolic" = Some deviation_d /\
    (exists readings total_s total_d,
       DeviceCalibrator.take_readings read_data "systolic" "diastolic" 0 5 []
       = Ok readings /\
       (3 <= length readings)%nat /\
       DeviceCalibrator.sum_field "systolic" (Int 0) readings = Ok total_s /\
       DeviceCalibrator.sum_field "diastolic" (Int 0) readings = Ok total_d /\
       truediv total_s (Int (Z.of_nat (length readings))) = Ok measured_s /\
       truediv total_d (Int (Z.of_nat (length readings))) = Ok measured_d) /\
    (exists difference_s difference_d,
       sub measured_s reference_systolic = Ok difference_s /\
       sub measured_d reference_diastolic = Ok difference_d /\
       deviation_s = Py.abs difference_s /\
       deviation_d = Py.abs difference_d) /\
    (CalibrationRecord.status record = CalibrationStatus.OUT_OF_SPEC
     <-> Py.lt (Int 3) deviation_s \/ Py.lt (Int 3) deviation_d) /\
    (CalibrationRecord.status record = CalibrationStatus.CALIBRATED
     <-> ~ Py.lt (Int 3) deviation_s /\ ~ Py.lt (Int 3) deviation_d) /\
    (Py.le deviation_s (Int 3) -> Py.le deviation_d (Int 3) ->
     CalibrationRecord.status record = CalibrationStatus.CALIBRATED) /\
    (deviation_s = Float 3 -> Py.le deviation_d (Int 3) ->
     CalibrationRecord.status record = CalibrationStatus.CALIBRATED).
Proof.
  unfold DeviceCalibrator.calibrate_blood_pressure_monitor, DeviceCalibrator.calibrate.
  intros Hrun Hok.
  destruct (DeviceManager.devices dm !! device_id) as [device|]; [|discriminate].
  case_bool_decide; [|discriminate].
  destruct (DeviceCalibrator.measure read_data utcnow DeviceCalibrator.bp_procedure
              device_id reference_systolic reference_diastolic) as [r|e] eqn:Hm;
    cbn [fst] in Hrun; injection Hrun as <-; [|now contradict Hok].
  destruct (bp_threshold_systolic _ eq_refl) as [Hs Hd].
  destruct (measure_Ok_inv read_data utcnow DeviceCalibrator.bp_procedure
              _ (Int 3) (Int 3) 365 eq_refl Hs Hd eq_refl _ _ _ _ Hm)
    as (rs & s1 & s2 & a1 & a2 & d1 & d2 & Htake & Hmin & _ & Hs1 & Hs2
        & Ha1 & Ha2 & Hd1 & Hd2 & Hr).
  cbn [DeviceCalibrator.field1 DeviceCalibrator.field2
       DeviceCalibrator.bp_procedure] in Hr, Htake, Hs1, Hs2.
  cbn [DeviceCalibrator.min_samples DeviceCalibrator.samples
       DeviceCalibrator.bp_procedure] in Hmin, Htake.
  subst r. cbn [CalibrationRecord.measured_values CalibrationRecord.deviation_values
                  CalibrationRecord.status].
  exists a1, a2, (Py.abs d1), (Py.abs d2).
  split; [apply lookup_insert_eq|].
  split; [rewrite lookup_insert_ne by discriminate; apply lookup_insert_eq|].
  split; [apply lookup_insert_eq|].
  split; [rewrite lookup_insert_ne by discriminate; apply lookup_insert_eq|].
  split; [exists rs, s1, s2; auto 10|].
  split; [exists d1, d2; auto|].
  assert (Hstatus :
    forall b1 b2 : bool,
      ((if b1 || b2 then CalibrationStatus.OUT_OF_SPEC
        else CalibrationStatus.CALIBRATED) = CalibrationStatus.OUT_OF_SPEC
       <-> b1 = true \/ b2 = true) /\
      ((if b1 || b2 then CalibrationStatus.OUT_OF_SPEC
        else CalibrationStatus.CALIBRATED) = CalibrationStatus.CALIBRATED
       <-> b1 <> true /\ b2 <> true)).
  { intros [] []; cbn; intuition congruence. }
  destruct (Hstatus (ltb (Int 3) (Py.abs d1)) (ltb (Int 3) (Py.abs d2)))
    as [Hout Hcal].
  split; [exact Hout|]. split; [exact Hcal|].
  assert (Hle : Py.le (Py.abs d1) (Int 3) -> Py.le (Py.abs d2) (Int 3) ->
                (if ltb (Int 3) (Py.abs d1) || ltb (Int 3) (Py.abs d2)
                 then CalibrationStatus.OUT_OF_SPEC
                 else CalibrationStatus.CALIBRATED) = CalibrationStatus.CALIBRATED).
  { intros H1 H2. apply Hcal. split.
    - exact (le_not_lt _ _ H1).
    - exact (le_not_lt _ _ H2). }
  split; [exact Hle|].
  intros H3 H2. apply Hle; [|exact H2]. rewrite H3. reflexivity.
Qed.

Lemma C3_threshold_exclusive_witness :
  fst run_at_threshold = Ok record_at_threshold /\
  CalibrationRecord.measured_values record_at_threshold !! "systolic"
  = Some (Float 123) /\
  CalibrationRecord.deviation_values record_at_threshold !! "systolic"
  = Some (Float 3) /\
  CalibrationRecord.deviation_values record_at_threshold !! "diastolic"
  = Some (Float 0) /\
  CalibrationRecord.status record_at_threshold = CalibrationStatus.CALIBRATED.
Proof.
  assert (Hrun : fst run_at_threshold = Ok record_at_threshold)
    by (vm_compute; reflexivity).
  assert (Hok : CalibrationRecord.status record_at_threshold
                <> CalibrationStatus.CALIBRATION_FAILED)
    by (vm_compute; discriminate).
  destruct (C3_threshold_exclusive (steady 123 80) (ticking 1000) dm_bp
              DeviceCalibrator.init "dev-1" (Float 120) (Float 80)
              record_at_threshold Hrun Hok)
    as (ms & md & ds & dd & Hms & _ & Hds & Hdd & _ & _ & _ & _ & _ & Hexact).
  assert (Hm : CalibrationRecord.measured_values record_at_threshold !! "systolic"
               = Some (Float 123)) by (vm_compute; reflexivity).
  assert (Hs : CalibrationRecord.deviation_values record_at_threshold !! "systolic"
               = Some (Float 3)) by (vm_compute; reflexivity).
  assert (Hd : CalibrationRecord.deviation_values record_at_threshold !! "diastolic"
               = Some (Float 0)) by (vm_compute; reflexivity).
  split; [exact Hrun|]. split; [exact Hm|]. split; [exact Hs|].
  split; [exact Hd|].
  apply Hexact.
  - rewrite Hs in Hds. now injection Hds.
  - rewrite Hd in Hdd. injection Hdd as <-. vm_compute. reflexivity.
Defined.

(** The boundary, evaluated: a mean of 123 against 120.0 is calibrated, a
    mean of 124 or of 123.2 is out of spec. *)
Example calibrated_at_3 :
  CalibrationRecord.status record_at_threshold = CalibrationStatus.CALIBRATED.
Proof. vm_compute. reflexivity. Qed.

Example out_of_spec_at_4 :
  CalibrationRecord.status
    <$> match fst (DeviceCalibrator.calibrate_blood_pressure_monitor (steady 124 80)
                     (ticking 1000) dm_bp DeviceCalibrator.init "dev-1"
                     (Float 120) (Float 80)) with
        | Ok r => Some r
        | Raise _ => None
        end
  = Some CalibrationStatus.OUT_OF_SPEC.
Proof. vm_compute. reflexivity. Qed.

Example out_of_spec_just_above :
  let reads i := Ok (Some (bp_reading (if (i =? 4)%nat then 124 else 123) 80)) in
  CalibrationRecord.status
    <$> match fst (DeviceCalibrator.calibrate_blood_pressure_monitor reads
                     (ticking 1000) dm_bp DeviceCalibrator.init "dev-1"
                     (Float 120) (Float 80)) with
        | Ok r => Some r
        | Raise _ => None
        end
  = Some CalibrationStatus.OUT_OF_SPEC.
Proof. vm_compute. reflexivity. Qed.

(** The mean and the deviation are rounded to doubles. Three usable
    readings of 120, 120 and 121 have the mean 120.33333333333333; against
    the reference 117.33333333333333 (the double [0x1.d555555555555p+6])
    the deviation is the double 3.0, and the run is calibrated. *)
Example calibrated_by_rounding :
  CalibrationRecord.measured_values record_thirds !! "systolic"
  = Some (Float 0x1.e155555555555p+6) /\
  CalibrationRecord.deviation_values record_thirds !! "systolic"
  = Some (Float 3) /\
  CalibrationRecord.status record_thirds = CalibrationStatus.CALIBRATED.
Proof. vm_compute. repeat split. Qed.

(** An [int] mean beyond the range of doubles: the division raises
    inside the [try] block, and the run is recorded as failed. *)
Example overflow_is_failed :
  CalibrationRecord.status record_huge = CalibrationStatus.CALIBRATION_FAILED /\
  CalibrationRecord.notes record_huge
  = Some "integer division result too large for a float" /\
  CalibrationRecord.measured_values record_huge = ∅.
Proof. vm_compute. repeat split. Qed.

(** C9, as stated, fails in its last clause: the record's date and its
    due date come from two separate clock reads, so on a clock that moves
    between them the due date is not calibration_date + 365 days. *)
Lemma C9_due_date_counterexample :
  fst run_at_threshold = Ok record_at_threshold /\
  CalibrationRecord.status record_at_threshold = CalibrationStatus.CALIBRATED /\
  CalibrationRecord.calibration_date record_at_threshold = 1000 /\
  CalibrationRecord.next_calibration_due record_at_threshold
  = Some (1001 + timedelta_days 365) /\
  CalibrationRecord.next_calibration_due record_at_threshold
  <> Some (CalibrationRecord.calibration_date record_at_threshold
           + timedelta_days 365).
Proof. vm_compute. repeat split; discriminate. Qed.

Lemma appended_started
    (read_data : nat -> result (option DeviceReading.t)) (utcnow : nat -> Z)
    (p : DeviceCalibrator.procedure) (th : gmap string number) (th1 th2 : number)
    (interval : Z) (dm : DeviceManager.t) (self : DeviceCalibrator.t)
    (device_id : string) (ref1 ref2 : number) :
  DeviceCalibrator.deviation_thresholds (DeviceCalibrator.expected_type p)
  = Some th ->
  th !! DeviceCalibrator.field1 p = Some th1 ->
  th !! DeviceCalibrator.field2 p = Some th2 ->
  DeviceCalibrator.calibration_intervals (DeviceCalibrator.expected_type p)
  = Some interval ->
  valid_device p dm device_id ->
  appended utcnow interval self device_id
    (DeviceCalibrator.calibrate read_data utcnow p dm self device_id ref1 ref2).
Proof.
  intros Hth Hth1 Hth2 Hint Hvalid.
  destruct (calibrate_started read_data utcnow p dm self device_id ref1 ref2 Hvalid)
    as (record & Hrun & Hrec).
  exists record. rewrite Hrun. cbn [fst snd].
  split; [reflexivity|].
  split; [apply history_store_same|].
  split; [intros other Hne; now apply history_store_other|].
  destruct (DeviceCalibrator.measure read_data utcnow p device_id ref1 ref2)
    as [r|e] eqn:Hm; subst record.
  - destruct (measure_Ok_inv read_data utcnow p th th1 th2 interval
                Hth Hth1 Hth2 Hint _ _ _ _ Hm)
      as (rs & s1 & s2 & a1 & a2 & d1 & d2
          & _ & _ & _ & _ & _ & _ & _ & _ & _ & Hr).
    subst r.
    cbn [CalibrationRecord.device_id CalibrationRecord.calibration_date
         CalibrationRecord.status CalibrationRecord.next_calibration_due].
    split; [reflexivity|]. split; [reflexivity|]. split.
    + intros Hfailed. exfalso. revert Hfailed.
      destruct (ltb _ _ || ltb _ _); discriminate.
    + intros _. split; [reflexivity|]. intros ->. reflexivity.
  - cbn. split; [reflexivity|]. split; [reflexivity|]. split; [reflexivity|].
    intros Hne. now contradict Hne.
Qed.

(** C9, amended. A calibration run on a valid device, blood pressure or
    pulse oximeter, whatever its outcome, returns a record and appends
    exactly that record to the end of the device's ledger; the earlier
    records and the ledgers of other devices are unchanged. The record is
    dated with the first clock value read; a run that did not fail sets
    next_calibration_due to the second clock value read plus the interval
    (365 days, respectively 180 days), which is calibration_date plus the
    interval when the clock did not move between the two reads; a failed
    run leaves next_calibration_due unset. *)
Theorem C9_ledger_append_only
    (read_data : nat -> result (option DeviceReading.t)) (utcnow : nat -> Z)
    (dm : DeviceManager.t) (self : DeviceCalibrator.t) (device_id : string) :
  (forall reference_systolic reference_diastolic,
     valid_device DeviceCalibrator.bp_procedure dm device_id ->
     appended utcnow 365 self device_id
       (DeviceCalibrator.calibrate_blood_pressure_monitor read_data utcnow dm
          self device_id reference_systolic reference_diastolic)) /\
  (forall reference_spo2 reference_pulse,
     valid_device DeviceCalibrator.plx_procedure dm device_id ->
     appended utcnow 180 self device_id
       (DeviceCalibrator.calibrate_pulse_oximeter read_data utcnow dm
          self device_id reference_spo2 reference_pulse)).
Proof.
  split; intros ref1 ref2 Hvalid.
  - unfold DeviceCalibrator.calibrate_blood_pressure_monitor.
    destruct (bp_threshold_systolic _ eq_refl) as [Hs Hd].
    exact (appended_started read_data utcnow DeviceCalibrator.bp_procedure
             _ (Int 3) (Int 3) 365 dm self device_id ref1 ref2
             eq_refl Hs Hd eq_refl Hvalid).
  - unfold DeviceCalibrator.calibrate_pulse_oximeter.
    destruct (plx_threshold _ eq_refl) as [Hs Hd].
    exact (appended_started read_data utcnow DeviceCalibrator.plx_procedure
             _ (Int 2) (Int 3) 180 dm self device_id ref1 (Int ref2)
             eq_refl Hs Hd eq_refl Hvalid).
Qed.

(** On a clock that stands still the due date is the date plus 365
    days. *)
Example due_date_frozen_clock :
  match fst (DeviceCalibrator.calibrate_blood_pressure_monitor (steady 121 80)
               (frozen 1000) dm_bp DeviceCalibrator.init "dev-1" (Float 120) (Float 80)) with
  | Ok r =>
      CalibrationRecord.next_calibration_due r
      = Some (CalibrationRecord.calibration_date r + timedelta_days 365)
  | Raise _ => False
  end.
Proof. vm_compute. reflexivity. Qed.

Lemma C9_ledger_append_only_witness :
  appended (ticking 1000) 365 DeviceCalibrator.init "dev-1" run_at_threshold.
Proof.
  exact (proj1 (C9_ledger_append_only (steady 123 80) (ticking 1000) dm_bp
                  DeviceCalibrator.init "dev-1") (Float 120) (Float 80) dm_bp_valid).
Defined.

(** *** Calibration status *)

Lemma max_by_date_spec (rest : list CalibrationRecord.t) :
  forall best,
    let latest := DeviceCalibrator.max_by_date best rest in
    In latest (best :: rest) /\
    forall r, In r (best :: rest) ->
              CalibrationRecord.calibration_date r
              <= CalibrationRecord.calibration_date latest.
Proof.
  induction rest as [|x rest IH]; intros best; cbn [DeviceCalibrator.max_by_date].
  - cbv zeta. split; [now left|]. intros r [<-|[]]. lia.
  - destruct (Z.ltb_spec (CalibrationRecord.calibration_date best)
                (CalibrationRecord.calibration_date x)) as [Hlt|Hge].
    + destruct (IH x) as [Hin Hmax]. cbv zeta in *. split.
      * destruct Hin as [<-|Hin]; [right; now left | right; now right].
      * intros r [<-|[<-|Hr]].
        -- specialize (Hmax x (or_introl eq_refl)). lia.
        -- apply Hmax. now left.
        -- apply Hmax. now right.
    + destruct (IH best) as [Hin Hmax]. cbv zeta in *. split.
      * destruct Hin as [<-|Hin]; [now left | right; now right].
      * intros r [<-|[<-|Hr]].
        -- apply Hmax. now left.
        -- specialize (Hmax best (or_introl eq_refl)). lia.
        -- apply Hmax. now right.
Qed.

(** C4, as stated, fails: a device whose ledger holds one record (here
    the calibration_failed record of a run just made) and which has since
    been disconnected, and so removed from the device table, is reported
    as unknown, not with the status of that record. *)
Lemma C4_status_counterexample :
  DeviceCalibrator.get_calibration_history calibrator_own "dev-1" = [record_own] /\
  CalibrationRecord.status record_own = CalibrationStatus.CALIBRATION_FAILED /\
  days_of (2000 - CalibrationRecord.calibration_date record_own) = 0 /\
  DeviceManager.devices dm_gone !! "dev-1" = None /\
  DeviceCalibrator.check_calibration_status dm_gone calibrator_own 2000 "dev-1"
  = CalibrationStatus.UNKNOWN /\
  DeviceCalibrator.check_calibration_status dm_gone calibrator_own 2000 "dev-1"
  <> CalibrationRecord.status record_own.
Proof. vm_compute. repeat split; discriminate. Qed.

(** The same happens to a calibrated device; while the device is still in
    the table the stored status is returned. *)
Example status_after_disconnect :
  CalibrationRecord.status record_at_threshold = CalibrationStatus.CALIBRATED /\
  DeviceCalibrator.check_calibration_status dm_bp calibrator_after 2000 "dev-1"
  = CalibrationStatus.CALIBRATED /\
  DeviceCalibrator.check_calibration_status dm_gone calibrator_after 2000 "dev-1"
  = CalibrationStatus.UNKNOWN /\
  DeviceCalibrator.check_calibration_status dm_bp calibrator_own 2000 "dev-1"
  = CalibrationStatus.CALIBRATION_FAILED.
Proof. vm_compute. repeat split. Qed.

(** C4, amended. [check_calibration_status] returns unknown when the
    device has no ledger entry, and also when it has records but is not in
    the manager's device table; otherwise it takes the record with the
    greatest calibration date and returns needs_calibration when the
    number of whole days since that date exceeds the interval of the
    device type (180 days for a type without one), and that record's
    status otherwise. For a blood-pressure device whose latest record is
    366 days old the answer is needs_calibration whatever the record
    says. *)
Theorem C4_check_calibration_status_amended
    (dm : DeviceManager.t) (self : DeviceCalibrator.t) (now : Z)
    (device_id : string) :
  let answer := DeviceCalibrator.check_calibration_status dm self now device_id in
  (DeviceCalibrator.calibration_records self !! device_id = None ->
   answer = CalibrationStatus.UNKNOWN) /\
  (forall r rest,
     DeviceCalibrator.calibration_records self !! device_id = Some (r :: rest) ->
     let latest := DeviceCalibrator.max_by_date r rest in
     let age := days_of (now - CalibrationRecord.calibration_date latest) in
     In latest (r :: rest) /\
     (forall x, In x (r :: rest) ->
                CalibrationRecord.calibration_date x
                <= CalibrationRecord.calibration_date latest) /\
     (DeviceManager.devices dm !! device_id = None ->
      answer = CalibrationStatus.UNKNOWN) /\
     (forall device,
        DeviceManager.devices dm !! device_id = Some device ->
        let interval :=
          default 180
            (DeviceCalibrator.calibration_intervals
               (DeviceInfo.device_type (DeviceDriver.device_info device))) in
        (interval < age -> answer = CalibrationStatus.NEEDS_CALIBRATION) /\
        (age <= interval -> answer = CalibrationRecord.status latest) /\
        (DeviceInfo.device_type (DeviceDriver.device_info device)
         = DeviceType.BLOOD_PRESSURE ->
         now - CalibrationRecord.calibration_date latest = timedelta_days 366 ->
         answer = CalibrationStatus.NEEDS_CALIBRATION))).
Proof.
  cbv zeta. unfold DeviceCalibrator.check_calibration_status. split.
  - intros ->. reflexivity.
  - intros r rest ->.
    destruct (max_by_date_spec rest r) as [Hin Hmax]. cbv zeta in Hin, Hmax.
    split; [exact Hin|]. split; [exact Hmax|]. split.
    + intros ->. reflexivity.
    + intros device ->. split; [|split].
      * intros Hlt. apply Z.ltb_lt in Hlt. now rewrite Hlt.
      * intros Hle. apply Z.ltb_ge in Hle. now rewrite Hle.
      * intros -> ->. reflexivity.
Qed.

(** The invariant behind "no ledger entry": the calibrator never stores
    an empty list. *)
Lemma ledger_ok_calibrate
    (read_data : nat -> result (option DeviceReading.t)) (utcnow : nat -> Z)
    (p : DeviceCalibrator.procedure) (dm : DeviceManager.t)
    (self : DeviceCalibrator.t) (device_id : string) (ref1 ref2 : number) :
  ledger_ok self ->
  ledger_ok (snd (DeviceCalibrator.calibrate read_data utcnow p dm self
                    device_id ref1 ref2)).
Proof.
  intros Hok. unfold DeviceCalibrator.calibrate.
  destruct (DeviceManager.devices dm !! device_id); [|exact Hok].
  case_bool_decide; [|exact Hok].
  destruct (DeviceCalibrator.measure read_data utcnow p device_id ref1 ref2);
    now apply ledger_ok_store.
Qed.

(** A calibrated blood-pressure monitor, still connected: calibrated on
    day 365 (and twelve hours), due for calibration on day 366. *)
Example status_day_365_and_366 :
  DeviceCalibrator.check_calibration_status dm_bp calibrator_after
    (1000 + timedelta_days 365 + timedelta_hours 12) "dev-1"
  = CalibrationStatus.CALIBRATED /\
  DeviceCalibrator.check_calibration_status dm_bp calibrator_after
    (1000 + timedelta_days 366) "dev-1"
  = CalibrationStatus.NEEDS_CALIBRATION /\
  DeviceCalibrator.check_calibration_status dm_bp DeviceCalibrator.init
    (1000 + timedelta_days 366) "dev-1"
  = CalibrationStatus.UNKNOWN.
Proof. vm_compute. repeat split. Qed.

(** *** Health monitoring *)

Lemma get_device_health_cases (self : DeviceHealthMonitor.t) (device_id : string) :
  let answer := DeviceHealthMonitor.get_device_health self device_id in
  (DeviceHealthMonitor.health_metrics self !! device_id = None ->
   answer = HealthStatus.OFFLINE) /\
  (DeviceHealthMonitor.health_metrics self !! device_id = Some [] ->
   answer = HealthStatus.OFFLINE) /\
  (forall samples latest,
     DeviceHealthMonitor.health_metrics self !! device_id = Some samples ->
     last samples = Some latest ->
     let q := HealthMetrics.quality_score latest in
     ((0.8 <= q)%Q -> answer = HealthStatus.HEALTHY) /\
     ((0.6 <= q)%Q -> (q < 0.8)%Q -> answer = HealthStatus.WARNING) /\
     ((q < 0.6)%Q -> answer = HealthStatus.CRITICAL)).
Proof.
  cbv zeta. unfold DeviceHealthMonitor.get_device_health.
  split; [now intros ->|]. split; [now intros ->|].
  intros samples latest -> ->.
  repeat apply conj; intros; qle_cases; try reflexivity; exfalso; lra.
Qed.

(** One health check appends one sample, scored by the state of the
    driver, and then drops the samples older than 24 hours; when the new
    sample is kept, it decides what [get_device_health] answers. *)
Lemma check_health_scores (self : DeviceHealthMonitor.t) (device_id : string)
    (device : DeviceDriver.t) (t_sample t_evict : Z) :
  let self' :=
    DeviceHealthMonitor._check_device_health self device_id device
      t_sample t_evict in
  let st := DeviceDriver.status device in
  exists sample,
    HealthMetrics.device_id sample = device_id /\
    HealthMetrics.timestamp sample = t_sample /\
    DeviceHealthMonitor.health_metrics self' !! device_id
    = Some (List.filter
              (fun m => (t_evict - timedelta_hours 24 <? HealthMetrics.timestamp m)%Z)
              (default [] (DeviceHealthMonitor.health_metrics self !! device_id)
               ++ [sample])) /\
    (st = DeviceStatus.ERROR \/ st = DeviceStatus.DISCONNECTED ->
     HealthMetrics.quality_score sample = 0.0%Q) /\
    (st = DeviceStatus.CONNECTED ->
     HealthMetrics.quality_score sample = 0.8%Q) /\
    (st = DeviceStatus.CONNECTING \/ st = DeviceStatus.READING
     \/ st = DeviceStatus.CALIBRATING ->
     HealthMetrics.quality_score sample = 0.6%Q).
Proof.
  cbv zeta.
  unfold DeviceHealthMonitor._check_device_health.
  set (sample :=
         match DeviceDriver.status device with
         | DeviceStatus.CONNECTED =>
             HealthMetrics.set_quality_score 0.8%Q (HealthMetrics.make device_id t_sample)
         | DeviceStatus.DISCONNECTED | DeviceStatus.ERROR =>
             HealthMetrics.set_quality_score 0.0%Q (HealthMetrics.make device_id t_sample)
         | _ =>
             HealthMetrics.set_quality_score 0.6%Q (HealthMetrics.make device_id t_sample)
         end).
  exists sample.
  split; [subst sample; destruct (DeviceDriver.status device); reflexivity|].
  split; [subst sample; destruct (DeviceDriver.status device); reflexivity|].
  split; [cbn; apply lookup_insert_eq|].
  split; [intros [E|E]; subst sample; rewrite E; reflexivity|].
  split; [intros E; subst sample; rewrite E; reflexivity|].
  intros [E|[E|E]]; subst sample; rewrite E; reflexivity.
Qed.

(** The answer of [get_device_health] when the window ends with a sample
    of a given score. *)
Lemma get_device_health_last (self : DeviceHealthMonitor.t) (device_id : string)
    (window : list HealthMetrics.t) (sample : HealthMetrics.t) :
  DeviceHealthMonitor.health_metrics self !! device_id
  = Some (window ++ [sample]) ->
  (HealthMetrics.quality_score sample = 0.0%Q ->
   DeviceHealthMonitor.get_device_health self device_id = HealthStatus.CRITICAL) /\
  (HealthMetrics.quality_score sample = 0.8%Q ->
   DeviceHealthMonitor.get_device_health self device_id = HealthStatus.HEALTHY) /\
  (HealthMetrics.quality_score sample = 0.6%Q ->
   DeviceHealthMonitor.get_device_health self device_id = HealthStatus.WARNING).
Proof.
  intros Hw. unfold DeviceHealthMonitor.get_device_health.
  rewrite Hw, last_snoc.
  repeat split; intros ->; reflexivity.
Qed.

(** One check of a connected, a connecting and a failed driver. *)
Example health_after_one_check :
  let check d :=
    DeviceHealthMonitor.get_device_health
      (DeviceHealthMonitor._check_device_health DeviceHealthMonitor.init
         "dev-1" d 1000 1001) "dev-1" in
  check bp_connected = HealthStatus.HEALTHY /\
  check (DeviceDriver.set_status DeviceStatus.CONNECTING bp_driver)
  = HealthStatus.WARNING /\
  check bp_refused = HealthStatus.CRITICAL /\
  check bp_driver = HealthStatus.CRITICAL /\
  DeviceHealthMonitor.get_device_health DeviceHealthMonitor.init "dev-1"
  = HealthStatus.OFFLINE.
Proof. vm_compute. repeat split. Qed.

(** *** Starting and stopping the monitor *)

Lemma live_after_return (tasks : list DeviceHealthMonitor.task) :
  forall i,
    tasks !! i = Some DeviceHealthMonitor.Suspended ->
    S (length (List.filter
                 (fun x => bool_decide (x = DeviceHealthMonitor.Suspended))
                 (<[i := DeviceHealthMonitor.Returned]> tasks)))
    = length (List.filter
                (fun x => bool_decide (x = DeviceHealthMonitor.Suspended)) tasks).
Proof.
  induction tasks as [|x tasks IH]; intros [|i] H; try discriminate.
  - injection H as ->. reflexivity.
  - cbn in H. cbn [list_insert insert List.filter].
    change (list_insert i DeviceHealthMonitor.Returned tasks)
      with (<[i := DeviceHealthMonitor.Returned]> tasks).
    destruct (bool_decide (x = DeviceHealthMonitor.Suspended));
      cbn [length]; rewrite <- (IH i H); reflexivity.
Qed.

Lemma live_loops_start (sys : DeviceHealthMonitor.system) :
  DeviceHealthMonitor.live_loops (DeviceHealthMonitor.start_monitoring sys)
  = S (DeviceHealthMonitor.live_loops sys).
Proof.
  unfold DeviceHealthMonitor.live_loops, DeviceHealthMonitor.start_monitoring.
  cbn [DeviceHealthMonitor.loop_tasks].
  rewrite List.filter_app, length_app. cbn [List.filter].
  rewrite bool_decide_eq_true_2 by reflexivity. cbn [length]. lia.
Qed.

(** C7, as stated, fails: a second [start_monitoring] while monitoring is
    active creates a second polling loop, and both loops keep polling the
    same devices (two samples for the one device after each loop has run
    one pass). *)
Lemma C7_second_loop_counterexample :
  let once := DeviceHealthMonitor.start_monitoring DeviceHealthMonitor.boot in
  let twice := DeviceHealthMonitor.start_monitoring once in
  let later :=
    DeviceHealthMonitor.resume (ticking 2000) dm_bp 1
      (DeviceHealthMonitor.resume (ticking 1000) dm_bp 0 twice) in
  DeviceHealthMonitor.monitoring_active (DeviceHealthMonitor.monitor once) = true /\
  DeviceHealthMonitor.live_loops once = 1%nat /\
  DeviceHealthMonitor.live_loops twice = 2%nat /\
  DeviceHealthMonitor.live_loops later = 2%nat /\
  length (default []
            (DeviceHealthMonitor.health_metrics
               (DeviceHealthMonitor.monitor later) !! "dev-1")) = 2%nat.
Proof. vm_compute. repeat split. Qed.

(** C7, amended. [start_monitoring] sets the active flag and adds one
    polling loop on every call, whether or not monitoring was already
    active, so exactly one loop exists after a start only when none was
    alive before. [stop_monitoring] only clears the flag: it ends no loop
    and touches no sample. A loop that is resumed tests the flag first:
    with the flag clear it returns without polling, with the flag set it
    runs one whole pass over the device table and sleeps again. *)
Theorem C7_monitoring_amended (utcnow : nat -> Z) (dm : DeviceManager.t)
    (sys : DeviceHealthMonitor.system) :
  let started := DeviceHealthMonitor.start_monitoring sys in
  let stopped := DeviceHealthMonitor.stop_monitoring sys in
  (DeviceHealthMonitor.monitoring_active (DeviceHealthMonitor.monitor started)
   = true /\
   DeviceHealthMonitor.live_loops started
   = S (DeviceHealthMonitor.live_loops sys) /\
   (DeviceHealthMonitor.live_loops sys = 0%nat ->
    DeviceHealthMonitor.live_loops started = 1%nat) /\
   ((1 <= DeviceHealthMonitor.live_loops sys)%nat ->
    (2 <= DeviceHealthMonitor.live_loops started)%nat)) /\
  (DeviceHealthMonitor.monitoring_active (DeviceHealthMonitor.monitor stopped)
   = false /\
   DeviceHealthMonitor.loop_tasks stopped = DeviceHealthMonitor.loop_tasks sys /\
   DeviceHealthMonitor.health_metrics (DeviceHealthMonitor.monitor stopped)
   = DeviceHealthMonitor.health_metrics (DeviceHealthMonitor.monitor sys)) /\
  (forall i,
     DeviceHealthMonitor.loop_tasks sys !! i
     = Some DeviceHealthMonitor.Suspended ->
     let resumed := DeviceHealthMonitor.resume utcnow dm i sys in
     (DeviceHealthMonitor.monitoring_active (DeviceHealthMonitor.monitor sys)
      = false ->
      DeviceHealthMonitor.monitor resumed = DeviceHealthMonitor.monitor sys /\
      DeviceHealthMonitor.loop_tasks resumed !! i
      = Some DeviceHealthMonitor.Returned /\
      S (DeviceHealthMonitor.live_loops resumed)
      = DeviceHealthMonitor.live_loops sys) /\
     (DeviceHealthMonitor.monitoring_active (DeviceHealthMonitor.monitor sys)
      = true ->
      DeviceHealthMonitor.monitor resumed
      = DeviceHealthMonitor.tick utcnow dm (DeviceHealthMonitor.monitor sys) /\
      DeviceHealthMonitor.loop_tasks resumed = DeviceHealthMonitor.loop_tasks sys)).
Proof.
  cbv zeta. split; [|split].
  - split; [reflexivity|]. rewrite live_loops_start.
    split; [reflexivity|]. split; intros H; lia.
  - repeat split.
  - intros i Hi. unfold DeviceHealthMonitor.resume. rewrite Hi. split.
    + intros ->. split; [reflexivity|].
      cbn [DeviceHealthMonitor.loop_tasks]. split.
      * apply list_lookup_insert_eq. now apply lookup_lt_Some in Hi.
      * unfold DeviceHealthMonitor.live_loops.
        cbn [DeviceHealthMonitor.loop_tasks]. now apply live_after_return.
    + intros ->. split; reflexivity.
Qed.

(** After a stop, the loop returns at its next wake-up and the device
    without samples is offline. *)
Example stop_then_offline :
  let stopped :=
    DeviceHealthMonitor.stop_monitoring
      (DeviceHealthMonitor.start_monitoring DeviceHealthMonitor.boot) in
  let later := DeviceHealthMonitor.resume (ticking 1000) dm_bp 0 stopped in
  DeviceHealthMonitor.live_loops stopped = 1%nat /\
  DeviceHealthMonitor.live_loops later = 0%nat /\
  DeviceHealthMonitor.get_device_health (DeviceHealthMonitor.monitor later) "dev-1"
  = HealthStatus.OFFLINE.
Proof. vm_compute. repeat split. Qed.

(** *** One pass of the monitoring loop *)

Lemma check_health_other (self : DeviceHealthMonitor.t) (device_id other : string)
    (device : DeviceDriver.t) (t_sample t_evict : Z) :
  other <> device_id ->
  DeviceHealthMonitor.health_metrics
    (DeviceHealthMonitor._check_device_health self device_id device
       t_sample t_evict) !! other
  = DeviceHealthMonitor.health_metrics self !! other.
Proof.
  intros Hne. unfold DeviceHealthMonitor._check_device_health.
  cbn [DeviceHealthMonitor.health_metrics]. now rewrite lookup_insert_ne.
Qed.

Lemma check_health_entry (self1 self2 : DeviceHealthMonitor.t) (device_id : string)
    (device : DeviceDriver.t) (t_sample t_evict : Z) :
  DeviceHealthMonitor.health_metrics self1 !! device_id
  = DeviceHealthMonitor.health_metrics self2 !! device_id ->
  DeviceHealthMonitor.health_metrics
    (DeviceHealthMonitor._check_device_health self1 device_id device
       t_sample t_evict) !! device_id
  = DeviceHealthMonitor.health_metrics
      (DeviceHealthMonitor._check_device_health self2 device_id device
         t_sample t_evict) !! device_id.
Proof.
  intros Heq. unfold DeviceHealthMonitor._check_device_health.
  cbn [DeviceHealthMonitor.health_metrics].
  now rewrite !lookup_insert_eq, Heq.
Qed.

Lemma check_all_other (utcnow : nat -> Z) (items : list (string * DeviceDriver.t)) :
  forall (k : nat) (self : DeviceHealthMonitor.t) (other : string),
    other ∉ items.*1 ->
    DeviceHealthMonitor.health_metrics
      (DeviceHealthMonitor.check_all utcnow k items self) !! other
    = DeviceHealthMonitor.health_metrics self !! other.
Proof.
  induction items as [|[device_id device] items IH]; intros k self other Hnot;
    [reflexivity|].
  cbn [DeviceHealthMonitor.check_all]. cbn in Hnot.
  apply not_elem_of_cons in Hnot as [Hne Hnot].
  rewrite IH by exact Hnot. now apply check_health_other.
Qed.

Lemma check_all_visits (utcnow : nat -> Z) (items : list (string * DeviceDriver.t)) :
  forall (k : nat) (self : DeviceHealthMonitor.t) (device_id : string)
         (device : DeviceDriver.t),
    NoDup items.*1 ->
    (device_id, device) ∈ items ->
    exists t_sample t_evict,
      DeviceHealthMonitor.health_metrics
        (DeviceHealthMonitor.check_all utcnow k items self) !! device_id
      = DeviceHealthMonitor.health_metrics
          (DeviceHealthMonitor._check_device_health self device_id device
             t_sample t_evict) !! device_id.
Proof.
  induction items as [|[id0 dev0] items IH]; intros k self device_id device Hnd Hin.
  - now apply elem_of_nil in Hin.
  - cbn in Hnd. apply NoDup_cons in Hnd as [Hfresh Hnd].
    cbn [DeviceHealthMonitor.check_all].
    apply elem_of_cons in Hin as [[= -> ->]|Hin].
    + eexists _, _. now apply check_all_other.
    + assert (Hne : device_id <> id0).
      { intros ->. apply Hfresh. apply list_elem_of_fmap.
        exists (id0, device). split; [reflexivity | exact Hin]. }
      destruct (IH (S k)
                  (DeviceHealthMonitor._check_device_health self id0 dev0
                     (utcnow (2 * k)%nat) (utcnow (2 * k + 1)%nat))
                  device_id device Hnd Hin) as (t1 & t2 & Heq).
      exists t1, t2. rewrite Heq.
      apply check_health_entry. now apply check_health_other.
Qed.

(** A pass of the loop checks every device of the table once: the window
    of each device afterwards is the one a single health check of that
    device produces, at two clock values read during the pass; devices
    that are not in the table keep their window. *)
Lemma tick_checks_every_device (utcnow : nat -> Z) (dm : DeviceManager.t)
    (self : DeviceHealthMonitor.t) (device_id : string) :
  (forall device,
     DeviceManager.devices dm !! device_id = Some device ->
     exists t_sample t_evict,
       DeviceHealthMonitor.health_metrics
         (DeviceHealthMonitor.tick utcnow dm self) !! device_id
       = DeviceHealthMonitor.health_metrics
           (DeviceHealthMonitor._check_device_health self device_id device
              t_sample t_evict) !! device_id) /\
  (DeviceManager.devices dm !! device_id = None ->
   DeviceHealthMonitor.health_metrics
     (DeviceHealthMonitor.tick utcnow dm self) !! device_id
   = DeviceHealthMonitor.health_metrics self !! device_id).
Proof.
  unfold DeviceHealthMonitor.tick. split.
  - intros device Hdev. apply check_all_visits.
    + apply NoDup_fst_map_to_list.
    + now apply elem_of_map_to_list.
  - intros Hnone. apply check_all_other.
    intros Hin. apply list_elem_of_fmap in Hin as ([id dev] & -> & Hin).
    apply elem_of_map_to_list in Hin. cbn in Hnone. congruence.
Qed.

(** One pass of the loop, with the clock reads it makes: the check of
    the [j]-th device visited reads the clock for the [2j]-th and the
    [2j+1]-th time. *)
Lemma check_all_visits_at (utcnow : nat -> Z)
    (items : list (string * DeviceDriver.t)) :
  forall (k : nat) (self : DeviceHealthMonitor.t) (device_id : string)
         (device : DeviceDriver.t),
    NoDup items.*1 ->
    (device_id, device) ∈ items ->
    exists j,
      (k <= j < k + length items)%nat /\
      DeviceHealthMonitor.health_metrics
        (DeviceHealthMonitor.check_all utcnow k items self) !! device_id
      = DeviceHealthMonitor.health_metrics
          (DeviceHealthMonitor._check_device_health self device_id device
             (utcnow (2 * j)%nat) (utcnow (2 * j + 1)%nat)) !! device_id.
Proof.
  induction items as [|[id0 dev0] items IH]; intros k self device_id device Hnd Hin.
  - now apply elem_of_nil in Hin.
  - cbn in Hnd. apply NoDup_cons in Hnd as [Hfresh Hnd].
    cbn [DeviceHealthMonitor.check_all].
    apply elem_of_cons in Hin as [[= -> ->]|Hin].
    + exists k. split; [cbn [length]; lia|]. now apply check_all_other.
    + assert (Hne : device_id <> id0).
      { intros ->. apply Hfresh. apply list_elem_of_fmap.
        exists (id0, device). split; [reflexivity | exact Hin]. }
      destruct (IH (S k)
                  (DeviceHealthMonitor._check_device_health self id0 dev0
                     (utcnow (2 * k)%nat) (utcnow (2 * k + 1)%nat))
                  device_id device Hnd Hin) as (j & Hj & Heq).
      exists j. split; [cbn [length]; lia|]. rewrite Heq.
      apply check_health_entry. now apply check_health_other.
Qed.

(** C6. A pass of the monitoring loop checks every device of the table:
    the pass appends to the device's window one sample, taken at one of
    the clock reads of the pass, whose quality score is 0.0 for a driver
    in state error or disconnected, 0.8 for connected and 0.6 for
    connecting, reading and calibrating, and then drops the samples older
    than 24 hours at the next clock read; when the new sample is kept,
    [get_device_health] answers critical, healthy and warning
    respectively. In general [get_device_health] answers from the last
    sample: healthy from 0.8, warning from 0.6, critical below, and offline
    for a device without samples. *)
Theorem C6_health_scores (utcnow : nat -> Z) (dm : DeviceManager.t)
    (self : DeviceHealthMonitor.t) (device_id : string) (device : DeviceDriver.t) :
  DeviceManager.devices dm !! device_id = Some device ->
  let self' := DeviceHealthMonitor.tick utcnow dm self in
  let st := DeviceDriver.status device in
  (exists (j : nat) (sample : HealthMetrics.t),
     let t_sample := utcnow (2 * j)%nat in
     let t_evict := utcnow (2 * j + 1)%nat in
     (j < size (DeviceManager.devices dm))%nat /\
     HealthMetrics.device_id sample = device_id /\
     HealthMetrics.timestamp sample = t_sample /\
     DeviceHealthMonitor.health_metrics self' !! device_id
     = Some (List.filter
               (fun m => (t_evict - timedelta_hours 24 <? HealthMetrics.timestamp m)%Z)
               (default [] (DeviceHealthMonitor.health_metrics self !! device_id)
                ++ [sample])) /\
     (st = DeviceStatus.ERROR \/ st = DeviceStatus.DISCONNECTED ->
      HealthMetrics.quality_score sample = 0.0%Q) /\
     (st = DeviceStatus.CONNECTED ->
      HealthMetrics.quality_score sample = 0.8%Q) /\
     (st = DeviceStatus.CONNECTING \/ st = DeviceStatus.READING
      \/ st = DeviceStatus.CALIBRATING ->
      HealthMetrics.quality_score sample = 0.6%Q) /\
     (t_evict - timedelta_hours 24 < t_sample ->
      last (default [] (DeviceHealthMonitor.health_metrics self' !! device_id))
      = Some sample /\
      (st = DeviceStatus.ERROR \/ st = DeviceStatus.DISCONNECTED ->
       DeviceHealthMonitor.get_device_health self' device_id
       = HealthStatus.CRITICAL) /\
      (st = DeviceStatus.CONNECTED ->
       DeviceHealthMonitor.get_device_health self' device_id
       = HealthStatus.HEALTHY) /\
      (st = DeviceStatus.CONNECTING \/ st = DeviceStatus.READING
       \/ st = DeviceStatus.CALIBRATING ->
       DeviceHealthMonitor.get_device_health self' device_id
       = HealthStatus.WARNING))) /\
  (forall (hm : DeviceHealthMonitor.t) (other : string),
     let answer := DeviceHealthMonitor.get_device_health hm other in
     (DeviceHealthMonitor.health_metrics hm !! other = None ->
      answer = HealthStatus.OFFLINE) /\
     (DeviceHealthMonitor.health_metrics hm !! other = Some [] ->
      answer = HealthStatus.OFFLINE) /\
     (forall samples latest,
        DeviceHealthMonitor.health_metrics hm !! other = Some samples ->
        last samples = Some latest ->
        let q := HealthMetrics.quality_score latest in
        ((0.8 <= q)%Q -> answer = HealthStatus.HEALTHY) /\
        ((0.6 <= q)%Q -> (q < 0.8)%Q -> answer = HealthStatus.WARNING) /\
        ((q < 0.6)%Q -> answer = HealthStatus.CRITICAL))).
Proof.
  intros Hdev. cbv zeta.
  split; [|intros hm other; apply get_device_health_cases].
  destruct (check_all_visits_at utcnow (map_to_list (DeviceManager.devices dm))
              0 self device_id device)
    as (j & Hj & Hvisit).
  { apply NoDup_fst_map_to_list. }
  { now apply elem_of_map_to_list. }
  fold (DeviceHealthMonitor.tick utcnow dm self) in Hvisit.
  rewrite length_map_to_list in Hj.
  destruct (check_health_scores self device_id device
              (utcnow (2 * j)%nat) (utcnow (2 * j + 1)%nat))
    as (sample & Hid & Hts & Hwin & H00 & H08 & H06).
  rewrite <- Hvisit in Hwin.
  exists j, sample.
  split; [lia|]. split; [exact Hid|]. split; [exact Hts|].
  split; [exact Hwin|]. split; [exact H00|]. split; [exact H08|].
  split; [exact H06|].
  intros Hfresh.
  rewrite List.filter_app in Hwin. cbn [List.filter] in Hwin.
  rewrite Hts in Hwin. apply Z.ltb_lt in Hfresh. rewrite Hfresh in Hwin.
  destruct (get_device_health_last _ _ _ _ Hwin) as (Hc & Hh & Hw).
  split; [rewrite Hwin; cbn [default]; apply last_snoc|].
  split; [|split].
  - intros E. apply Hc. exact (H00 E).
  - intros E. apply Hh. exact (H08 E).
  - intros E. apply Hw. exact (H06 E).
Qed.

Lemma C6_health_scores_witness :
  exists device,
    DeviceManager.devices dm_bp !! "dev-1" = Some device /\
    DeviceDriver.status device = DeviceStatus.CONNECTED /\
    DeviceHealthMonitor.get_device_health
      (DeviceHealthMonitor.tick (ticking 1000) dm_bp DeviceHealthMonitor.init)
      "dev-1"
    = HealthStatus.HEALTHY.
Proof.
  destruct (DeviceManager.devices dm_bp !! "dev-1") as [device|] eqn:Hdev;
    [|vm_compute in Hdev; discriminate Hdev].
  assert (Hst : DeviceDriver.status device = DeviceStatus.CONNECTED)
    by (vm_compute in Hdev; injection Hdev as <-; reflexivity).
  exists device. split; [reflexivity|]. split; [exact Hst|].
  destruct (C6_health_scores (ticking 1000) dm_bp DeviceHealthMonitor.init
              "dev-1" device Hdev)
    as ((j & sample & _ & _ & _ & _ & _ & _ & _ & Hfresh) & _).
  apply Hfresh; [|exact Hst].
  unfold ticking, timedelta_hours. lia.
Defined.

(** * Further properties *)

(** ** Blood-pressure payloads: the optional fields and the unit *)

(** The pulse rate of a blood-pressure reading is the 16-bit field at
    byte 7, or at byte 14 when the flags announce a timestamp, provided
    flag bit 2 is set and the payload reaches beyond that offset; in every
    other case the reading carries [None] as its pulse rate. *)
Theorem bp_pulse_rate_field (self : DeviceDriver.t) (now : Z) (data : list byte) :
  bp_well_formed data ->
  exists r,
    BloodPressureDriver._handle_bp_measurement self now data = Some r /\
    let flags := u8 (List.hd x00 data) in
    let offset := if (Z.land flags 2 =? 0)%Z then 7%nat else 14%nat in
    (Z.land flags 4 <> 0 -> (offset < length data)%nat ->
     DeviceReading.values r !! "pulse_rate"
     = Some (PNum (Int (u16_at data offset)))) /\
    (Z.land flags 4 = 0 \/ (length data <= offset)%nat ->
     DeviceReading.values r !! "pulse_rate" = Some PNone).
Proof.
  intros Hwf. destruct (parse_bp_pulse self now data Hwf) as (q & _ & Hr).
  eexists. split; [exact Hr|].
  cbv zeta. fold (bp_offset (u8 (List.hd x00 data))).
  unfold decoded. cbn [DeviceReading.values].
  rewrite !(lookup_insert_ne _ "systolic"), !(lookup_insert_ne _ "diastolic"),
    !(lookup_insert_ne _ "mean_pressure"), !lookup_insert_eq by discriminate.
  unfold bp_pulse. split.
  - intros Hflag Hoff. apply Z.eqb_neq in Hflag. apply Nat.ltb_lt in Hoff.
    now rewrite Hflag, Hoff.
  - intros [Hflag | Hoff].
    + now rewrite Hflag.
    + apply Nat.ltb_ge in Hoff. rewrite Hoff. now rewrite andb_false_r.
Qed.

Lemma bp_payload_full_well_formed : bp_well_formed bp_payload_full.
Proof. split; [simpl; lia | vm_compute; intros _ H; discriminate H]. Defined.

Lemma bp_pulse_rate_field_witness :
  exists r,
    BloodPressureDriver._handle_bp_measurement bp_driver 0 bp_payload_full
    = Some r /\
    DeviceReading.values r !! "pulse_rate" = Some (PNum (Int 72)).
Proof.
  destruct (bp_pulse_rate_field bp_driver 0 bp_payload_full
              bp_payload_full_well_formed) as (r & Hr & Hset & _).
  exists r. split; [exact Hr|].
  apply Hset; [vm_compute; discriminate | simpl; lia].
Defined.

(** The double nearest to [raw / 1000] is below 50 for every raw value
    below 50000, and below 30 for every raw value below 30000: checked
    value by value. *)
Lemma kpa_below_50 (raw : Z) :
  0 <= raw < 50000 -> leb (Int 50) (kpa raw) = false.
Proof.
  intros Hraw.
  assert (H : holds_from (fun z => negb (leb (Int 50) (kpa z)))
                (Z.to_nat 50000) 0 = true) by (vm_compute; reflexivity).
  apply negb_true_iff.
  apply (holds_from_spec _ _ _ H). lia.
Qed.

Lemma kpa_below_30 (raw : Z) :
  0 <= raw < 30000 -> leb (Int 30) (kpa raw) = false.
Proof.
  intros Hraw.
  assert (H : holds_from (fun z => negb (leb (Int 30) (kpa z)))
                (Z.to_nat 30000) 0 = true) by (vm_compute; reflexivity).
  apply negb_true_iff.
  apply (holds_from_spec _ _ _ H). lia.
Qed.

(** The plausibility ranges are applied to the number after the kPa
    division: a kPa-flagged payload scores 0.3 whenever its raw systolic is
    below 50000 or its raw diastolic is below 30000, that is, for every
    pressure under 50 kPa. *)
Theorem bp_kpa_out_of_range (self : DeviceDriver.t) (now : Z) (data : list byte) :
  bp_well_formed data ->
  Z.land (u8 (List.hd x00 data)) 1 <> 0 ->
  u16_at data 1 < 50000 \/ u16_at data 3 < 30000 ->
  exists r,
    BloodPressureDriver._handle_bp_measurement self now data = Some r /\
    DeviceReading.unit r = "kPa" /\
    DeviceReading.quality_score r = 0.3%Q.
Proof.
  intros Hwf Hkpa Hraw.
  destruct (parse_bp_pulse self now data Hwf) as (q & Hq & Hr).
  eexists. split; [exact Hr|].
  unfold decoded. cbn [DeviceReading.unit DeviceReading.quality_score].
  apply Z.eqb_neq in Hkpa. rewrite Hkpa. split; [reflexivity|].
  destruct (sub_pressure (Z.land (u8 (List.hd x00 data)) 1)
              (u16_at data 1) (u16_at data 3)) as [pp Hpp].
  fold (bp_systolic data) in Hpp. fold (bp_diastolic data) in Hpp.
  destruct (quality_score_cases _ _ _ Hpp) as (q' & Hq' & H03 & _).
  assert (q' = q) as -> by congruence.
  apply H03. unfold plausible, bp_systolic, bp_diastolic, pressure, Py.le.
  rewrite Hkpa. intros (H1 & _ & H3 & _).
  pose proof (u16_at_range data 1). pose proof (u16_at_range data 3).
  destruct Hraw as [Hs | Hd].
  - rewrite kpa_below_50 in H1 by lia. discriminate.
  - rewrite kpa_below_30 in H3 by lia. discriminate.
Qed.

Lemma bp_kpa_out_of_range_witness :
  exists r,
    BloodPressureDriver._handle_bp_measurement bp_driver 0 bp_payload_kPa = Some r /\
    DeviceReading.unit r = "kPa" /\
    DeviceReading.quality_score r = 0.3%Q.
Proof.
  apply (bp_kpa_out_of_range bp_driver 0 bp_payload_kPa).
  - exact bp_payload_kPa_well_formed.
  - vm_compute. discriminate.
  - left. vm_compute. reflexivity.
Defined.

(** ** Pulse-oximeter payloads *)

Lemma handle_plx_long (self : DeviceDriver.t) (now : Z) (data : list byte) :
  (5 <= length data)%nat ->
  PulseOximeterDriver._handle_plx_measurement self now data
  = Some (DeviceReading.Build
            (DeviceInfo.device_id (DeviceDriver.device_info self))
            DeviceType.PULSE_OXIMETER now
            (<["spo2" := PNum (percent (u16_at data 1))]>
               (<["pulse_rate" := PNum (Int (u16_at data 3))]> ∅))
            "percent/%"
            (PulseOximeterDriver._calculate_plx_quality
               (percent (u16_at data 1)) (Int (u16_at data 3)))
            (<["flags" := PNum (Int (u8 (List.hd x00 data)))]>
               (<["signal_quality" := PStr "good"]> ∅))).
Proof.
  intros Hlen.
  destruct data as [|b0 [|b1 [|b2 [|b3 [|b4 rest]]]]]; simpl in Hlen; try lia.
  set (data := b0 :: b1 :: b2 :: b3 :: b4 :: rest).
  unfold PulseOximeterDriver._handle_plx_measurement,
    PulseOximeterDriver.parse_plx_measurement.
  change (first_byte data) with (Ok (u8 b0)).
  change (unpack_H (slice data 1 3)) with (Ok (u16_at data 1)).
  change (unpack_H (slice data 3 5)) with (Ok (u16_at data 3)).
  cbn [mbind result_bind Py.bind].
  rewrite truediv_u16 by (apply u16_at_range || reflexivity).
  reflexivity.
Qed.

Lemma handle_plx_short (self : DeviceDriver.t) (now : Z) (data : list byte) :
  (length data < 5)%nat ->
  PulseOximeterDriver._handle_plx_measurement self now data = None.
Proof.
  intros Hlen.
  destruct data as [|b0 [|b1 [|b2 [|b3 [|b4 rest]]]]]; simpl in Hlen; try lia;
    try reflexivity.
  - unfold PulseOximeterDriver._handle_plx_measurement,
      PulseOximeterDriver.parse_plx_measurement.
    set (data := [b0; b1; b2]).
    change (first_byte data) with (Ok (u8 b0)).
    change (unpack_H (slice data 1 3)) with (Ok (u16_at data 1)).
    cbn [mbind result_bind Py.bind].
    rewrite truediv_u16 by (apply u16_at_range || reflexivity).
    reflexivity.
  - unfold PulseOximeterDriver._handle_plx_measurement,
      PulseOximeterDriver.parse_plx_measurement.
    set (data := [b0; b1; b2; b3]).
    change (first_byte data) with (Ok (u8 b0)).
    change (unpack_H (slice data 1 3)) with (Ok (u16_at data 1)).
    cbn [mbind result_bind Py.bind].
    rewrite truediv_u16 by (apply u16_at_range || reflexivity).
    reflexivity.
Qed.

(** A pulse-oximeter payload is decoded exactly when it has at least five
    bytes; SpO2 is then the 16-bit field at byte 1 divided by 100.0 and the
    pulse rate the 16-bit field at byte 3. The flags byte and any bytes
    after the fifth have no influence on values, unit or quality score. *)
Theorem plx_decode (self : DeviceDriver.t) (now : Z) (data : list byte) :
  (is_Some (PulseOximeterDriver._handle_plx_measurement self now data)
   <-> (5 <= length data)%nat) /\
  (forall r,
     PulseOximeterDriver._handle_plx_measurement self now data = Some r ->
     let spo2 := Float (PrimFloat.div (float_of_exact (u16_at data 1)) 100) in
     DeviceReading.values r
     = <["spo2" := PNum spo2]>
         (<["pulse_rate" := PNum (Int (u16_at data 3))]> ∅) /\
     DeviceReading.unit r = "percent/%" /\
     DeviceReading.quality_score r
     = PulseOximeterDriver._calculate_plx_quality spo2 (Int (u16_at data 3)) /\
     DeviceReading.device_type r = DeviceType.PULSE_OXIMETER /\
     DeviceReading.timestamp r = now).
Proof.
  destruct (Nat.lt_ge_cases (length data) 5) as [Hshort | Hlong].
  - rewrite handle_plx_short by exact Hshort. split.
    + split; [intros [r Hr]; discriminate | lia].
    + intros r Hr. discriminate.
  - rewrite handle_plx_long by exact Hlong. split.
    + split; [intros _; exact Hlong | eauto].
    + intros r [= <-]. repeat split.
Qed.

(** The quality score of a pulse-oximeter reading: 0.3 when SpO2 is
    outside [70,100] or the pulse rate outside [30,200]; otherwise 0.8 when
    SpO2 is below 85, and 0.9 from 85 on. *)
Theorem plx_quality_cases (spo2 pulse_rate : number) :
  let s := spo2 in
  let p := pulse_rate in
  let q := PulseOximeterDriver._calculate_plx_quality spo2 pulse_rate in
  (Py.lt s (Int 70) \/ Py.lt (Int 100) s \/
   Py.lt p (Int 30) \/ Py.lt (Int 200) p -> q = 0.3%Q) /\
  (~ (Py.le (Int 70) s /\ Py.le s (Int 100)) \/
   ~ (Py.le (Int 30) p /\ Py.le p (Int 200)) -> q = 0.3%Q) /\
  (Py.le (Int 70) s -> Py.lt s (Int 85) ->
   Py.le (Int 30) p /\ Py.le p (Int 200) -> q = 0.8%Q) /\
  (Py.le (Int 85) s /\ Py.le s (Int 100) ->
   Py.le (Int 30) p /\ Py.le p (Int 200) -> q = 0.9%Q).
Proof.
  cbv zeta.
  assert (Hout : ~ (Py.le (Int 70) spo2 /\ Py.le spo2 (Int 100)) \/
                 ~ (Py.le (Int 30) pulse_rate /\ Py.le pulse_rate (Int 200)) ->
                 PulseOximeterDriver._calculate_plx_quality spo2 pulse_rate
                 = 0.3%Q).
  { unfold PulseOximeterDriver._calculate_plx_quality, Py.le.
    destruct (leb (Int 70) spo2), (leb spo2 (Int 100)),
      (leb (Int 30) pulse_rate), (leb pulse_rate (Int 200));
      cbn; intros; try reflexivity; exfalso; intuition congruence. }
  split; [|split; [exact Hout|split]].
  - intros [H|[H|[H|H]]]; apply Hout.
    + left. intros [H1 _]. exact (lt_not_le _ _ H H1).
    + left. intros [_ H1]. exact (lt_not_le _ _ H H1).
    + right. intros [H1 _]. exact (lt_not_le _ _ H H1).
    + right. intros [_ H1]. exact (lt_not_le _ _ H H1).
  - intros H70 H85 [H30 H200].
    pose proof (lt_85_le_100 _ H85) as H100.
    unfold PulseOximeterDriver._calculate_plx_quality.
    unfold Py.le, Py.lt in *. rewrite H70, H100, H30, H200, H85. reflexivity.
  - intros [H85 H100] [H30 H200].
    pose proof (le_85_le_70 _ H85) as H70.
    pose proof (le_not_lt _ _ H85) as Hnlt.
    unfold PulseOximeterDriver._calculate_plx_quality.
    unfold Py.le, Py.lt in *. rewrite H70, H100, H30, H200.
    destruct (ltb spo2 (Int 85)); [now contradict Hnlt|reflexivity].
Qed.

Example plx_98_72 :
  DeviceReading.quality_score
    <$> PulseOximeterDriver._handle_plx_measurement plx_driver 0 plx_payload
  = Some 0.9%Q.
Proof. vm_compute. reflexivity. Qed.

(** ** Connecting, reading, calibrating and removing drivers *)

(** With BLE available, [connect()] of a device driver ends either in
    [connected], returning [True], or in [error], returning [False]; it
    never leaves the driver in [connecting]. The client stays connected
    when only the subscription failed. Without BLE the call returns
    [False] and changes nothing. *)
Theorem connect_outcome (ble : bool) (io : ConnectIO) (self : DeviceDriver.t) :
  DeviceDriver.class self <> DeviceDriver.Base ->
  let out := DeviceDriver.connect ble io self in
  let mac := DeviceInfo.mac_address (DeviceDriver.device_info self) in
  (ble = false -> out = (Ok false, self)) /\
  (ble = true ->
   ((exists e, io_connect io = Raise e) ->
    fst out = Ok false /\
    DeviceDriver.status (snd out) = DeviceStatus.ERROR /\
    DeviceDriver.client (snd out) = Some (BleakClient.Build mac false)) /\
   (io_connect io = Ok tt -> (exists e, io_start_notify io = Raise e) ->
    fst out = Ok false /\
    DeviceDriver.status (snd out) = DeviceStatus.ERROR /\
    DeviceDriver.client (snd out) = Some (BleakClient.Build mac true)) /\
   (io_connect io = Ok tt -> io_start_notify io = Ok tt ->
    fst out = Ok true /\
    DeviceDriver.status (snd out) = DeviceStatus.CONNECTED /\
    DeviceDriver.client (snd out) = Some (BleakClient.Build mac true)) /\
   (DeviceDriver.status (snd out) = DeviceStatus.CONNECTED
    \/ DeviceDriver.status (snd out) = DeviceStatus.ERROR) /\
   (fst out = Ok true
    <-> DeviceDriver.status (snd out) = DeviceStatus.CONNECTED)).
Proof.
  intros Hcls. cbv zeta. unfold DeviceDriver.connect.
  destruct (DeviceDriver.class self); [congruence| | |];
    (split; [intros ->; reflexivity|]; intros ->; cbn [negb];
     destruct (io_connect io) as [[]|e1], (io_start_notify io) as [[]|e2];
     cbn; repeat split; intros;
     repeat match goal with
       | H : exists _, _ |- _ => destruct H
       end;
     try congruence; try (left; reflexivity); try (right; reflexivity)).
Qed.

Lemma connect_outcome_witness :
  DeviceDriver.connect false link_up bp_driver = (Ok false, bp_driver) /\
  DeviceDriver.status (snd (DeviceDriver.connect true link_refused bp_driver))
  = DeviceStatus.ERROR.
Proof.
  destruct (connect_outcome false link_up bp_driver ltac:(discriminate))
    as [Hoff _].
  destruct (connect_outcome true link_refused bp_driver ltac:(discriminate))
    as [_ Hon].
  split; [exact (Hoff eq_refl)|].
  destruct (Hon eq_refl) as [Hrefused _].
  apply Hrefused. eexists. reflexivity.
Defined.

Lemma read_data_cases (self : DeviceDriver.t) :
  (DeviceDriver.class self = DeviceDriver.BloodPressure ->
   DeviceDriver.read_data self = (Ok None, self)) /\
  (DeviceDriver.class self <> DeviceDriver.BloodPressure ->
   DeviceDriver.read_data self = (Raise NotImplementedError, self)).
Proof.
  unfold DeviceDriver.read_data. destruct self as [c info st cl cbs].
  cbn [DeviceDriver.class DeviceDriver.status]. split.
  - intros ->. case_bool_decide as Hst; [|reflexivity].
    cbn in Hst. subst st. reflexivity.
  - intros Hne. destruct c; congruence.
Qed.

(** [read_data()] never delivers a reading: the blood-pressure driver
    returns [None] and is afterwards in the state it was in before; every
    other driver raises [NotImplementedError]. *)
Theorem read_data_never_reads (self : DeviceDriver.t) :
  (DeviceDriver.class self = DeviceDriver.BloodPressure ->
   DeviceDriver.read_data self = (Ok None, self)) /\
  (DeviceDriver.class self <> DeviceDriver.BloodPressure ->
   DeviceDriver.read_data self = (Raise NotImplementedError, self)).
Proof.
  split.
  - intros Hcls. now apply read_data_cases.
  - intros Hcls. now apply read_data_cases.
Qed.

(** [calibrate_device] answers [True] exactly for a device of the table
    that is driven by the blood-pressure driver; for an unknown device and
    for every other driver, whose [calibrate()] raises, it answers
    [False]. *)
Theorem calibrate_device_true_iff (self : DeviceManager.t) (device_id : string) :
  Manager.calibrate_device self device_id = true
  <-> exists device,
        DeviceManager.devices self !! device_id = Some device /\
        DeviceDriver.class device = DeviceDriver.BloodPressure.
Proof.
  unfold Manager.calibrate_device, Driver.calibrate.
  destruct (DeviceManager.devices self !! device_id) as [device|].
  - destruct (DeviceDriver.class device) eqn:Hc; split;
      try discriminate; try (intros (d & [= <-] & Hd); congruence).
    intros _. eauto.
  - split; [discriminate | intros (d & Hd & _); discriminate].
Qed.

Lemma disconnect_device_cases (io : DisconnectIO) (self : DeviceManager.t)
    (device_id : string) :
  let out := DeviceManager.disconnect_device io self device_id in
  (DeviceManager.devices self !! device_id = None -> out = (false, self)) /\
  (forall driver,
     DeviceManager.devices self !! device_id = Some driver ->
     (closes driver ->
      fst out = true /\
      DeviceManager.devices (snd out) = delete device_id (DeviceManager.devices self) /\
      DeviceManager.get_device_status (snd out) device_id = None) /\
     (~ closes driver ->
      fst out = false /\
      DeviceManager.devices (snd out) = DeviceManager.devices self)).
Proof.
  cbv zeta. unfold DeviceManager.disconnect_device. split.
  - intros ->. reflexivity.
  - intros driver Hd. rewrite Hd. split.
    + intros Hcl.
      assert (Hok : fst (DeviceDriver.disconnect io driver) = Ok tt).
      { unfold DeviceDriver.disconnect.
        destruct Hcl as [-> | ->];
          (destruct (DeviceDriver.client driver) as [c|]; [|reflexivity];
           destruct (BleakClient.is_connected c); [|reflexivity];
           destruct (io_stop_notify io); [|reflexivity];
           destruct (io_disconnect io); reflexivity). }
      destruct (DeviceDriver.disconnect io driver) as [[[]|e] d'];
        cbn [fst] in Hok; [|discriminate].
      cbn [fst snd DeviceManager.devices]. split; [reflexivity|].
      split; [reflexivity|].
      unfold DeviceManager.get_device_status. cbn [DeviceManager.devices].
      now rewrite lookup_delete_eq.
    + intros Hncl. unfold DeviceDriver.disconnect, closes in *.
      destruct (DeviceDriver.class driver); try tauto;
        cbn [fst snd DeviceManager.devices];
        (split; [reflexivity | now apply insert_id]).
Qed.

(** [disconnect_device]: an unknown device gives [False] and no change; a
    blood-pressure or pulse-oximeter driver is removed from the table and
    the answer is [True] whatever the transport did, also when the driver
    could not close the link; a thermometer or base driver, whose
    [disconnect()] raises, stays in the table and the answer is [False]. *)
Theorem disconnect_device_outcome (io : DisconnectIO) (self : DeviceManager.t)
    (device_id : string) :
  let out := DeviceManager.disconnect_device io self device_id in
  (DeviceManager.devices self !! device_id = None -> out = (false, self)) /\
  (forall driver,
     DeviceManager.devices self !! device_id = Some driver ->
     (closes driver ->
      fst out = true /\
      DeviceManager.devices (snd out) = delete device_id (DeviceManager.devices self) /\
      DeviceManager.get_device_status (snd out) device_id = None) /\
     (~ closes driver ->
      fst out = false /\
      DeviceManager.devices (snd out) = DeviceManager.devices self)).
Proof. exact (disconnect_device_cases io self device_id). Qed.

Lemma connect_device_stored (ble : bool) (io : ConnectIO)
    (self : DeviceManager.t) (device_info : DeviceInfo.t) :
  fst (DeviceManager.connect_device ble io self device_info) = true ->
  exists driver,
    DeviceManager.devices (snd (DeviceManager.connect_device ble io self device_info))
    = <[DeviceInfo.device_id device_info := driver]> (DeviceManager.devices self) /\
    DeviceDriver.class driver
    = DeviceDriver.class (DeviceManager._create_driver device_info) /\
    DeviceDriver.status driver = DeviceStatus.CONNECTED /\
    DeviceDriver.callbacks driver = [_handle_device_reading].
Proof.
  unfold DeviceManager.connect_device.
  pose proof (connect_true_state ble io (DeviceManager._create_driver device_info))
    as Hst.
  destruct (DeviceDriver.connect ble io (DeviceManager._create_driver device_info))
    as [[[|]|e] driver] eqn:Hc; cbn [fst snd] in *; try discriminate.
  intros _. destruct (Hst eq_refl) as (Hs & _ & Hcl & _).
  eexists. split; [reflexivity|]. cbn. repeat split; try assumption.
  unfold DeviceDriver.connect in Hc.
  destruct (DeviceDriver.class (DeviceManager._create_driver device_info)),
    ble, (io_connect io) as [[]|], (io_start_notify io) as [[]|];
    cbn in Hc; try discriminate; injection Hc as <-; cbn;
    unfold DeviceManager._create_driver;
    destruct (DeviceInfo.device_type device_info); reflexivity.
Qed.

(** Connecting a blood-pressure monitor or pulse oximeter under a fresh
    device id and disconnecting it again gives back the manager as it was,
    whatever the transport does during the disconnect. *)
Theorem connect_then_disconnect (ble : bool) (cio : ConnectIO) (dio : DisconnectIO)
    (self : DeviceManager.t) (device_info : DeviceInfo.t) :
  DeviceManager.devices self !! DeviceInfo.device_id device_info = None ->
  DeviceInfo.device_type device_info = DeviceType.BLOOD_PRESSURE
  \/ DeviceInfo.device_type device_info = DeviceType.PULSE_OXIMETER ->
  fst (DeviceManager.connect_device ble cio self device_info) = true ->
  DeviceManager.disconnect_device dio
    (snd (DeviceManager.connect_device ble cio self device_info))
    (DeviceInfo.device_id device_info)
  = (true, self).
Proof.
  intros Hfresh Hty Hconn.
  destruct (connect_device_stored ble cio self device_info Hconn)
    as (driver & Htab & Hcls & _).
  assert (Hcl : closes driver).
  { unfold closes. rewrite Hcls. unfold DeviceManager._create_driver.
    destruct Hty as [-> | ->]; [left | right]; reflexivity. }
  destruct (disconnect_device_cases dio
              (snd (DeviceManager.connect_device ble cio self device_info))
              (DeviceInfo.device_id device_info)) as [_ Hpresent].
  cbv zeta in Hpresent.
  destruct (Hpresent driver) as [Hclose _].
  { rewrite Htab. apply lookup_insert_eq. }
  destruct (Hclose Hcl) as (Hret & Hdev & _).
  destruct (DeviceManager.disconnect_device dio _ _) as [b m'].
  cbn [fst snd] in Hret, Hdev. subst b. f_equal.
  destruct m' as [tab], self as [tab0]. cbn [DeviceManager.devices] in *.
  f_equal. rewrite Hdev, Htab. now apply delete_insert_id.
Qed.

Lemma connect_then_disconnect_witness :
  DeviceManager.disconnect_device unlink_fails dm_bp "dev-1"
  = (true, DeviceManager.init).
Proof.
  apply (connect_then_disconnect true link_up unlink_fails
           DeviceManager.init bp_info).
  - apply lookup_empty.
  - left. reflexivity.
  - reflexivity.
Defined.

(** A thermometer that has been connected cannot be removed with
    [disconnect_device]: the thermometer driver has no [disconnect()], so
    the call answers [False] and the driver stays in the table, still
    connected. *)
Theorem thermometer_stays (ble : bool) (cio : ConnectIO) (dio : DisconnectIO)
    (self : DeviceManager.t) (device_info : DeviceInfo.t) :
  DeviceInfo.device_type device_info = DeviceType.THERMOMETER ->
  fst (DeviceManager.connect_device ble cio self device_info) = true ->
  let connected := snd (DeviceManager.connect_device ble cio self device_info) in
  let out :=
    DeviceManager.disconnect_device dio connected
      (DeviceInfo.device_id device_info) in
  fst out = false /\
  DeviceManager.devices (snd out) = DeviceManager.devices connected /\
  DeviceManager.get_device_status (snd out) (DeviceInfo.device_id device_info)
  = Some DeviceStatus.CONNECTED.
Proof.
  intros Hty Hconn. cbv zeta.
  destruct (connect_device_stored ble cio self device_info Hconn)
    as (driver & Htab & Hcls & Hst & _).
  assert (Hncl : ~ closes driver).
  { unfold closes. rewrite Hcls. unfold DeviceManager._create_driver.
    rewrite Hty. cbn. intros [H | H]; discriminate. }
  destruct (disconnect_device_cases dio
              (snd (DeviceManager.connect_device ble cio self device_info))
              (DeviceInfo.device_id device_info)) as [_ Hpresent].
  cbv zeta in Hpresent.
  destruct (Hpresent driver) as [_ Hstay].
  { rewrite Htab. apply lookup_insert_eq. }
  destruct (Hstay Hncl) as (Hret & Hdev).
  split; [exact Hret|]. split; [exact Hdev|].
  unfold DeviceManager.get_device_status. rewrite Hdev, Htab, lookup_insert_eq.
  cbn. now rewrite Hst.
Qed.

Lemma thermometer_stays_witness :
  fst (DeviceManager.disconnect_device unlink_ok dm_thermo "dev-3") = false /\
  DeviceManager.devices
    (snd (DeviceManager.disconnect_device unlink_ok dm_thermo "dev-3"))
  = DeviceManager.devices dm_thermo /\
  DeviceManager.get_device_status
    (snd (DeviceManager.disconnect_device unlink_ok dm_thermo "dev-3")) "dev-3"
  = Some DeviceStatus.CONNECTED.
Proof.
  apply (thermometer_stays true link_up unlink_ok DeviceManager.init thermo_info);
    reflexivity.
Defined.

(** ** Calibration runs that cannot succeed *)

(** A calibration call for a device that is not in the table, or is of
    another type, raises [ValueError] and leaves the ledger as it was,
    whatever the device would have delivered. *)
Theorem calibration_rejected
    (read_data : nat -> result (option DeviceReading.t)) (utcnow : nat -> Z)
    (dm : DeviceManager.t) (self : DeviceCalibrator.t) (device_id : string) :
  (forall reference_systolic reference_diastolic,
     ~ valid_device DeviceCalibrator.bp_procedure dm device_id ->
     DeviceCalibrator.calibrate_blood_pressure_monitor read_data utcnow dm self
       device_id reference_systolic reference_diastolic
     = (Raise (ValueError "Invalid blood pressure device"), self)) /\
  (forall reference_spo2 reference_pulse,
     ~ valid_device DeviceCalibrator.plx_procedure dm device_id ->
     DeviceCalibrator.calibrate_pulse_oximeter read_data utcnow dm self
       device_id reference_spo2 reference_pulse
     = (Raise (ValueError "Invalid pulse oximeter device"), self)).
Proof.
  split; intros ref1 ref2 Hinv.
  - unfold DeviceCalibrator.calibrate_blood_pressure_monitor.
    now rewrite calibrate_rejected.
  - unfold DeviceCalibrator.calibrate_pulse_oximeter.
    now rewrite calibrate_rejected.
Qed.

(** A pulse oximeter is no valid device for the blood-pressure method and
    the other way round. *)
Example calibration_wrong_type :
  DeviceCalibrator.calibrate_blood_pressure_monitor (steady 120 80) (ticking 0)
    dm_plx DeviceCalibrator.init "dev-2" (Float 120) (Float 80)
  = (Raise (ValueError "Invalid blood pressure device"), DeviceCalibrator.init) /\
  DeviceCalibrator.calibrate_pulse_oximeter (steady 120 80) (ticking 0)
    dm_bp DeviceCalibrator.init "dev-1" (Float 98) 72
  = (Raise (ValueError "Invalid pulse oximeter device"), DeviceCalibrator.init).
Proof. split; reflexivity. Qed.

Lemma driver_reads_return (device : DeviceDriver.t) :
  DeviceDriver.class device = DeviceDriver.BloodPressure ->
  forall i, DeviceCalibrator.driver_reads device i = Ok None.
Proof.
  intros Hcls i. unfold DeviceCalibrator.driver_reads.
  now rewrite (proj1 (read_data_cases device) Hcls).
Qed.

(** With the blood-pressure driver of [ble_manager.py] doing the reads,
    every blood-pressure calibration ends in a calibration_failed record
    with the note "Insufficient readings for calibration", without
    measured values and without a due date: the driver's [read_data()]
    returns [None] five times. *)
Theorem bp_calibration_with_own_driver (utcnow : nat -> Z)
    (dm : DeviceManager.t) (self : DeviceCalibrator.t) (device_id : string)
    (device : DeviceDriver.t) (reference_systolic reference_diastolic : number) :
  DeviceManager.devices dm !! device_id = Some device ->
  DeviceDriver.class device = DeviceDriver.BloodPressure ->
  DeviceInfo.device_type (DeviceDriver.device_info device)
  = DeviceType.BLOOD_PRESSURE ->
  exists record,
    DeviceCalibrator.calibrate_blood_pressure_monitor
      (DeviceCalibrator.driver_reads device) utcnow dm self device_id
      reference_systolic reference_diastolic
    = (Ok record, DeviceCalibrator.store self device_id record) /\
    CalibrationRecord.status record = CalibrationStatus.CALIBRATION_FAILED /\
    CalibrationRecord.notes record
    = Some "Insufficient readings for calibration" /\
    CalibrationRecord.measured_values record = ∅ /\
    CalibrationRecord.next_calibration_due record = None.
Proof.
  intros Hdev Hcls Hty.
  assert (Hvalid : valid_device DeviceCalibrator.bp_procedure dm device_id)
    by (exists device; split; assumption).
  unfold DeviceCalibrator.calibrate_blood_pressure_monitor.
  destruct (calibrate_started (DeviceCalibrator.driver_reads device) utcnow
              DeviceCalibrator.bp_procedure dm self device_id
              reference_systolic reference_diastolic Hvalid)
    as (record & Hrun & Hrec).
  destruct (measure_insufficient (DeviceCalibrator.driver_reads device) utcnow
              DeviceCalibrator.bp_procedure device_id
              reference_systolic reference_diastolic) as (e & He & Hmsg).
  { cbn [DeviceCalibrator.field1 DeviceCalibrator.field2
         DeviceCalibrator.samples DeviceCalibrator.min_samples
         DeviceCalibrator.bp_procedure].
    rewrite driver_reads_never_good by exact Hcls. lia. }
  rewrite He in Hrec. subst record.
  rewrite Hmsg in * by (intros j _; eexists; now apply driver_reads_return).
  eexists. split; [exact Hrun|]. repeat split.
Qed.

Lemma bp_calibration_with_own_driver_witness :
  exists record,
    run_own_driver = (Ok record, DeviceCalibrator.store DeviceCalibrator.init "dev-1" record) /\
    CalibrationRecord.status record = CalibrationStatus.CALIBRATION_FAILED /\
    CalibrationRecord.notes record
    = Some "Insufficient readings for calibration" /\
    CalibrationRecord.measured_values record = ∅ /\
    CalibrationRecord.next_calibration_due record = None.
Proof.
  assert (Hdev : DeviceManager.devices dm_bp !! "dev-1"
                 = Some (DeviceDriver.add_callback _handle_device_reading bp_connected))
    by (vm_compute; reflexivity).
  destruct (bp_calibration_with_own_driver (ticking 1000) dm_bp
              DeviceCalibrator.init "dev-1" _ (Float 120) (Float 80) Hdev eq_refl eq_refl)
    as (record & Hrun & Hrest).
  exists record. split; [|exact Hrest].
  rewrite <- Hrun. reflexivity.
Defined.

(** With the pulse-oximeter driver of [ble_manager.py] doing the reads,
    every pulse-oximeter calibration ends in a calibration_failed record
    whose note is the empty string: the driver inherits [read_data()],
    which raises [NotImplementedError] at the first read. *)
Theorem plx_calibration_with_own_driver (utcnow : nat -> Z)
    (dm : DeviceManager.t) (self : DeviceCalibrator.t) (device_id : string)
    (device : DeviceDriver.t) (reference_spo2 : number) (reference_pulse : Z) :
  DeviceManager.devices dm !! device_id = Some device ->
  DeviceDriver.class device = DeviceDriver.PulseOximeter ->
  DeviceInfo.device_type (DeviceDriver.device_info device)
  = DeviceType.PULSE_OXIMETER ->
  exists record,
    DeviceCalibrator.calibrate_pulse_oximeter
      (DeviceCalibrator.driver_reads device) utcnow dm self device_id
      reference_spo2 reference_pulse
    = (Ok record, DeviceCalibrator.store self device_id record) /\
    CalibrationRecord.status record = CalibrationStatus.CALIBRATION_FAILED /\
    CalibrationRecord.notes record = Some "" /\
    CalibrationRecord.measured_values record = ∅ /\
    CalibrationRecord.next_calibration_due record = None.
Proof.
  intros Hdev Hcls Hty.
  assert (Hvalid : valid_device DeviceCalibrator.plx_procedure dm device_id)
    by (exists device; split; assumption).
  unfold DeviceCalibrator.calibrate_pulse_oximeter.
  destruct (calibrate_started (DeviceCalibrator.driver_reads device) utcnow
              DeviceCalibrator.plx_procedure dm self device_id
              reference_spo2 (Int reference_pulse) Hvalid)
    as (record & Hrun & Hrec).
  assert (Hm : DeviceCalibrator.measure (DeviceCalibrator.driver_reads device)
                 utcnow DeviceCalibrator.plx_procedure device_id
                 reference_spo2 (Int reference_pulse)
               = Raise NotImplementedError).
  { unfold DeviceCalibrator.measure.
    change (DeviceCalibrator.samples DeviceCalibrator.plx_procedure) with 10%nat.
    cbn [DeviceCalibrator.take_readings].
    replace (DeviceCalibrator.driver_reads device 0)
      with (@Raise (option DeviceReading.t) NotImplementedError); [reflexivity|].
    unfold DeviceCalibrator.driver_reads.
    rewrite (proj2 (read_data_cases device)) by congruence.
    reflexivity. }
  rewrite Hm in Hrec. subst record.
  eexists. split; [exact Hrun|]. repeat split.
Qed.

Lemma plx_calibration_with_own_driver_witness :
  exists record,
    fst (DeviceCalibrator.calibrate_pulse_oximeter
           (DeviceCalibrator.driver_reads plx_driver) (ticking 1000) dm_plx
           DeviceCalibrator.init "dev-2" (Float 98) 72) = Ok record /\
    CalibrationRecord.status record = CalibrationStatus.CALIBRATION_FAILED /\
    CalibrationRecord.notes record = Some "".
Proof.
  assert (Hdev : exists d, DeviceManager.devices dm_plx !! "dev-2" = Some d /\
                           DeviceDriver.class d = DeviceDriver.PulseOximeter /\
                           DeviceInfo.device_type (DeviceDriver.device_info d)
                           = DeviceType.PULSE_OXIMETER /\
                           DeviceCalibrator.driver_reads d
                           = DeviceCalibrator.driver_reads plx_driver)
    by (eexists; vm_compute; repeat split).
  destruct Hdev as (d & Hd & Hc & Ht & Hreads).
  destruct (plx_calibration_with_own_driver (ticking 1000) dm_plx
              DeviceCalibrator.init "dev-2" d (Float 98) 72 Hd Hc Ht)
    as (record & Hrun & Hs & Hn & _).
  exists record. rewrite <- Hreads, Hrun. repeat split; assumption.
Defined.

(** ** Readings whose values are not numbers *)

Lemma sum_field_non_numeric (f : string) (r : DeviceReading.t) :
  non_numeric (DeviceReading.values r !! f) ->
  forall (readings : list DeviceReading.t) (acc : number),
    In r readings ->
    exists e, DeviceCalibrator.sum_field f acc readings = Raise e.
Proof.
  intros Hbad readings. induction readings as [|x readings IH]; intros acc Hin.
  - destruct Hin.
  - cbn [DeviceCalibrator.sum_field]. unfold getitem.
    destruct Hin as [-> | Hin].
    + destruct (DeviceReading.values r !! f) as [[n| |]|]; cbn in Hbad |- *;
        try contradiction; destruct acc; cbn; eauto.
    + destruct (DeviceReading.values x !! f) as [v|]; cbn; [|eauto].
      destruct (Py.add acc v) as [acc'|e]; cbn; [|eauto].
      now apply IH.
Qed.

(** When the readings collected for a blood-pressure calibration include
    one whose systolic or diastolic entry is not a number (text or
    [None]), the averaging raises and the run is recorded as
    calibration_failed; it is never calibrated or out_of_spec. *)
Theorem non_numeric_reading_fails
    (read_data : nat -> result (option DeviceReading.t)) (utcnow : nat -> Z)
    (dm : DeviceManager.t) (self : DeviceCalibrator.t) (device_id : string)
    (reference_systolic reference_diastolic : number)
    (readings : list DeviceReading.t) (r : DeviceReading.t) :
  valid_device DeviceCalibrator.bp_procedure dm device_id ->
  DeviceCalibrator.take_readings read_data "systolic" "diastolic" 0 5 []
  = Ok readings ->
  In r readings ->
  non_numeric (DeviceReading.values r !! "systolic")
  \/ non_numeric (DeviceReading.values r !! "diastolic") ->
  exists record,
    DeviceCalibrator.calibrate_blood_pressure_monitor read_data utcnow dm self
      device_id reference_systolic reference_diastolic
    = (Ok record, DeviceCalibrator.store self device_id record) /\
    CalibrationRecord.status record = CalibrationStatus.CALIBRATION_FAILED /\
    CalibrationRecord.measured_values record = ∅.
Proof.
  intros Hvalid Htake Hin Hbad.
  unfold DeviceCalibrator.calibrate_blood_pressure_monitor.
  destruct (calibrate_started read_data utcnow DeviceCalibrator.bp_procedure dm
              self device_id reference_systolic reference_diastolic Hvalid)
    as (record & Hrun & Hrec).
  assert (Hm : exists e,
             DeviceCalibrator.measure read_data utcnow DeviceCalibrator.bp_procedure
               device_id reference_systolic reference_diastolic = Raise e).
  { unfold DeviceCalibrator.measure.
    cbn [DeviceCalibrator.field1 DeviceCalibrator.field2
         DeviceCalibrator.samples DeviceCalibrator.min_samples
         DeviceCalibrator.bp_procedure].
    rewrite Htake. cbn [mbind result_bind Py.bind].
    destruct (length readings <? 3)%nat; [eauto|]. cbv zeta.
    destruct (DeviceCalibrator.sum_field "systolic" (Int 0) readings)
      as [s1|e1] eqn:E1; cbn [mbind result_bind Py.bind]; [|eauto].
    destruct (truediv s1 (Int (Z.of_nat (length readings)))) as [avg1|e];
      cbn [mbind result_bind Py.bind]; [|eauto].
    destruct Hbad as [Hs | Hd].
    - destruct (sum_field_non_numeric "systolic" r Hs readings (Int 0) Hin)
        as [e He]. congruence.
    - destruct (sum_field_non_numeric "diastolic" r Hd readings (Int 0) Hin)
        as [e He]. rewrite He. cbn. eauto. }
  destruct Hm as [e He]. rewrite He in Hrec. subst record.
  eexists. split; [exact Hrun|]. split; reflexivity.
Qed.

Lemma non_numeric_reading_fails_witness :
  exists record,
    fst (DeviceCalibrator.calibrate_blood_pressure_monitor garbled (ticking 1000)
           dm_bp DeviceCalibrator.init "dev-1" (Float 120) (Float 80)) = Ok record /\
    CalibrationRecord.status record = CalibrationStatus.CALIBRATION_FAILED.
Proof.
  destruct (DeviceCalibrator.take_readings garbled "systolic" "diastolic" 0 5 [])
    as [readings|e] eqn:Htake; [|vm_compute in Htake; discriminate Htake].
  assert (Hin : exists r, In r readings /\
                          non_numeric (DeviceReading.values r !! "systolic")).
  { vm_compute in Htake. injection Htake as <-.
    eexists. split; [left; reflexivity | vm_compute; exact I]. }
  destruct Hin as (r & Hin & Hbad).
  destruct (non_numeric_reading_fails garbled (ticking 1000) dm_bp
              DeviceCalibrator.init "dev-1" (Float 120) (Float 80) readings r
              dm_bp_valid Htake Hin (or_introl Hbad))
    as (record & Hrun & Hs & _).
  exists record. rewrite Hrun. split; [reflexivity | exact Hs].
Defined.

(** The note of such a run is the interpreter's message. *)
Example garbled_note :
  match fst (DeviceCalibrator.calibrate_blood_pressure_monitor garbled
               (ticking 1000) dm_bp DeviceCalibrator.init "dev-1" (Float 120) (Float 80)) with
  | Ok record =>
      CalibrationRecord.notes record
      = Some "unsupported operand type(s) for +: 'int' and 'str'"
  | Raise _ => False
  end.
Proof. vm_compute. reflexivity. Qed.

(** ** The ledger over several runs *)

(** Calibration runs never leave an empty ledger entry behind, so in a
    ledger built by them a device with an empty history has no entry and
    its calibration status is unknown. *)
Theorem ledger_never_empty
    (read_data : nat -> result (option DeviceReading.t)) (utcnow : nat -> Z)
    (dm : DeviceManager.t) (self : DeviceCalibrator.t) :
  ledger_ok self ->
  (forall device_id reference_systolic reference_diastolic,
     ledger_ok
       (snd (DeviceCalibrator.calibrate_blood_pressure_monitor read_data utcnow
               dm self device_id reference_systolic reference_diastolic))) /\
  (forall device_id reference_spo2 reference_pulse,
     ledger_ok
       (snd (DeviceCalibrator.calibrate_pulse_oximeter read_data utcnow
               dm self device_id reference_spo2 reference_pulse))) /\
  (forall device_id now,
     DeviceCalibrator.get_calibration_history self device_id = [] ->
     DeviceCalibrator.calibration_records self !! device_id = None /\
     DeviceCalibrator.check_calibration_status dm self now device_id
     = CalibrationStatus.UNKNOWN).
Proof.
  intros Hok. split; [|split].
  - intros. now apply ledger_ok_calibrate.
  - intros. now apply ledger_ok_calibrate.
  - intros device_id now Hempty.
    unfold DeviceCalibrator.get_calibration_history in Hempty.
    unfold DeviceCalibrator.check_calibration_status.
    destruct (DeviceCalibrator.calibration_records self !! device_id)
      as [records|] eqn:Hrec; [|split; reflexivity].
    cbn in Hempty. subst records. now apply Hok in Hrec.
Qed.

Lemma ledger_never_empty_witness :
  ledger_ok calibrator_own /\
  DeviceCalibrator.check_calibration_status dm_bp DeviceCalibrator.init 0 "dev-1"
  = CalibrationStatus.UNKNOWN.
Proof.
  destruct (ledger_never_empty (DeviceCalibrator.driver_reads bp_connected)
              (ticking 1000) dm_bp DeviceCalibrator.init ledger_ok_init)
    as (Hbp & _ & Hempty).
  split.
  - exact (Hbp "dev-1" (Float 120) (Float 80)).
  - apply Hempty. reflexivity.
Defined.

Lemma max_by_date_last (rest : list CalibrationRecord.t) :
  forall best,
    dates_increase (best :: rest) ->
    last (best :: rest) = Some (DeviceCalibrator.max_by_date best rest).
Proof.
  induction rest as [|x rest IH]; intros best Hinc; [reflexivity|].
  cbn [DeviceCalibrator.max_by_date].
  assert (Hlt : CalibrationRecord.calibration_date best
                < CalibrationRecord.calibration_date x)
    by (apply (Hinc 0%nat 1%nat); [lia | reflexivity | reflexivity]).
  apply Z.ltb_lt in Hlt. rewrite Hlt.
  rewrite <- IH.
  - reflexivity.
  - intros i j a b Hij Ha Hb. apply (Hinc (S i) (S j)); [lia | exact Ha | exact Hb].
Qed.

(** When every record of a device is dated later than the one before it,
    the record [check_calibration_status] consults is the one appended
    last: for a device still in the table whose last record is not older
    than the interval, the answer is the status of that last record. *)
Theorem status_of_last_record (dm : DeviceManager.t) (self : DeviceCalibrator.t)
    (now : Z) (device_id : string) (records : list CalibrationRecord.t)
    (latest : CalibrationRecord.t) (device : DeviceDriver.t) :
  DeviceCalibrator.calibration_records self !! device_id = Some records ->
  dates_increase records ->
  last records = Some latest ->
  DeviceManager.devices dm !! device_id = Some device ->
  let interval :=
    default 180
      (DeviceCalibrator.calibration_intervals
         (DeviceInfo.device_type (DeviceDriver.device_info device))) in
  let age := days_of (now - CalibrationRecord.calibration_date latest) in
  (age <= interval ->
   DeviceCalibrator.check_calibration_status dm self now device_id
   = CalibrationRecord.status latest) /\
  (interval < age ->
   DeviceCalibrator.check_calibration_status dm self now device_id
   = CalibrationStatus.NEEDS_CALIBRATION).
Proof.
  intros Hrec Hinc Hlast Hdev. cbv zeta.
  unfold DeviceCalibrator.check_calibration_status. rewrite Hrec, Hdev.
  destruct records as [|r rest]; [discriminate|].
  rewrite (max_by_date_last rest r Hinc) in Hlast. injection Hlast as <-.
  split; intros H.
  - apply Z.ltb_ge in H. now rewrite H.
  - apply Z.ltb_lt in H. now rewrite H.
Qed.

Lemma two_runs_history :
  DeviceCalibrator.calibration_records calibrator_two !! "dev-1"
  = Some [record_own; record_second].
Proof. vm_compute. reflexivity. Qed.

Lemma two_runs_dates : dates_increase [record_own; record_second].
Proof.
  intros i j a b Hij Ha Hb.
  destruct i as [|[|i]], j as [|[|j]]; cbn in Ha, Hb; try lia; try discriminate.
  injection Ha as <-. injection Hb as <-. vm_compute. reflexivity.
Qed.

Lemma status_of_last_record_witness :
  DeviceCalibrator.check_calibration_status dm_bp calibrator_two 6000 "dev-1"
  = CalibrationRecord.status record_second.
Proof.
  assert (Hdev : DeviceManager.devices dm_bp !! "dev-1"
                 = Some (DeviceDriver.add_callback _handle_device_reading bp_connected))
    by (vm_compute; reflexivity).
  destruct (status_of_last_record dm_bp calibrator_two 6000 "dev-1"
              [record_own; record_second] record_second _
              two_runs_history two_runs_dates eq_refl Hdev) as [Hfresh _].
  apply Hfresh. vm_compute. discriminate.
Defined.

(** With equal dates it is the first record that is consulted. *)
Example first_of_equal_dates :
  DeviceCalibrator.max_by_date record_own [record_own; record_own] = record_own /\
  forall r, DeviceCalibrator.max_by_date record_own
              [CalibrationRecord.Build "dev-1"
                 (CalibrationRecord.calibration_date record_own) "user" ∅ ∅ ∅
                 r None None None None]
            = record_own.
Proof. split; [reflexivity|]. intros r. vm_compute. reflexivity. Qed.

(** ** The window of health samples *)

(** After a health check of a device its window holds exactly the earlier
    samples and the new one that are younger than 24 hours at the second
    clock read, in this order: the new sample is there, as the last one,
    exactly when it is younger than 24 hours; the window grows by at most
    one sample and holds nothing older; the windows of other devices and
    the active flag are untouched. *)
Theorem health_window_bounded (self : DeviceHealthMonitor.t) (device_id : string)
    (device : DeviceDriver.t) (t_sample t_evict : Z) :
  let self' :=
    DeviceHealthMonitor._check_device_health self device_id device
      t_sample t_evict in
  let old := default [] (DeviceHealthMonitor.health_metrics self !! device_id) in
  let fresh m := (t_evict - timedelta_hours 24 <? HealthMetrics.timestamp m)%Z in
  exists window sample,
    DeviceHealthMonitor.health_metrics self' !! device_id = Some window /\
    HealthMetrics.device_id sample = device_id /\
    HealthMetrics.timestamp sample = t_sample /\
    window = List.filter fresh (old ++ [sample]) /\
    (t_evict - timedelta_hours 24 < t_sample ->
     window = List.filter fresh old ++ [sample] /\
     In sample window /\ last window = Some sample) /\
    (t_sample <= t_evict - timedelta_hours 24 ->
     window = List.filter fresh old /\ ~ In sample window) /\
    (forall m, In m window ->
               t_evict - timedelta_hours 24 < HealthMetrics.timestamp m) /\
    (forall m, In m old ->
               t_evict - timedelta_hours 24 < HealthMetrics.timestamp m ->
               In m window) /\
    (forall m, In m window -> In m old \/ m = sample) /\
    (forall m, In m window ->
               In m old \/ HealthMetrics.timestamp m = t_sample) /\
    (length window <= S (length old))%nat /\
    (forall other, other <> device_id ->
       DeviceHealthMonitor.health_metrics self' !! other
       = DeviceHealthMonitor.health_metrics self !! other) /\
    DeviceHealthMonitor.monitoring_active self'
    = DeviceHealthMonitor.monitoring_active self.
Proof.
  cbv zeta.
  destruct (check_health_scores self device_id device t_sample t_evict)
    as (sample & Hid & Hts & Hwin & _).
  set (old := default [] (DeviceHealthMonitor.health_metrics self !! device_id)) in *.
  set (fresh := fun m => (t_evict - timedelta_hours 24 <? HealthMetrics.timestamp m)%Z)
    in *.
  assert (Hall : forall m, In m (List.filter fresh (old ++ [sample])) ->
                           t_evict - timedelta_hours 24 < HealthMetrics.timestamp m).
  { intros m Hm. apply List.filter_In in Hm as [_ Hm]. now apply Z.ltb_lt in Hm. }
  exists (List.filter fresh (old ++ [sample])), sample.
  split; [exact Hwin|]. split; [exact Hid|]. split; [exact Hts|].
  split; [reflexivity|].
  split.
  { intros Hf. assert (Hfs : fresh sample = true)
      by (subst fresh; cbn beta; rewrite Hts; now apply Z.ltb_lt).
    rewrite List.filter_app. cbn [List.filter]. rewrite Hfs.
    split; [reflexivity|]. split.
    - apply List.in_or_app. right. now left.
    - apply last_snoc. }
  split.
  { intros Hstale. assert (Hfs : fresh sample = false)
      by (subst fresh; cbn beta; rewrite Hts; apply Z.ltb_ge; exact Hstale).
    split.
    - rewrite List.filter_app. cbn [List.filter]. rewrite Hfs.
      apply List.app_nil_r.
    - intros Hin. apply Hall in Hin. rewrite Hts in Hin. lia. }
  split; [exact Hall|].
  split.
  { intros m Hm Hf. apply List.filter_In. split.
    - apply List.in_or_app. now left.
    - subst fresh. cbn beta. now apply Z.ltb_lt. }
  split.
  { intros m Hm. apply List.filter_In in Hm as [Hm _].
    apply List.in_app_or in Hm as [Hm | [<- | []]]; [now left | now right]. }
  split.
  { intros m Hm. apply List.filter_In in Hm as [Hm _].
    apply List.in_app_or in Hm as [Hm | [<- | []]]; [now left | now right]. }
  split.
  { etransitivity; [apply List.filter_length_le|].
    rewrite length_app. cbn. lia. }
  split.
  { intros other Hne. now apply check_health_other. }
  reflexivity.
Qed.

(** A device that is no longer in the device table keeps the health status
    of its last sample: a pass of the monitoring loop neither adds to its
    window nor evicts from it, so it does not become offline. *)
Theorem removed_device_keeps_health (utcnow : nat -> Z) (dm : DeviceManager.t)
    (self : DeviceHealthMonitor.t) (device_id : string) :
  DeviceManager.devices dm !! device_id = None ->
  DeviceHealthMonitor.health_metrics
    (DeviceHealthMonitor.tick utcnow dm self) !! device_id
  = DeviceHealthMonitor.health_metrics self !! device_id /\
  DeviceHealthMonitor.get_device_health
    (DeviceHealthMonitor.tick utcnow dm self) device_id
  = DeviceHealthMonitor.get_device_health self device_id.
Proof.
  intros Hnone.
  pose proof (proj2 (tick_checks_every_device utcnow dm self device_id) Hnone) as H.
  split; [exact H|].
  unfold DeviceHealthMonitor.get_device_health. now rewrite H.
Qed.

Lemma removed_device_keeps_health_witness :
  let monitored :=
    DeviceHealthMonitor.tick (ticking 1000) dm_bp DeviceHealthMonitor.init in
  DeviceHealthMonitor.get_device_health monitored "dev-1" = HealthStatus.HEALTHY /\
  DeviceHealthMonitor.get_device_health
    (DeviceHealthMonitor.tick (ticking (timedelta_days 30)) dm_gone monitored)
    "dev-1"
  = HealthStatus.HEALTHY.
Proof.
  cbv zeta. split; [vm_compute; reflexivity|].
  rewrite (proj2 (removed_device_keeps_health (ticking (timedelta_days 30)) dm_gone
                    (DeviceHealthMonitor.tick (ticking 1000) dm_bp
                       DeviceHealthMonitor.init) "dev-1" eq_refl)).
  vm_compute. reflexivity.
Defined.

(** ** After [stop_monitoring] *)

Lemma resume_stopped (utcnow : nat -> Z) (dm : DeviceManager.t) (i : nat)
    (sys : DeviceHealthMonitor.system) :
  DeviceHealthMonitor.monitoring_active (DeviceHealthMonitor.monitor sys) = false ->
  DeviceHealthMonitor.resume utcnow dm i sys
  = DeviceHealthMonitor.System (DeviceHealthMonitor.monitor sys)
      (<[i := DeviceHealthMonitor.Returned]> (DeviceHealthMonitor.loop_tasks sys)).
Proof.
  intros Hoff. unfold DeviceHealthMonitor.resume. rewrite Hoff.
  destruct sys as [m tasks]. cbn [DeviceHealthMonitor.loop_tasks DeviceHealthMonitor.monitor].
  destruct (tasks !! i) as [[|]|] eqn:Hi.
  - reflexivity.
  - now rewrite list_insert_id.
  - rewrite list_insert_ge; [reflexivity|]. now apply lookup_ge_None.
Qed.

Lemma all_returned_no_live (tasks : list DeviceHealthMonitor.task) :
  (forall i, (i < length tasks)%nat ->
             tasks !! i = Some DeviceHealthMonitor.Returned) ->
  List.filter (fun x => bool_decide (x = DeviceHealthMonitor.Suspended)) tasks = [].
Proof.
  induction tasks as [|x tasks IH]; intros Hall; [reflexivity|].
  cbn [List.filter].
  pose proof (Hall 0%nat ltac:(cbn; lia)) as H0. cbn in H0. injection H0 as ->.
  rewrite bool_decide_eq_false_2 by discriminate.
  apply IH. intros i Hi. apply (Hall (S i)). cbn. lia.
Qed.

(** Once monitoring has been stopped and is not started again, the loops
    only wind down: however the event loop schedules them, no sample is
    added or evicted, every loop that gets resumed returns, and when each
    of them has been resumed no polling loop is left. *)
Theorem stopped_monitor_winds_down (utcnow : nat -> Z) (dm : DeviceManager.t)
    (schedule : list nat) :
  forall sys : DeviceHealthMonitor.system,
    DeviceHealthMonitor.monitoring_active (DeviceHealthMonitor.monitor sys) = false ->
    let sys' :=
      fold_left (fun s i => DeviceHealthMonitor.resume utcnow dm i s) schedule sys in
    DeviceHealthMonitor.monitor sys' = DeviceHealthMonitor.monitor sys /\
    length (DeviceHealthMonitor.loop_tasks sys')
    = length (DeviceHealthMonitor.loop_tasks sys) /\
    (forall i, DeviceHealthMonitor.loop_tasks sys !! i
               = Some DeviceHealthMonitor.Returned ->
               DeviceHealthMonitor.loop_tasks sys' !! i
               = Some DeviceHealthMonitor.Returned) /\
    (forall i, In i schedule ->
               (i < length (DeviceHealthMonitor.loop_tasks sys))%nat ->
               DeviceHealthMonitor.loop_tasks sys' !! i
               = Some DeviceHealthMonitor.Returned) /\
    ((forall i, (i < length (DeviceHealthMonitor.loop_tasks sys))%nat ->
                In i schedule) ->
     DeviceHealthMonitor.live_loops sys' = 0%nat).
Proof.
  induction schedule as [|i0 schedule IH]; intros sys Hoff; cbv zeta.
  - cbn [fold_left]. repeat split; try tauto.
    + intros i [].
    + intros Hall. destruct (DeviceHealthMonitor.loop_tasks sys) eqn:Ht.
      * unfold DeviceHealthMonitor.live_loops. now rewrite Ht.
      * exfalso. apply (Hall 0%nat). cbn. lia.
  - cbn [fold_left]. rewrite resume_stopped by exact Hoff.
    set (sys1 := DeviceHealthMonitor.System (DeviceHealthMonitor.monitor sys)
                   (<[i0 := DeviceHealthMonitor.Returned]>
                      (DeviceHealthMonitor.loop_tasks sys))).
    destruct (IH sys1 Hoff) as (Hm & Hlen & Hkeep & Hsched & _).
    cbv zeta in Hm, Hlen, Hkeep, Hsched.
    assert (Hlen1 : length (DeviceHealthMonitor.loop_tasks sys1)
                    = length (DeviceHealthMonitor.loop_tasks sys))
      by (cbn; apply length_insert).
    assert (Hstep : forall i,
               i = i0 \/ DeviceHealthMonitor.loop_tasks sys !! i
                         = Some DeviceHealthMonitor.Returned ->
               (i < length (DeviceHealthMonitor.loop_tasks sys))%nat ->
               DeviceHealthMonitor.loop_tasks sys1 !! i
               = Some DeviceHealthMonitor.Returned).
    { intros i [-> | Hi] Hlt; cbn.
      - now apply list_lookup_insert_eq.
      - destruct (decide (i0 = i)) as [-> | Hne].
        + now apply list_lookup_insert_eq.
        + now rewrite list_lookup_insert_ne. }
    assert (Hin : forall i, In i (i0 :: schedule) ->
               (i < length (DeviceHealthMonitor.loop_tasks sys))%nat ->
               DeviceHealthMonitor.loop_tasks
                 (fold_left (fun s i => DeviceHealthMonitor.resume utcnow dm i s)
                    schedule sys1) !! i
               = Some DeviceHealthMonitor.Returned).
    { intros i [<- | Hi] Hlt.
      - apply Hkeep. apply Hstep; [now left | exact Hlt].
      - apply Hsched; [exact Hi | lia]. }
    split; [exact Hm|]. split; [lia|]. split; [|split].
    + intros i Hi. apply Hkeep. apply Hstep; [now right|].
      now apply lookup_lt_Some in Hi.
    + exact Hin.
    + intros Hall. unfold DeviceHealthMonitor.live_loops.
      rewrite all_returned_no_live; [reflexivity|].
      intros i Hi. apply Hin; [apply Hall|]; lia.
Qed.

Lemma stopped_monitor_winds_down_witness :
  let stopped :=
    DeviceHealthMonitor.stop_monitoring
      (DeviceHealthMonitor.start_monitoring
         (DeviceHealthMonitor.start_monitoring DeviceHealthMonitor.boot)) in
  DeviceHealthMonitor.live_loops stopped = 2%nat /\
  DeviceHealthMonitor.live_loops
    (fold_left (fun s i => DeviceHealthMonitor.resume (ticking 0) dm_bp i s)
       [1%nat; 0%nat] stopped) = 0%nat.
Proof.
  cbv zeta. split; [reflexivity|].
  apply (stopped_monitor_winds_down (ticking 0) dm_bp [1%nat; 0%nat]).
  - reflexivity.
  - cbn. intros i Hi. destruct i as [|[|i]]; [right; now left | now left | lia].
Defined.

(** Starting again before the old loop has woken up revives it: the flag
    it tests is set again, so two loops poll from then on. *)
Example restart_revives_old_loop :
  let sys :=
    DeviceHealthMonitor.start_monitoring
      (DeviceHealthMonitor.stop_monitoring
         (DeviceHealthMonitor.start_monitoring DeviceHealthMonitor.boot)) in
  DeviceHealthMonitor.live_loops
    (DeviceHealthMonitor.resume (ticking 2000) dm_bp 1
       (DeviceHealthMonitor.resume (ticking 1000) dm_bp 0 sys)) = 2%nat.
Proof. vm_compute. reflexivity. Qed.

(** ** The health report *)

Lemma report_all_summary (utcnow : nat -> Z) (self : DeviceHealthMonitor.t)
    (items : list (string * DeviceDriver.t)) :
  forall (k : nat) (report : HealthMonitor.Report),
    let s0 := HealthMonitor.summary report in
    let s := HealthMonitor.summary
               (HealthMonitor.report_all utcnow self k items report) in
    HealthMonitor.total_devices s = HealthMonitor.total_devices s0 /\
    HealthMonitor.timestamp (HealthMonitor.report_all utcnow self k items report)
    = HealthMonitor.timestamp report /\
    (HealthMonitor.healthy s + HealthMonitor.warning s
     + HealthMonitor.critical s + HealthMonitor.offline s
     = HealthMonitor.healthy s0 + HealthMonitor.warning s0
       + HealthMonitor.critical s0 + HealthMonitor.offline s0
       + length items)%nat.
Proof.
  induction items as [|[device_id device] items IH]; intros k report; cbv zeta.
  - cbn. repeat split; lia.
  - cbn [HealthMonitor.report_all length].
    destruct (IH (S k)
                {| HealthMonitor.timestamp := HealthMonitor.timestamp report;
                   HealthMonitor.devices :=
                     <[device_id :=
                         {| HealthMonitor.device_info := DeviceDriver.device_info device;
                            HealthMonitor.health_status :=
                              DeviceHealthMonitor.get_device_health self device_id;
                            HealthMonitor.current_status := DeviceDriver.status device;
                            HealthMonitor.recent_metrics :=
                              HealthMonitor.last_n 10
                                (HealthMonitor.get_health_metrics self device_id 1
                                   (utcnow k)) |}]>
                       (HealthMonitor.devices report);
                   HealthMonitor.summary :=
                     HealthMonitor.count
                       (DeviceHealthMonitor.get_device_health self device_id)
                       (HealthMonitor.summary report) |})
      as (Ht & Hts & Hsum).
    cbv zeta in Ht, Hts, Hsum. cbn [HealthMonitor.summary HealthMonitor.timestamp] in *.
    rewrite Ht, Hts, Hsum. clear.
    destruct (DeviceHealthMonitor.get_device_health self device_id);
      cbn; repeat split; lia.
Qed.

Lemma report_all_other (utcnow : nat -> Z) (self : DeviceHealthMonitor.t)
    (items : list (string * DeviceDriver.t)) :
  forall (k : nat) (report : HealthMonitor.Report) (other : string),
    other ∉ items.*1 ->
    HealthMonitor.devices (HealthMonitor.report_all utcnow self k items report)
      !! other
    = HealthMonitor.devices report !! other.
Proof.
  induction items as [|[device_id device] items IH]; intros k report other Hnot;
    [reflexivity|].
  cbn [HealthMonitor.report_all]. cbn in Hnot.
  apply not_elem_of_cons in Hnot as [Hne Hnot].
  rewrite IH by exact Hnot. cbn. now rewrite lookup_insert_ne.
Qed.

Lemma report_all_entry (utcnow : nat -> Z) (self : DeviceHealthMonitor.t)
    (items : list (string * DeviceDriver.t)) :
  forall (k : nat) (report : HealthMonitor.Report) (device_id : string)
         (device : DeviceDriver.t),
    NoDup items.*1 ->
    (device_id, device) ∈ items ->
    exists now,
      HealthMonitor.devices (HealthMonitor.report_all utcnow self k items report)
        !! device_id
      = Some {| HealthMonitor.device_info := DeviceDriver.device_info device;
                HealthMonitor.health_status :=
                  DeviceHealthMonitor.get_device_health self device_id;
                HealthMonitor.current_status := DeviceDriver.status device;
                HealthMonitor.recent_metrics :=
                  HealthMonitor.last_n 10
                    (HealthMonitor.get_health_metrics self device_id 1 now) |}.
Proof.
  induction items as [|[id0 dev0] items IH]; intros k report device_id device Hnd Hin.
  - now apply elem_of_nil in Hin.
  - cbn in Hnd. apply NoDup_cons in Hnd as [Hfresh Hnd].
    cbn [HealthMonitor.report_all].
    apply elem_of_cons in Hin as [[= -> ->]|Hin].
    + exists (utcnow k). rewrite report_all_other by exact Hfresh.
      cbn. apply lookup_insert_eq.
    + now apply IH.
Qed.

Lemma last_n_length {A} (n : nat) (l : list A) :
  (length (HealthMonitor.last_n n l) <= n)%nat.
Proof. unfold HealthMonitor.last_n. rewrite length_drop. lia. Qed.

(** In a health report the four counters of the summary add up to
    total_devices, which is the size of the device table; the report has
    an entry for exactly the devices of the table, and each entry gives
    the device's current health status, its connection state and at most
    ten samples. *)
Theorem health_report_counts (utcnow : nat -> Z) (dm : DeviceManager.t)
    (self : DeviceHealthMonitor.t) :
  let report := HealthMonitor.generate_health_report utcnow dm self in
  let s := HealthMonitor.summary report in
  HealthMonitor.total_devices s = size (DeviceManager.devices dm) /\
  (HealthMonitor.healthy s + HealthMonitor.warning s
   + HealthMonitor.critical s + HealthMonitor.offline s
   = HealthMonitor.total_devices s)%nat /\
  HealthMonitor.timestamp report = utcnow 0%nat /\
  (forall device_id,
     DeviceManager.devices dm !! device_id = None ->
     HealthMonitor.devices report !! device_id = None) /\
  (forall device_id device,
     DeviceManager.devices dm !! device_id = Some device ->
     exists entry,
       HealthMonitor.devices report !! device_id = Some entry /\
       HealthMonitor.health_status entry
       = DeviceHealthMonitor.get_device_health self device_id /\
       HealthMonitor.current_status entry = DeviceDriver.status device /\
       HealthMonitor.device_info entry = DeviceDriver.device_info device /\
       (length (HealthMonitor.recent_metrics entry) <= 10)%nat /\
       (forall m, In m (HealthMonitor.recent_metrics entry) ->
                  In m (default []
                          (DeviceHealthMonitor.health_metrics self !! device_id)))).
Proof.
  cbv zeta. unfold HealthMonitor.generate_health_report.
  set (items := map_to_list (DeviceManager.devices dm)).
  set (r0 := {| HealthMonitor.timestamp := utcnow 0%nat;
                HealthMonitor.devices := ∅;
                HealthMonitor.summary :=
                  HealthMonitor.Build_Summary (length items) 0 0 0 0 |}).
  destruct (report_all_summary utcnow self items 1 r0) as (Ht & Hts & Hsum).
  cbv zeta in Ht, Hts, Hsum. cbn in Ht, Hts, Hsum.
  split; [rewrite Ht; subst items; now rewrite length_map_to_list|].
  split; [lia|]. split; [exact Hts|]. split.
  - intros device_id Hnone. rewrite report_all_other; [apply lookup_empty|].
    intros Hin. apply list_elem_of_fmap in Hin as ([id dev] & -> & Hin).
    apply elem_of_map_to_list in Hin. cbn in Hnone. congruence.
  - intros device_id device Hdev.
    destruct (report_all_entry utcnow self items 1 r0 device_id device)
      as [now Hentry].
    + apply NoDup_fst_map_to_list.
    + now apply elem_of_map_to_list.
    + eexists. split; [exact Hentry|]. cbn.
      repeat split; [apply last_n_length|].
      intros m Hm. unfold HealthMonitor.last_n in Hm.
      apply list_elem_of_In in Hm. apply subseteq_drop in Hm.
      apply list_elem_of_In in Hm.
      unfold HealthMonitor.get_health_metrics in Hm.
      destruct (DeviceHealthMonitor.health_metrics self !! device_id) as [l|];
        [|destruct Hm].
      now apply List.filter_In in Hm as [Hm _].
Qed.

(** ** Discovery *)

Section Discovery.
Variable lower : string -> string.

Lemma rssi_or_zero (r : option Z) :
  match r with
  | Some r => if (r =? 0)%Z then 0 else r
  | None => 0
  end = default 0 r.
Proof. destruct r as [r|]; [|reflexivity]. cbn. now destruct (Z.eqb_spec r 0). Qed.

(** Name patterns are tried in the order omron, nonin, braun, withings and
    the first one found in the lowered name fixes type and manufacturer,
    whatever services the device advertises; only for a name without
    pattern are the advertised services consulted, blood pressure before
    pulse oximetry before thermometer, with manufacturer "Unknown"; a
    device with neither is not a medical device. *)
Theorem identify_device (new_uuid : string) (now : Z) (device : BLEDevice) :
  let name := default "" (ble_name device) in
  let n := lower name in
  let uuids := default [] (ble_uuids device) in
  let out := Manager._identify_medical_device lower new_uuid now device in
  let info ty manufacturer :=
    Some (DeviceInfo.Build new_uuid name manufacturer name ty
            (ble_address device) (default 0 (ble_rssi device))
            None None (Some now) false "unknown") in
  (contains "omron" n = true -> out = info DeviceType.BLOOD_PRESSURE "Omron") /\
  (contains "omron" n = false -> contains "nonin" n = true ->
   out = info DeviceType.PULSE_OXIMETER "Nonin") /\
  (contains "omron" n = false -> contains "nonin" n = false ->
   contains "braun" n = true -> out = info DeviceType.THERMOMETER "Braun") /\
  (contains "omron" n = false -> contains "nonin" n = false ->
   contains "braun" n = false -> contains "withings" n = true ->
   out = info DeviceType.WEIGHT_SCALE "Withings") /\
  (contains "omron" n = false -> contains "nonin" n = false ->
   contains "braun" n = false -> contains "withings" n = false ->
   (BP_SERVICE_UUID ∈ uuids -> out = info DeviceType.BLOOD_PRESSURE "Unknown") /\
   (BP_SERVICE_UUID ∉ uuids -> PLX_SERVICE_UUID ∈ uuids ->
    out = info DeviceType.PULSE_OXIMETER "Unknown") /\
   (BP_SERVICE_UUID ∉ uuids -> PLX_SERVICE_UUID ∉ uuids ->
    HTS_SERVICE_UUID ∈ uuids -> out = info DeviceType.THERMOMETER "Unknown") /\
   (BP_SERVICE_UUID ∉ uuids -> PLX_SERVICE_UUID ∉ uuids ->
    HTS_SERVICE_UUID ∉ uuids -> out = None)).
Proof.
  cbv zeta. unfold Manager._identify_medical_device.
  rewrite rssi_or_zero.
  cbn [Manager.match_pattern Manager.device_patterns].
  split; [intros ->; reflexivity|].
  split; [intros -> ->; reflexivity|].
  split; [intros -> -> ->; reflexivity|].
  split; [intros -> -> -> ->; reflexivity|].
  intros -> -> -> ->.
  destruct (ble_uuids device) as [[|u us]|]; cbn [default].
  - repeat split; intros; try reflexivity;
      exfalso; eapply not_elem_of_nil; eassumption.
  - unfold mem. repeat split; intros;
      repeat case_bool_decide; try reflexivity; contradiction.
  - repeat split; intros; try reflexivity;
      exfalso; eapply not_elem_of_nil; eassumption.
Qed.

Lemma identify_shape (device : BLEDevice) :
  exists kind : option (DeviceType.t * string),
    forall new_uuid now,
      Manager._identify_medical_device lower new_uuid now device
      = match kind with
        | Some (ty, manufacturer) =>
            Some (DeviceInfo.Build new_uuid (default "" (ble_name device))
                    manufacturer (default "" (ble_name device)) ty
                    (ble_address device) (default 0 (ble_rssi device))
                    None None (Some now) false "unknown")
        | None => None
        end.
Proof.
  unfold Manager._identify_medical_device. rewrite rssi_or_zero.
  destruct (Manager.match_pattern Manager.device_patterns
              (lower (default "" (ble_name device)))) as [[pattern ty]|].
  - exists (Some (ty, title pattern)). intros.
    destruct (ble_uuids device) as [[|u us]|]; reflexivity.
  - destruct (ble_uuids device) as [[|u us]|].
    + exists None. reflexivity.
    + destruct (mem BP_SERVICE_UUID (u :: us));
        [exists (Some (DeviceType.BLOOD_PRESSURE, "Unknown")); reflexivity|].
      destruct (mem PLX_SERVICE_UUID (u :: us));
        [exists (Some (DeviceType.PULSE_OXIMETER, "Unknown")); reflexivity|].
      destruct (mem HTS_SERVICE_UUID (u :: us));
        [exists (Some (DeviceType.THERMOMETER, "Unknown")); reflexivity|].
      exists None. reflexivity.
    + exists None. reflexivity.
Qed.

Lemma identify_all_ids (new_uuid : nat -> string) (utcnow : nat -> Z)
    (devices : list BLEDevice) :
  forall k,
    let found := Manager.identify_all lower new_uuid utcnow k devices in
    map DeviceInfo.device_id found = map new_uuid (seq k (length found)) /\
    map DeviceInfo.last_seen found
    = map (fun i => Some (utcnow i)) (seq k (length found)) /\
    map DeviceInfo.mac_address found
    = map ble_address (List.filter (identifies lower) devices).
Proof.
  induction devices as [|d devices IH]; intros k; cbv zeta;
    cbn [Manager.identify_all List.filter]; [repeat split|].
  unfold identifies at 1.
  destruct (identify_shape d) as [kind Hk]. rewrite !Hk.
  destruct kind as [[ty manufacturer]|].
  - destruct (IH (S k)) as (Hid & Hseen & Hmac). cbv zeta in Hid, Hseen, Hmac.
    cbn [map length seq DeviceInfo.device_id DeviceInfo.last_seen
         DeviceInfo.mac_address].
    rewrite Hid, Hseen, Hmac. repeat split.
  - apply IH.
Qed.

Lemma identify_kind (new_uuid : string) (now : Z) (device : BLEDevice)
    (info : DeviceInfo.t) :
  Manager._identify_medical_device lower new_uuid now device = Some info ->
  DeviceInfo.is_paired info = false /\
  DeviceInfo.device_type info <> DeviceType.HEIGHT_METER /\
  DeviceInfo.device_type info <> DeviceType.GLUCOSE_METER.
Proof.
  unfold Manager._identify_medical_device.
  cbn [Manager.match_pattern Manager.device_patterns].
  intros H.
  repeat match type of H with
         | context [if ?b then _ else _] => destruct b
         | context [match ble_uuids device with _ => _ end] =>
             destruct (ble_uuids device) as [[|? ?]|]
         end;
    try discriminate; injection H as <-; repeat split; discriminate.
Qed.

Lemma identify_all_in (new_uuid : nat -> string) (utcnow : nat -> Z)
    (devices : list BLEDevice) :
  forall k info,
    In info (Manager.identify_all lower new_uuid utcnow k devices) ->
    exists device u t,
      In device devices /\
      Manager._identify_medical_device lower u t device = Some info.
Proof.
  induction devices as [|d devices IH]; intros k info Hin;
    cbn [Manager.identify_all] in Hin; [destruct Hin|].
  destruct (Manager._identify_medical_device lower (new_uuid k) (utcnow k) d)
    as [i|] eqn:Hd.
  - destruct Hin as [<- | Hin].
    + exists d, (new_uuid k), (utcnow k). split; [now left | exact Hd].
    + destruct (IH _ _ Hin) as (d' & u & t & Hd' & Hi).
      exists d', u, t. split; [now right | exact Hi].
  - destruct (IH _ _ Hin) as (d' & u & t & Hd' & Hi).
    exists d', u, t. split; [now right | exact Hi].
Qed.

(** Discovery lists the scanned devices that are recognised, in scan
    order, and hands out fresh identifiers in that order: the k-th listed
    device carries the k-th identifier drawn. No listed device is paired
    or is a height or glucose meter. Without BLE, or when the scan raises,
    the result is the empty list. *)
Theorem discovery_result (ble : bool) (scan : result (list BLEDevice))
    (new_uuid : nat -> string) (utcnow : nat -> Z) :
  let found := Manager.start_discovery lower ble scan new_uuid utcnow in
  (ble = false \/ (exists e, scan = Raise e) -> found = []) /\
  (forall devices,
     ble = true -> scan = Ok devices ->
     map DeviceInfo.mac_address found
     = map ble_address (List.filter (identifies lower) devices) /\
     map DeviceInfo.device_id found = map new_uuid (seq 0 (length found)) /\
     (length found <= length devices)%nat /\
     (forall info, In info found ->
        DeviceInfo.is_paired info = false /\
        DeviceInfo.device_type info <> DeviceType.HEIGHT_METER /\
        DeviceInfo.device_type info <> DeviceType.GLUCOSE_METER)).
Proof.
  cbv zeta. unfold Manager.start_discovery. split.
  - intros [-> | [e ->]]; [reflexivity | now destruct ble].
  - intros devices -> ->. cbn [negb].
    destruct (identify_all_ids new_uuid utcnow devices 0) as (Hid & _ & Hmac).
    cbv zeta in Hid, Hmac.
    split; [exact Hmac|]. split; [exact Hid|]. split.
    + apply (f_equal (@length string)) in Hmac.
      rewrite !length_map in Hmac. rewrite Hmac. apply List.filter_length_le.
    + intros info Hin.
      destruct (identify_all_in new_uuid utcnow devices 0 info Hin)
        as (d & u & t & _ & Hd).
      exact (identify_kind u t d info Hd).
Qed.

End Discovery.

Example discovery_sample :
  let found :=
    Manager.start_discovery lower_sample true
      (Ok [scanned_headset; scanned_cuff; scanned_oximeter])
      (fun k => if (k =? 0)%nat then "id-a" else "id-b") (ticking 100) in
  map DeviceInfo.device_id found = ["id-a"; "id-b"] /\
  map DeviceInfo.device_type found
  = [DeviceType.BLOOD_PRESSURE; DeviceType.PULSE_OXIMETER] /\
  map DeviceInfo.manufacturer found = ["Omron"; "Unknown"] /\
  map DeviceInfo.rssi found = [-40; 0].
Proof. vm_compute. repeat split. Qed.

(** ** One pass of the loop, and runs that did not fail *)

(** A pass of the monitoring loop checks every device of the table once:
    the window of each device afterwards is the one a single health check
    of that device produces, at two clock values read during the pass;
    devices that are not in the table keep their window. *)
Theorem tick_visits_every_device (utcnow : nat -> Z) (dm : DeviceManager.t)
    (self : DeviceHealthMonitor.t) (device_id : string) :
  (forall device,
     DeviceManager.devices dm !! device_id = Some device ->
     exists t_sample t_evict,
       DeviceHealthMonitor.health_metrics
         (DeviceHealthMonitor.tick utcnow dm self) !! device_id
       = DeviceHealthMonitor.health_metrics
           (DeviceHealthMonitor._check_device_health self device_id device
              t_sample t_evict) !! device_id) /\
  (DeviceManager.devices dm !! device_id = None ->
   DeviceHealthMonitor.health_metrics
     (DeviceHealthMonitor.tick utcnow dm self) !! device_id
   = DeviceHealthMonitor.health_metrics self !! device_id).
Proof. exact (tick_checks_every_device utcnow dm self device_id). Qed.

Lemma take_readings_all_return
    (read_data : nat -> result (option DeviceReading.t)) (f1 f2 : string) (n : nat) :
  forall (i : nat) (acc rs : list DeviceReading.t),
    DeviceCalibrator.take_readings read_data f1 f2 i n acc = Ok rs ->
    forall j, (i <= j < i + n)%nat -> exists r, read_data j = Ok r.
Proof.
  induction n as [|n IH]; intros i acc rs H j Hj; [lia|].
  cbn [DeviceCalibrator.take_readings] in H.
  destruct (read_data i) as [reading|e] eqn:Hi;
    cbn [mbind result_bind Py.bind] in H; [|discriminate].
  destruct (decide (j = i)) as [-> | Hne]; [eauto|].
  apply (IH _ _ _ H). lia.
Qed.

Lemma not_failed_needs_reads
    (read_data : nat -> result (option DeviceReading.t)) (utcnow : nat -> Z)
    (p : DeviceCalibrator.procedure) (dm : DeviceManager.t)
    (self : DeviceCalibrator.t) (device_id : string) (ref1 ref2 : number)
    (record : CalibrationRecord.t) :
  fst (DeviceCalibrator.calibrate read_data utcnow p dm self device_id ref1 ref2)
  = Ok record ->
  CalibrationRecord.status record <> CalibrationStatus.CALIBRATION_FAILED ->
  valid_device p dm device_id /\
  (DeviceCalibrator.min_samples p
   <= good_reads_from read_data (DeviceCalibrator.field1 p)
        (DeviceCalibrator.field2 p) 0 (DeviceCalibrator.samples p))%nat /\
  (forall j, (j < DeviceCalibrator.samples p)%nat -> exists r, read_data j = Ok r).
Proof.
  unfold DeviceCalibrator.calibrate. intros Hrun Hok.
  destruct (DeviceManager.devices dm !! device_id) as [device|] eqn:Hdev;
    [|discriminate].
  case_bool_decide as Hty; [|discriminate].
  split; [exists device; split; [exact Hdev | exact Hty]|].
  destruct (DeviceCalibrator.measure read_data utcnow p device_id ref1 ref2)
    as [r|e] eqn:Hm; cbn [fst] in Hrun; injection Hrun as <-;
    [|now contradict Hok].
  unfold DeviceCalibrator.measure in Hm.
  destruct (DeviceCalibrator.take_readings read_data (DeviceCalibrator.field1 p)
              (DeviceCalibrator.field2 p) 0 (DeviceCalibrator.samples p) [])
    as [rs|e] eqn:Htake; cbn [mbind result_bind Py.bind] in Hm; [|discriminate].
  destruct (length rs <? DeviceCalibrator.min_samples p)%nat eqn:Hlen;
    [discriminate|].
  apply Nat.ltb_ge in Hlen. split.
  - apply take_readings_length in Htake. cbn [length] in Htake. lia.
  - intros j Hj. apply (take_readings_all_return _ _ _ _ _ _ _ Htake). lia.
Qed.

(** A calibration run is recorded as calibrated or out_of_spec only if
    the device was valid, every read returned, and at least three of the
    five blood-pressure reads, respectively five of the ten pulse-oximeter
    reads, delivered a reading with both fields. *)
Theorem successful_run_needs_readings
    (read_data : nat -> result (option DeviceReading.t)) (utcnow : nat -> Z)
    (dm : DeviceManager.t) (self : DeviceCalibrator.t) (device_id : string)
    (record : CalibrationRecord.t) :
  CalibrationRecord.status record <> CalibrationStatus.CALIBRATION_FAILED ->
  (forall reference_systolic reference_diastolic,
     fst (DeviceCalibrator.calibrate_blood_pressure_monitor read_data utcnow dm
            self device_id reference_systolic reference_diastolic) = Ok record ->
     (3 <= good_reads_from read_data "systolic" "diastolic" 0 5)%nat /\
     (forall j, (j < 5)%nat -> exists r, read_data j = Ok r)) /\
  (forall reference_spo2 reference_pulse,
     fst (DeviceCalibrator.calibrate_pulse_oximeter read_data utcnow dm
            self device_id reference_spo2 reference_pulse) = Ok record ->
     (5 <= good_reads_from read_data "spo2" "pulse_rate" 0 10)%nat /\
     (forall j, (j < 10)%nat -> exists r, read_data j = Ok r)).
Proof.
  intros Hok. split; intros ref1 ref2 Hrun.
  - exact (proj2 (not_failed_needs_reads read_data utcnow
                    DeviceCalibrator.bp_procedure dm self device_id
                    ref1 ref2 record Hrun Hok)).
  - exact (proj2 (not_failed_needs_reads read_data utcnow
                    DeviceCalibrator.plx_procedure dm self device_id
                    ref1 (Int ref2) record Hrun Hok)).
Qed.

Lemma successful_run_needs_readings_witness :
  (3 <= good_reads_from (steady 123 80) "systolic" "diastolic" 0 5)%nat /\
  (forall j, (j < 5)%nat -> exists r, steady 123 80 j = Ok r).
Proof.
  assert (Hok : CalibrationRecord.status record_at_threshold
                <> CalibrationStatus.CALIBRATION_FAILED)
    by (vm_compute; discriminate).
  apply (proj1 (successful_run_needs_readings (steady 123 80) (ticking 1000)
                  dm_bp DeviceCalibrator.init "dev-1" record_at_threshold Hok)
           (Float 120) (Float 80)).
  vm_compute. reflexivity.
Defined.

(** For a pulse-oximeter run that did not fail, the record holds the
    means of SpO2 and pulse rate over the usable readings and the
    deviations |measured - reference|, each computed as the interpreter
    computes it, and the status is out_of_spec exactly when the SpO2
    deviation is strictly greater than 2 or the pulse-rate deviation
    strictly greater than 3, calibrated otherwise; deviations of at most
    2 and 3 pass. The due date is the second clock value read plus 180
    days. *)
Theorem plx_threshold_exclusive
    (read_data : nat -> result (option DeviceReading.t)) (utcnow : nat -> Z)
    (dm : DeviceManager.t) (self : DeviceCalibrator.t) (device_id : string)
    (reference_spo2 : number) (reference_pulse : Z) (record : CalibrationRecord.t) :
  fst (DeviceCalibrator.calibrate_pulse_oximeter read_data utcnow dm self
         device_id reference_spo2 reference_pulse) = Ok record ->
  CalibrationRecord.status record <> CalibrationStatus.CALIBRATION_FAILED ->
  exists measured_s measured_p deviation_s deviation_p,
    CalibrationRecord.measured_values record !! "spo2" = Some measured_s /\
    CalibrationRecord.measured_values record !! "pulse_rate" = Some measured_p /\
    CalibrationRecord.deviation_values record !! "spo2" = Some deviation_s /\
    CalibrationRecord.deviation_values record !! "pulse_rate" = Some deviation_p /\
    (exists readings total_s total_p,
       DeviceCalibrator.take_readings read_data "spo2" "pulse_rate" 0 10 []
       = Ok readings /\
       (5 <= length readings)%nat /\
       DeviceCalibrator.sum_field "spo2" (Int 0) readings = Ok total_s /\
       DeviceCalibrator.sum_field "pulse_rate" (Int 0) readings = Ok total_p /\
       truediv total_s (Int (Z.of_nat (length readings))) = Ok measured_s /\
       truediv total_p (Int (Z.of_nat (length readings))) = Ok measured_p) /\
    (exists difference_s difference_p,
       sub measured_s reference_spo2 = Ok difference_s /\
       sub measured_p (Int reference_pulse) = Ok difference_p /\
       deviation_s = Py.abs difference_s /\
       deviation_p = Py.abs difference_p) /\
    (CalibrationRecord.status record = CalibrationStatus.OUT_OF_SPEC
     <-> Py.lt (Int 2) deviation_s \/ Py.lt (Int 3) deviation_p) /\
    (CalibrationRecord.status record = CalibrationStatus.CALIBRATED
     <-> ~ Py.lt (Int 2) deviation_s /\ ~ Py.lt (Int 3) deviation_p) /\
    (Py.le deviation_s (Int 2) -> Py.le deviation_p (Int 3) ->
     CalibrationRecord.status record = CalibrationStatus.CALIBRATED) /\
    CalibrationRecord.next_calibration_due record
    = Some (utcnow 1%nat + timedelta_days 180).
Proof.
  unfold DeviceCalibrator.calibrate_pulse_oximeter, DeviceCalibrator.calibrate.
  intros Hrun Hok.
  destruct (DeviceManager.devices dm !! device_id) as [device|]; [|discriminate].
  case_bool_decide; [|discriminate].
  destruct (DeviceCalibrator.measure read_data utcnow DeviceCalibrator.plx_procedure
              device_id reference_spo2 (Int reference_pulse)) as [r|e] eqn:Hm;
    cbn [fst] in Hrun; injection Hrun as <-; [|now contradict Hok].
  destruct (plx_threshold _ eq_refl) as [Hs Hp].
  destruct (measure_Ok_inv read_data utcnow DeviceCalibrator.plx_procedure
              _ (Int 2) (Int 3) 180 eq_refl Hs Hp eq_refl _ _ _ _ Hm)
    as (rs & s1 & s2 & a1 & a2 & d1 & d2 & Htake & Hmin & _ & Hs1 & Hs2
        & Ha1 & Ha2 & Hd1 & Hd2 & Hr).
  cbn [DeviceCalibrator.field1 DeviceCalibrator.field2
       DeviceCalibrator.plx_procedure] in Hr, Htake, Hs1, Hs2.
  cbn [DeviceCalibrator.min_samples DeviceCalibrator.samples
       DeviceCalibrator.plx_procedure] in Hmin, Htake.
  subst r. cbn [CalibrationRecord.measured_values CalibrationRecord.deviation_values
                  CalibrationRecord.status CalibrationRecord.next_calibration_due].
  exists a1, a2, (Py.abs d1), (Py.abs d2).
  split; [apply lookup_insert_eq|].
  split; [rewrite lookup_insert_ne by discriminate; apply lookup_insert_eq|].
  split; [apply lookup_insert_eq|].
  split; [rewrite lookup_insert_ne by discriminate; apply lookup_insert_eq|].
  split; [exists rs, s1, s2; auto 10|].
  split; [exists d1, d2; auto|].
  assert (Hstatus :
    forall b1 b2 : bool,
      ((if b1 || b2 then CalibrationStatus.OUT_OF_SPEC
        else CalibrationStatus.CALIBRATED) = CalibrationStatus.OUT_OF_SPEC
       <-> b1 = true \/ b2 = true) /\
      ((if b1 || b2 then CalibrationStatus.OUT_OF_SPEC
        else CalibrationStatus.CALIBRATED) = CalibrationStatus.CALIBRATED
       <-> b1 <> true /\ b2 <> true)).
  { intros [] []; cbn; intuition congruence. }
  destruct (Hstatus (ltb (Int 2) (Py.abs d1)) (ltb (Int 3) (Py.abs d2)))
    as [Hout Hcal].
  split; [exact Hout|]. split; [exact Hcal|].
  split; [|reflexivity].
  intros H1 H2. apply Hcal. split.
  - exact (le_not_lt _ _ H1).
  - exact (le_not_lt _ _ H2).
Qed.

Lemma plx_threshold_exclusive_witness :
  fst run_plx = Ok record_plx /\
  CalibrationRecord.deviation_values record_plx !! "spo2" = Some (Float 0) /\
  CalibrationRecord.deviation_values record_plx !! "pulse_rate" = Some (Float 3) /\
  CalibrationRecord.status record_plx = CalibrationStatus.CALIBRATED.
Proof.
  assert (Hrun : fst run_plx = Ok record_plx) by (vm_compute; reflexivity).
  assert (Hok : CalibrationRecord.status record_plx
                <> CalibrationStatus.CALIBRATION_FAILED)
    by (vm_compute; discriminate).
  destruct (plx_threshold_exclusive steady_plx (ticking 1000) dm_plx
              DeviceCalibrator.init "dev-2" (Float 98) 72 record_plx Hrun Hok)
    as (ms & mp & ds & dp & _ & _ & Hds & Hdp & _ & _ & _ & _ & Hle & _).
  assert (Hs : CalibrationRecord.deviation_values record_plx !! "spo2"
               = Some (Float 0)) by (vm_compute; reflexivity).
  assert (Hp : CalibrationRecord.deviation_values record_plx !! "pulse_rate"
               = Some (Float 3)) by (vm_compute; reflexivity).
  split; [exact Hrun|]. split; [exact Hs|]. split; [exact Hp|].
  rewrite Hs in Hds. injection Hds as <-.
  rewrite Hp in Hdp. injection Hdp as <-.
  apply Hle; vm_compute; reflexivity.
Defined.

(** The sum, the mean and the deviation are rounded to doubles. Ten
    readings of 98.1 add up to 981.0000000000001, so that against the
    reference 96.1 the deviation is 2.000000000000014 and the run is out
    of spec; ten readings of 90.3 add up to 902.9999999999998, so that
    against 88.3 the deviation is 1.9999999999999858 and the run is
    calibrated. *)
Example plx_rounding_above :
  let record := record_plx_at 0x1.8866666666666p+6 0x1.8066666666666p+6 in
  CalibrationRecord.measured_values record !! "spo2"
  = Some (Float 0x1.8866666666667p+6) /\
  CalibrationRecord.deviation_values record !! "spo2"
  = Some (Float 0x1.0000000000020p+1) /\
  CalibrationRecord.status record = CalibrationStatus.OUT_OF_SPEC.
Proof. vm_compute. repeat split. Qed.

Example plx_rounding_below :
  let record := record_plx_at 0x1.6933333333333p+6 0x1.6133333333333p+6 in
  CalibrationRecord.measured_values record !! "spo2"
  = Some (Float 0x1.6933333333332p+6) /\
  CalibrationRecord.deviation_values record !! "spo2"
  = Some (Float 0x1.fffffffffffc0p+0) /\
  CalibrationRecord.status record = CalibrationStatus.CALIBRATED.
Proof. vm_compute. repeat split. Qed.
